(** * Forum server: authorization, visibility and flag ledger

    A shallow embedding of the forum back end: the two data access
    modules ([dao.js], [dao-user.js]), the SQL schema they run against
    ([db.sql]) and the Express routes of the server ([index.js]).

    The SQLite database is a record of finite maps, one per table, keyed
    by the table's primary key.  A DAO function is a function from a
    database to a result and, where it writes, a new database.  A route
    is a function from the database, the session and the request's
    parameters to a response and the new state. *)

From Stdlib Require Import ZArith String Ascii List Permutation Lia.
From stdpp Require Import base gmap strings list fin_maps fin_sets sorting.
From Stdlib Require OrderedTypeEx.

Open Scope Z_scope.
Open Scope string_scope.

(** ** JavaScript values that reach the data layer *)

Module Js.

(** A string of a request or of a row: its UTF-16 code units.  The
    texts the program itself writes (messages, dates, hashes, the
    session's method) are ASCII and stay Rocq strings. *)
Definition str := list Z.

(** The string an ASCII text denotes. *)
Definition lit (s : string) : str :=
  (fun c => Z.of_nat (nat_of_ascii c)) <$> list_ascii_of_string s.

(** A Number that is an integer, an infinity, or [NaN].  The sign of an
    infinity is not kept: nothing below tells the two apart. *)
Inductive num := NaN | Infinity | Num (z : Z).

(** The double nearest to a natural number: 53 significant bits, a tie
    going to the even neighbour. *)
Definition round53 (n : Z) : Z :=
  let e := Z.log2 n - 52 in
  if (e <=? 0)%Z then n
  else
    let q := n / 2 ^ e in
    let r := n mod 2 ^ e in
    let half := 2 ^ (e - 1) in
    let q' := if (r <? half)%Z then q
              else if (half <? r)%Z then q + 1
              else if Z.even q then q else q + 1 in
    q' * 2 ^ e.

(** The Number an integer is read as: what [JSON.parse] makes of an
    integer literal and [parseInt(s, 10)] of a string of digits. *)
Definition to_number (n : Z) : num :=
  let v := Z.sgn n * round53 (Z.abs n) in
  if (Z.abs v <? 2 ^ 1024)%Z then Num v else Infinity.

(** The number of decimal digits of a natural number. *)
Fixpoint digits_from (fuel : nat) (n : Z) : Z :=
  match fuel with
  | O => 1
  | S fuel' => if (n <? 10)%Z then 1 else 1 + digits_from fuel' (n / 10)
  end.

Definition ndigits (n : Z) : Z := digits_from (Z.to_nat (Z.log2 n)) n.

(** The first decimal digit of a positive number. *)
Definition lead (n : Z) : Z := n / 10 ^ (ndigits n - 1).

(** The digits [Number.prototype.toString] writes for a double [v] of
    [nd] integer digits: the number [s] of [k] digits, [k] as small as
    can be, such that [s * 10 ^ (nd - k)] is read back as [v]; of two
    such the nearer to [v], then the even one.  17 digits always do. *)
Fixpoint shortest (fuel : nat) (k nd v : Z) : Z :=
  match fuel with
  | O => v
  | S fuel' =>
      let p := 10 ^ (nd - k) in
      let lo := v / p in
      let hi := lo + 1 in
      let ok c := match to_number (c * p) with Num w => (w =? v)%Z | _ => false end in
      if ok lo && ok hi then
        if (v - lo * p <? hi * p - v)%Z then lo
        else if (hi * p - v <? v - lo * p)%Z then hi
        else if Z.even lo then lo else hi
      else if ok lo then lo
      else if ok hi then hi
      else shortest fuel' (k + 1) nd v
  end.

(** [parseInt(x)] for a Number [x].  [parseInt] first turns its argument
    into a string.  Below 10^21 that string is the digits of the number,
    and they are read back as the number.  From 10^21 on it is in
    exponent notation, one digit before the point or the [e], and
    [parseInt] reads that digit and stops.  From "Infinity" and "NaN" it
    reads nothing. *)
Definition parseInt (x : num) : num :=
  match x with
  | NaN | Infinity => NaN
  | Num v =>
      if (Z.abs v <? 10 ^ 21)%Z then Num v
      else Num (Z.sgn v * lead (shortest 17 1 (ndigits (Z.abs v)) (Z.abs v)))
  end.

(** [validator.toInt(s)], that is [parseInt(s, 10)], for a string that
    spells the integer [n]. *)
Definition toInt (n : Z) : num := to_number n.

(** An actual argument in the position of a [userId] parameter: left out
    ([undefined]), [null], or a number. *)
Inductive arg := Undefined | Null | Number (n : num).

(** [a === null] *)
Definition is_null (a : arg) : bool :=
  match a with Null => true | _ => false end.

(** The SQL value sqlite3 binds for a placeholder: [null] binds NULL, an
    [undefined] entry of the parameter array is skipped and so stays
    NULL, SQLite stores a [NaN] double as NULL, a double that is an
    integer compares with the integers of a column as that integer, and
    an infinity is a REAL that no integer equals. *)
Inductive sqlvalue := SqlNull | SqlInt (z : Z) | SqlInf.

Definition bind_num (n : num) : sqlvalue :=
  match n with NaN => SqlNull | Infinity => SqlInf | Num z => SqlInt z end.

Definition bind (a : arg) : sqlvalue :=
  match a with
  | Undefined | Null => SqlNull
  | Number n => bind_num n
  end.

(** The integer a bound value is, if it is one: the value of a nullable
    INTEGER column that takes it, and the key it finds a row by. *)
Definition key (v : sqlvalue) : option Z :=
  match v with SqlInt z => Some z | _ => None end.

(** A JSON value as it arrives in [req.body.code]. *)
Inductive json := JAbsent | JNull | JBool (b : bool) | JNumber (z : Z) | JString (s : str).

(** Truthiness of a JSON value. *)
Definition truthy (j : json) : bool :=
  match j with
  | JAbsent | JNull => false
  | JBool b => b
  | JNumber z => negb (z =? 0)%Z
  | JString s => match s with [] => false | _ => true end
  end.

(** [x || null] on a nullable string and on a nullable number. *)
Definition str_or_null (o : option str) : option str :=
  match o with
  | Some ((_ :: _) as s) => Some s
  | _ => None
  end.

Definition num_or_null (o : option Z) : option Z :=
  match o with
  | Some z => if (z =? 0)%Z then None else Some z
  | None => None
  end.

(** [s.includes(pattern)] *)
Fixpoint includes (s pattern : string) : bool :=
  String.prefix pattern s ||
  match s with
  | String _ rest => includes rest pattern
  | EmptyString => false
  end.

End Js.

(** ** The validator library: [trim], [isNumeric], [isLength], [escape] *)

Module Validator.

(** The class [\s] of a regular expression, which is also what
    [String.prototype.trim] removes: the white space and line
    terminator code points. *)
Definition is_space (c : Z) : bool :=
  ((9 <=? c)%Z && (c <=? 13)%Z) || (c =? 32)%Z || (c =? 160)%Z || (c =? 5760)%Z ||
  ((8192 <=? c)%Z && (c <=? 8202)%Z) || (c =? 8232)%Z || (c =? 8233)%Z ||
  (c =? 8239)%Z || (c =? 8287)%Z || (c =? 12288)%Z || (c =? 65279)%Z.

Fixpoint ltrim (l : Js.str) : Js.str :=
  match l with
  | c :: r => if is_space c then ltrim r else l
  | [] => []
  end.

(** [validator.trim(s)] and [s.trim()]: white space removed at both
    ends. *)
Definition trim (s : Js.str) : Js.str := rev (ltrim (rev (ltrim s))).

Definition is_digit (c : Z) : bool := (48 <=? c)%Z && (c <=? 57)%Z.

Definition strip_sign (l : Js.str) : Js.str :=
  match l with
  | c :: r => if (c =? 43)%Z || (c =? 45)%Z then r else l
  | [] => []
  end.

Fixpoint drop_digits (l : Js.str) : Js.str :=
  match l with
  | c :: r => if is_digit c then drop_digits r else l
  | [] => []
  end.

(** [[0-9]+] on a whole list *)
Definition digits1 (l : Js.str) : bool :=
  match l with [] => false | _ => forallb is_digit l end.

(** [validator.isNumeric(s)] with its default options: the pattern
    [^[+-]?([0-9]*[.])?[0-9]+$]. *)
Definition isNumeric (s : Js.str) : bool :=
  let l := strip_sign s in
  digits1 l ||
  match drop_digits l with
  | c :: r => (c =? 46)%Z && digits1 r
  | [] => false
  end.

Definition is_high (c : Z) : bool := (55296 <=? c)%Z && (c <=? 56319)%Z.
Definition is_low (c : Z) : bool := (56320 <=? c)%Z && (c <=? 57343)%Z.

(** The matches of [[\uD800-\uDBFF][\uDC00-\uDFFF]] *)
Fixpoint surrogate_pairs (s : Js.str) : nat :=
  match s with
  | h :: t =>
      match t with
      | l :: r => if is_high h && is_low l then S (surrogate_pairs r) else surrogate_pairs t
      | [] => O
      end
  | [] => O
  end.

(** The matches of the pattern for the variation selectors 16 and 15,
    U+FE0F and U+FE0E *)
Definition presentation_selectors (s : Js.str) : nat :=
  length (List.filter (fun c => (c =? 65039)%Z || (c =? 65038)%Z) s).

(** [validator.isLength(s, { min, max })]: the length counts a surrogate
    pair once and leaves the variation selectors 15 and 16 out. *)
Definition isLength (s : Js.str) (min : nat) (max : option nat) : bool :=
  let len := (length s - presentation_selectors s - surrogate_pairs s)%nat in
  (min <=? len)%nat &&
  match max with Some m => (len <=? m)%nat | None => true end.

(** [validator.escape(s)]: ampersand, double quote, single quote, the
    two angle brackets, slash, backslash and backquote are replaced by
    their HTML entities. *)
Definition escape_char (c : Z) : Js.str :=
  if (c =? 38)%Z then Js.lit "&amp;"
  else if (c =? 34)%Z then Js.lit "&quot;"
  else if (c =? 39)%Z then Js.lit "&#x27;"
  else if (c =? 60)%Z then Js.lit "&lt;"
  else if (c =? 62)%Z then Js.lit "&gt;"
  else if (c =? 47)%Z then Js.lit "&#x2F;"
  else if (c =? 92)%Z then Js.lit "&#x5C;"
  else if (c =? 96)%Z then Js.lit "&#96;"
  else [c].

Definition escape (s : Js.str) : Js.str := s ≫= escape_char.

End Validator.

(** ** Buffers *)

Module Buffer.

Definition hex_val (c : ascii) : option N :=
  let n := N_of_ascii c in
  if (48 <=? n)%N && (n <=? 57)%N then Some (n - 48)%N
  else if (97 <=? n)%N && (n <=? 102)%N then Some (n - 87)%N
  else if (65 <=? n)%N && (n <=? 70)%N then Some (n - 55)%N
  else None.

Fixpoint from_hex (l : list ascii) : list Byte.byte :=
  match l with
  | a :: b :: r =>
      match hex_val a, hex_val b with
      | Some x, Some y => byte_of_ascii (ascii_of_N (16 * x + y)) :: from_hex r
      | _, _ => []
      end
  | _ => []
  end.

(** [Buffer.from(s, "hex")]: pairs of hexadecimal digits, up to the
    first pair that is not one. *)
Definition from (s : string) : list Byte.byte :=
  from_hex (list_ascii_of_string s).

Fixpoint eqb (a b : list Byte.byte) : bool :=
  match a, b with
  | [], [] => true
  | x :: a', y :: b' => Byte.eqb x y && eqb a' b'
  | _, _ => false
  end.

(** [crypto.timingSafeEqual(a, b)]: throws ([None]) when the two
    buffers differ in length, else tells whether they are equal. *)
Definition timingSafeEqual (a b : list Byte.byte) : option bool :=
  if (length a =? length b)%nat then Some (eqb a b) else None.

End Buffer.

(** ** The schema ([db.sql]) *)

(** A row of [users]; the primary key [id] is the key of the table. *)
Record user := {
  u_username : Js.str;     (* VARCHAR(20) NOT NULL UNIQUE *)
  u_salt : string;         (* TEXT NOT NULL *)
  u_password : string;     (* TEXT NOT NULL: the hash, in hexadecimal *)
  u_secret : string;       (* TEXT NOT NULL *)
  u_admin : option Z       (* INTEGER DEFAULT 0 *)
}.

(** A row of [posts]. *)
Record post := {
  p_title : Js.str;            (* VARCHAR(100) NOT NULL UNIQUE *)
  p_userId : Z;                (* INTEGER NOT NULL REFERENCES users(id) *)
  p_text : Js.str;             (* TEXT NOT NULL *)
  p_maxComments : option Z;    (* INTEGER *)
  p_date : string              (* DATETIME *)
}.

(** A row of [comments]. *)
Record comment := {
  c_text : Js.str;             (* TEXT NOT NULL *)
  c_date : string;             (* DATETIME *)
  c_userId : option Z;         (* INTEGER REFERENCES users(id) *)
  c_postId : Z                 (* INTEGER NOT NULL REFERENCES posts(id) ON DELETE CASCADE *)
}.

(** The database.  A row of [interesting_flags] is its primary key
    [(userId, commentId)], so the table is a set of pairs.  [seq_posts]
    and [seq_comments] are the AUTOINCREMENT counters SQLite keeps in
    [sqlite_sequence]. *)
Record db := {
  users : gmap Z user;
  posts : gmap Z post;
  comments : gmap Z comment;
  interesting_flags : gset (Z * Z);
  seq_posts : Z;
  seq_comments : Z
}.

(** ** The SQLite engine, as far as the statements of the DAO need it *)

Module Sqlite.

Inductive error :=
  | UniqueFailed (columns : string)
  | NotNullFailed (column : string)
  | ForeignKeyFailed.

(** [err.message] as sqlite3 reports a constraint violation. *)
Definition message (e : error) : string :=
  match e with
  | UniqueFailed cols => "SQLITE_CONSTRAINT: UNIQUE constraint failed: " ++ cols
  | NotNullFailed col => "SQLITE_CONSTRAINT: NOT NULL constraint failed: " ++ col
  | ForeignKeyFailed => "SQLITE_CONSTRAINT: FOREIGN KEY constraint failed"
  end.

(** A string as a TEXT value holds it.  sqlite3 hands a string over in
    UTF-8, and a surrogate that is not half of a pair has no UTF-8 form:
    U+FFFD is written in its place.  This is the string that is stored,
    compared and read back. *)
Fixpoint text (s : Js.str) : Js.str :=
  match s with
  | h :: t =>
      match t with
      | l :: r =>
          if Validator.is_high h && Validator.is_low l then h :: l :: text r
          else (if Validator.is_high h || Validator.is_low h then 65533 else h) :: text t
      | [] => [if Validator.is_high h || Validator.is_low h then 65533 else h]
      end
  | [] => []
  end.

(** The largest key of a table (0 for an empty one). *)
Definition max_rowid {V} (t : gmap Z V) : Z :=
  map_fold (fun k _ acc => Z.max k acc) 0 t.

(** The rowid an AUTOINCREMENT table gives to a new row: one more than
    the largest rowid the table has held. *)
Definition next_rowid {V} (seq : Z) (t : gmap Z V) : Z :=
  Z.max seq (max_rowid t) + 1.

(** [REFERENCES t(id)] for a value that is not NULL or for a nullable
    column. *)
Definition fk_ok {V} (t : gmap Z V) (v : Js.sqlvalue) : bool :=
  match v with
  | Js.SqlNull => true
  | Js.SqlInt i => bool_decide (is_Some (t !! i))
  | Js.SqlInf => false
  end.

(** [ON DELETE CASCADE] from [comments] to [interesting_flags]: the
    flags that point to a row of [gone] are deleted with it. *)
Definition cascade_flags (gone : gmap Z comment) (f : gset (Z * Z)) : gset (Z * Z) :=
  filter (fun uc => gone !! uc.2 = None) f.

(** [ORDER BY date DESC] over TEXT values: the later date first.  Rows
    of one date come out in the order the scan of the table met them,
    by ascending rowid. *)
Definition later_first (da dz : string) (ia ib : Z) : Prop :=
  match String.compare da dz with
  | Gt => True
  | Eq => ia <= ib
  | Lt => False
  end.

#[global] Instance later_first_dec da dz ia ib : Decision (later_first da dz ia ib).
Proof. unfold later_first. destruct (String.compare da dz); apply _. Defined.

Definition date_desc (a b : Z * comment) : Prop :=
  later_first (c_date a.2) (c_date b.2) a.1 b.1.

#[global] Instance date_desc_dec a b : Decision (date_desc a b).
Proof. unfold date_desc. apply _. Defined.

Definition order_by_date_desc (rows : list (Z * comment)) : list (Z * comment) :=
  merge_sort date_desc rows.

(** [ORDER BY posts.date DESC] *)
Definition post_date_desc (a b : Z * post) : Prop :=
  later_first (p_date a.2) (p_date b.2) a.1 b.1.

#[global] Instance post_date_desc_dec a b : Decision (post_date_desc a b).
Proof. unfold post_date_desc. apply _. Defined.

Definition order_posts_by_date_desc (rows : list (Z * post)) : list (Z * post) :=
  merge_sort post_date_desc rows.

End Sqlite.

(** ** What the platform supplies *)

(** [crypto.scrypt(password, salt, keylen)]: a key of [keylen] bytes. *)
Class Crypto := {
  scrypt : Js.str -> string -> nat -> list Byte.byte;
  scrypt_length : forall password salt keylen,
    length (scrypt password salt keylen) = keylen
}.

(** [DOMPurify.sanitize(s, { ALLOWED_TAGS: [] })] *)
Class Sanitizer := {
  sanitize : Js.str -> Js.str
}.

(** The TOTP strategy's collaborators: [base32.decode] of thirty-two and
    the code check of passport-totp at the time of the request, for a
    key and a period. *)
Class Totp := {
  base32_decode : string -> list Byte.byte;
  totp_verify : Js.str -> list Byte.byte -> Z -> bool
}.

(** A promise that resolves, or a callback that throws instead. *)
Inductive outcome (A : Type) :=
  | Resolved (a : A)
  | Thrown.
Arguments Resolved {A} a.
Arguments Thrown {A}.

(** ** [dao-user.js] *)

(** The user object the DAO builds from a row. *)
Module User.
Record t := { id : Z; username : Js.str; admin : option Z; secret : string }.
End User.

Module UserDao.

Definition user_of_row (i : Z) (row : user) : User.t :=
  {| User.id := i; User.username := u_username row;
     User.admin := u_admin row; User.secret := u_secret row |}.

(** What [getUserById] resolves to: the user object, or the object
    [{ error: "User not found." }]. *)
Inductive user_or_error :=
  | UserObject (u : User.t)
  | UserNotFound.

Definition getUserById (d : db) (i : Js.num) : user_or_error :=
  match Js.key (Js.bind_num i) ≫= fun k => (users d !! k) ≫= fun row => Some (user_of_row k row) with
  | Some u => UserObject u
  | None => UserNotFound
  end.

(** [SELECT * FROM users WHERE username = ?], first row. *)
Definition row_by_username (d : db) (name : Js.str) : option (Z * user) :=
  snd <$> list_find (fun kr : Z * user => u_username kr.2 = Sqlite.text name)
            (map_to_list (users d)).

(** [getUser] resolves to the user object or to [false] ([None]). *)
Definition getUser `{Crypto} (d : db) (name password : Js.str) : outcome (option User.t) :=
  match row_by_username d name with
  | None => Resolved None
  | Some (i, row) =>
      let user := user_of_row i row in
      let salt := u_salt row in
      let hashedPassword := scrypt password salt 32 in
      let passwordHex := Buffer.from (u_password row) in
      match Buffer.timingSafeEqual passwordHex hashedPassword with
      | None => Thrown
      | Some false => Resolved None
      | Some true => Resolved (Some user)
      end
  end.

End UserDao.

(** ** [dao.js] *)

(** The post object of [getPost]. *)
Module Post.
Record t := {
  id : Z; title : Js.str; text : Js.str; date : string;
  maxComments : option Z; username : Js.str; userId : Z; commentCount : nat
}.
End Post.

(** The post object of [listPosts] and [createPost]: as [Post.t], with
    no author id ([createPost] sets none, and [listPosts] takes it from
    a column its query does not select). *)
Module PostSummary.
Record t := {
  id : Z; title : Js.str; text : Js.str; date : string;
  maxComments : option Z; username : Js.str; commentCount : nat
}.
End PostSummary.

(** The comment object of [getCommentsByPostId] and [createComment]. *)
Module Comment.
Record t := {
  id : Z; text : Js.str; date : string; username : option Js.str;
  userId : option Z; interestingCount : nat; markedByMe : bool
}.
End Comment.

Module Dao.

(** A statement that writes: the value the promise resolves to, or the
    error it rejects with. *)
Inductive result (A : Type) :=
  | Ok (a : A)
  | Rejected (e : Sqlite.error).
Arguments Ok {A} a.
Arguments Rejected {A} e.

(** The rows of [comments] with [postId = ?]. *)
Definition comments_of (d : db) (postId : Z) : gmap Z comment :=
  filter (fun kc : Z * comment => c_postId kc.2 = postId) (comments d).

(** [{ error: "Post not found." }] or the post object.  The query joins
    the post with its author's row. *)
Inductive post_or_error :=
  | PostObject (p : Post.t)
  | PostNotFound.

Definition getPost (d : db) (id : Js.num) : post_or_error :=
  match Js.key (Js.bind_num id) with
  | None => PostNotFound
  | Some i =>
      match posts d !! i with
      | None => PostNotFound
      | Some row =>
          match users d !! p_userId row with
          | None => PostNotFound
          | Some author =>
              PostObject
                {| Post.id := i; Post.title := p_title row; Post.text := p_text row;
                   Post.date := p_date row; Post.maxComments := p_maxComments row;
                   Post.username := u_username author; Post.userId := p_userId row;
                   Post.commentCount := size (comments_of d i) |}
          end
      end
  end.

(** [LEFT JOIN users ON comments.userId = users.id] *)
Definition author_name (d : db) (c : comment) : option Js.str :=
  c_userId c ≫= fun u => u_username <$> users d !! u.

(** [(SELECT COUNT( * ) FROM interesting_flags WHERE commentId = comments.id)] *)
Definition flag_count (d : db) (commentId : Z) : nat :=
  size (filter (fun uc : Z * Z => uc.2 = commentId) (interesting_flags d)).

(** The [markedByMe] column: the constant 0 when [userId] is [null],
    else [EXISTS(... WHERE commentId = comments.id AND userId = ?)]. *)
Definition marked_by (d : db) (userId : Js.arg) (commentId : Z) : bool :=
  if Js.is_null userId then false
  else match Js.key (Js.bind userId) with
       | Some u => bool_decide ((u, commentId) ∈ interesting_flags d)
       | None => false
       end.

(** The rows the query of [getCommentsByPostId] selects: the clause
    [AND comments.userId IS NULL] is added when [userId === null]. *)
Definition visible_rows (d : db) (postId : Z) (userId : Js.arg) : gmap Z comment :=
  let rows := comments_of d postId in
  if Js.is_null userId
  then filter (fun kc : Z * comment => c_userId kc.2 = None) rows
  else rows.

Definition comment_of_row (d : db) (userId : Js.arg) (kc : Z * comment) : Comment.t :=
  {| Comment.id := kc.1; Comment.text := c_text kc.2; Comment.date := c_date kc.2;
     Comment.username := Js.str_or_null (author_name d kc.2);
     Comment.userId := Js.num_or_null (c_userId kc.2);
     Comment.interestingCount := flag_count d kc.1;
     Comment.markedByMe := marked_by d userId kc.1 |}.

Definition getCommentsByPostId (d : db) (postId : Js.num) (userId : Js.arg) : list Comment.t :=
  match Js.key (Js.bind_num postId) with
  | None => []
  | Some i =>
      comment_of_row d userId <$>
        Sqlite.order_by_date_desc (map_to_list (visible_rows d i userId))
  end.

(** The comment a request asks to create. *)
Record new_comment := { nc_text : Js.str; nc_postId : Js.num; nc_userId : Js.arg }.

(** [INSERT INTO comments (text, userId, postId, date)]: [postId] is NOT
    NULL, and [userId] and [postId] reference their tables; then the new
    row is read back.  [now] is the value of [DATETIME('now', '+2
    hours')] when the statement runs. *)
Definition createComment (d : db) (c : new_comment) (now : string) : result Comment.t * db :=
  let owner := Js.bind (nc_userId c) in
  match Js.bind_num (nc_postId c) with
  | Js.SqlNull => (Rejected (Sqlite.NotNullFailed "comments.postId"), d)
  | Js.SqlInf => (Rejected Sqlite.ForeignKeyFailed, d)
  | Js.SqlInt postId =>
      if Sqlite.fk_ok (users d) owner && Sqlite.fk_ok (posts d) (Js.SqlInt postId) then
        let commentId := Sqlite.next_rowid (seq_comments d) (comments d) in
        let row := {| c_text := Sqlite.text (nc_text c); c_date := now;
                      c_userId := Js.key owner; c_postId := postId |} in
        let d' := {| users := users d; posts := posts d;
                     comments := <[commentId := row]> (comments d);
                     interesting_flags := interesting_flags d;
                     seq_posts := seq_posts d; seq_comments := commentId |} in
        (Ok {| Comment.id := commentId; Comment.text := c_text row; Comment.date := c_date row;
               Comment.userId := c_userId row;
               Comment.username := Js.str_or_null (author_name d' row);
               Comment.interestingCount := 0; Comment.markedByMe := false |}, d')
      else (Rejected Sqlite.ForeignKeyFailed, d)
  end.

(** [userId = ?] on a nullable column with a bound value: never true
    when either side is NULL. *)
Definition owner_is (column : option Z) (bound : option Z) : bool :=
  match column, bound with
  | Some a, Some b => (a =? b)%Z
  | _, _ => false
  end.

(** [{ updated: true }] or [{ error: msg }] *)
Inductive updated :=
  | Updated
  | UpdateError (msg : string).

Definition set_text (newText : Js.str) (c : comment) : comment :=
  {| c_text := newText; c_date := c_date c; c_userId := c_userId c; c_postId := c_postId c |}.

(** [UPDATE comments SET text = ? WHERE id = ?], with [AND userId = ?]
    unless [isAdminTotp]; [this.changes] is the number of rows it
    changed. *)
Definition updateComment (d : db) (commentId : Js.num) (newText : Js.str)
    (userId : Js.num) (isAdminTotp : bool) : updated * db :=
  match Js.key (Js.bind_num commentId) with
  | None => (UpdateError "Comment not found or not owned by user", d)
  | Some k =>
      let changes :=
        match comments d !! k with
        | Some c =>
            if isAdminTotp then 1
            else if owner_is (c_userId c) (Js.key (Js.bind_num userId)) then 1 else 0
        | None => 0
        end in
      if (changes =? 0)%Z then (UpdateError "Comment not found or not owned by user", d)
      else (Updated,
            {| users := users d; posts := posts d;
               comments := alter (set_text (Sqlite.text newText)) k (comments d);
               interesting_flags := interesting_flags d;
               seq_posts := seq_posts d; seq_comments := seq_comments d |})
  end.

(** Resolves to [this.changes], the number of rows of [comments] the
    statement deleted. *)
Definition deleteComment (d : db) (commentId : Js.num) (userId : Js.num) (isAdminTotp : bool)
    : Z * db :=
  match Js.key (Js.bind_num commentId) with
  | None => (0, d)
  | Some k =>
      match comments d !! k with
      | Some c =>
          if if isAdminTotp then true
             else owner_is (c_userId c) (Js.key (Js.bind_num userId)) then
            (1, {| users := users d; posts := posts d;
                   comments := delete k (comments d);
                   interesting_flags := Sqlite.cascade_flags {[k := c]} (interesting_flags d);
                   seq_posts := seq_posts d; seq_comments := seq_comments d |})
          else (0, d)
      | None => (0, d)
      end
  end.

(** Resolves to the number of rows of [posts] the statement deleted; the
    post's comments and their flags go with it (ON DELETE CASCADE). *)
Definition deletePost (d : db) (postId : Js.num) (userId : Js.num) (isAdminTotp : bool)
    : Z * db :=
  match Js.key (Js.bind_num postId) with
  | None => (0, d)
  | Some k =>
      match posts d !! k with
      | Some p =>
          if if isAdminTotp then true
             else owner_is (Some (p_userId p)) (Js.key (Js.bind_num userId)) then
            let gone := comments_of d k in
            (1, {| users := users d;
                   posts := delete k (posts d);
                   comments := filter (fun kc : Z * comment => c_postId kc.2 ≠ k) (comments d);
                   interesting_flags := Sqlite.cascade_flags gone (interesting_flags d);
                   seq_posts := seq_posts d; seq_comments := seq_comments d |})
          else (0, d)
      | None => (0, d)
      end
  end.

(** [INSERT INTO interesting_flags (commentId, userId) VALUES (?, ?)]:
    both columns are NOT NULL, the pair is the primary key, and each
    column references its table. *)
Definition markCommentAsInteresting (d : db) (commentId : Js.num) (userId : Js.num)
    : result bool * db :=
  match Js.bind_num userId, Js.bind_num commentId with
  | Js.SqlNull, _ => (Rejected (Sqlite.NotNullFailed "interesting_flags.userId"), d)
  | _, Js.SqlNull => (Rejected (Sqlite.NotNullFailed "interesting_flags.commentId"), d)
  | Js.SqlInt u, Js.SqlInt k =>
      if bool_decide ((u, k) ∈ interesting_flags d) then
        (Rejected (Sqlite.UniqueFailed "interesting_flags.userId, interesting_flags.commentId"), d)
      else if Sqlite.fk_ok (users d) (Js.SqlInt u) && Sqlite.fk_ok (comments d) (Js.SqlInt k) then
        (Ok true,
         {| users := users d; posts := posts d; comments := comments d;
            interesting_flags := {[ (u, k) ]} ∪ interesting_flags d;
            seq_posts := seq_posts d; seq_comments := seq_comments d |})
      else (Rejected Sqlite.ForeignKeyFailed, d)
  | _, _ => (Rejected Sqlite.ForeignKeyFailed, d)
  end.

(** [DELETE FROM interesting_flags WHERE commentId = ? AND userId = ?] *)
Definition unmarkCommentAsInteresting (d : db) (commentId : Js.num) (userId : Js.num)
    : result bool * db :=
  match Js.key (Js.bind_num userId), Js.key (Js.bind_num commentId) with
  | Some u, Some k =>
      (Ok true,
       {| users := users d; posts := posts d; comments := comments d;
          interesting_flags := interesting_flags d ∖ {[ (u, k) ]};
          seq_posts := seq_posts d; seq_comments := seq_comments d |})
  | _, _ => (Ok true, d)
  end.

(** One row of the join of [posts] with [users], with its comment
    count; no row when the author is missing. *)
Definition post_summary (d : db) (ip : Z * post) : option PostSummary.t :=
  match users d !! p_userId ip.2 with
  | Some author =>
      Some {| PostSummary.id := ip.1; PostSummary.title := p_title ip.2;
              PostSummary.text := p_text ip.2; PostSummary.date := p_date ip.2;
              PostSummary.maxComments := p_maxComments ip.2;
              PostSummary.username := u_username author;
              PostSummary.commentCount := size (comments_of d ip.1) |}
  | None => None
  end.

Definition listPosts (d : db) : list PostSummary.t :=
  omap (post_summary d) (Sqlite.order_posts_by_date_desc (map_to_list (posts d))).

(** The post a request asks to create. *)
Record new_post := {
  np_title : Js.str; np_text : Js.str; np_maxComments : option Z; np_userId : Js.num
}.

(** No row of [posts] has this title. *)
Definition title_free (d : db) (title : Js.str) : Prop :=
  map_Forall (fun _ p => p_title p <> title) (posts d).

#[global] Instance title_free_dec d title : Decision (title_free d title).
Proof. unfold title_free. apply _. Defined.

(** [INSERT INTO posts (title, text, maxComments, userId, date)]:
    [userId] is NOT NULL, [title] is UNIQUE, [userId] references
    [users]; then the new row is read back through the join. *)
Definition createPost (d : db) (p : new_post) (now : string) : result PostSummary.t * db :=
  match Js.bind_num (np_userId p) with
  | Js.SqlNull => (Rejected (Sqlite.NotNullFailed "posts.userId"), d)
  | owner =>
      if negb (bool_decide (title_free d (Sqlite.text (np_title p)))) then
        (Rejected (Sqlite.UniqueFailed "posts.title"), d)
      else
        match Js.key owner with
        | None => (Rejected Sqlite.ForeignKeyFailed, d)
        | Some u =>
            match users d !! u with
            | None => (Rejected Sqlite.ForeignKeyFailed, d)
            | Some author =>
                let postId := Sqlite.next_rowid (seq_posts d) (posts d) in
                let row := {| p_title := Sqlite.text (np_title p); p_userId := u;
                              p_text := Sqlite.text (np_text p);
                              p_maxComments := np_maxComments p; p_date := now |} in
                let d' := {| users := users d; posts := <[postId := row]> (posts d);
                             comments := comments d;
                             interesting_flags := interesting_flags d;
                             seq_posts := postId; seq_comments := seq_comments d |} in
                (Ok {| PostSummary.id := postId; PostSummary.title := p_title row;
                       PostSummary.text := p_text row; PostSummary.date := p_date row;
                       PostSummary.maxComments := p_maxComments row;
                       PostSummary.username := u_username author;
                       PostSummary.commentCount := size (comments_of d' postId) |}, d')
            end
        end
  end.

End Dao.

(** ** The server ([index.js]) *)

(** The comment object of a response, as [sanitizeComment] builds it. *)
Module CommentJson.
Record t := {
  id : Z; text : Js.str; username : option Js.str; date : Js.str;
  interestingCount : nat; markedByMe : bool
}.
End CommentJson.

(** The post object of a response, as [sanitizePost] builds it. *)
Module PostJson.
Record t := {
  id : Z; title : Js.str; text : Js.str; maxComments : option Js.num;
  username : option Js.str; date : Js.str; commentCount : nat
}.
End PostJson.

Module Server.

(** The session of a request: the user id passport serialized into it at
    login, and the [method] mark of a completed second factor. *)
Record session := { passport_user : option Z; method : option string }.

Inductive body :=
  | JsonError (msg : string)                   (* { error: msg } *)
  | JsonErrors                                 (* { errors: errors.array() } *)
  | JsonSuccess                                (* { success: true } *)
  | JsonOtp                                    (* { otp: "authorized" } *)
  | JsonComment (c : CommentJson.t)
  | JsonComments (l : list CommentJson.t)
  | Text (s : string).

Record response := { status : Z; content : body }.

Definition respond (code : Z) (b : body) : response :=
  {| status := code; content := b |}.

(** What the TOTP strategy does with the user's secret. *)
Inductive event :=
  | Base32Decode (secret : string)
  | TotpVerify (code : Js.str) (key : list Byte.byte) (period : Z).

(** [req.user]: passport's [deserializeUser] resolves the session's id
    with [getUserById] and keeps whatever object comes back. *)
Definition req_user (d : db) (s : session) : option UserDao.user_or_error :=
  (fun i => UserDao.getUserById d (Js.Num i)) <$> passport_user s.

(** [parseInt(req.user.id)] *)
Definition user_id (u : UserDao.user_or_error) : Js.num :=
  match u with
  | UserDao.UserObject o => Js.Num (User.id o)
  | UserDao.UserNotFound => Js.NaN
  end.

(** [!user] for what [getUserById] resolved to: both outcomes are
    objects. *)
Definition not_user (u : UserDao.user_or_error) : bool :=
  match u with
  | UserDao.UserObject _ => false
  | UserDao.UserNotFound => false
  end.

(** Truthiness of [req.user.admin] and of [req.user.secret]. *)
Definition admin (u : UserDao.user_or_error) : bool :=
  match u with
  | UserDao.UserObject o =>
      match User.admin o with Some a => negb (a =? 0)%Z | None => false end
  | UserDao.UserNotFound => false
  end.

Definition has_secret (u : UserDao.user_or_error) : bool :=
  match u with
  | UserDao.UserObject o => negb (String.eqb (User.secret o) "")
  | UserDao.UserNotFound => false
  end.

(** [req.session.method === "totp" && req.user.admin] *)
Definition isAdminWithTotp (s : session) (u : UserDao.user_or_error) : bool :=
  match method s with
  | Some m => String.eqb m "totp" && admin u
  | None => false
  end.

(** [check("id").isInt({ min: 1 })].  The [:id] segment of the path is
    taken as the integer it spells. *)
Definition valid_id (i : Z) : bool := (1 <=? i)%Z.

(** [parseInt(req.params.id)].  By then [toInt()] has put a Number in
    the place of the segment, and [parseInt] reads the digits that
    Number is written with. *)
Definition param_id (i : Z) : Js.num := Js.parseInt (Js.toInt i).

(** The chain on [text]: a string ([Some]) of length at least 1 that
    keeps some content when sanitized. *)
Definition valid_text `{Sanitizer} (t : option Js.str) : bool :=
  match t with
  | Some s => Validator.isLength s 1 None && negb (length (sanitize s) =? 0)%nat
  | None => false
  end.

Definition text_of (t : option Js.str) : Js.str := default [] t.

Definition sanitizeComment `{Sanitizer} (c : Comment.t) : CommentJson.t :=
  {| CommentJson.id := Comment.id c;
     CommentJson.text := sanitize (Comment.text c);
     CommentJson.username :=
       match Js.str_or_null (Comment.username c) with
       | Some n => Some (sanitize (Validator.trim n))
       | None => None
       end;
     CommentJson.date := sanitize (Js.lit (Comment.date c));
     CommentJson.interestingCount := Comment.interestingCount c;
     CommentJson.markedByMe := Comment.markedByMe c |}.

(** [req.user ? parseInt(req.user.id) : null] *)
Definition requester (d : db) (s : session) : Js.arg :=
  match req_user d s with
  | Some u => Js.Number (user_id u)
  | None => Js.Null
  end.

(** GET /api/posts/:id/comments *)
Definition get_post_comments `{Sanitizer} (d : db) (s : session) (id : Z) : response :=
  if negb (valid_id id) then respond 422 JsonErrors
  else
    let postId := param_id id in
    let userId := requester d s in
    let comments := Dao.getCommentsByPostId d postId userId in
    respond 200 (JsonComments (sanitizeComment <$> comments)).

(** POST /api/posts/:id/comments *)
Definition post_post_comments `{Sanitizer} (d : db) (s : session) (id : Z)
    (text : option Js.str) (now : string) : response * db :=
  if negb (valid_id id && valid_text text) then (respond 422 JsonErrors, d)
  else
    let postId := param_id id in
    let userId := requester d s in
    match Dao.getPost d postId with
    | Dao.PostNotFound => (respond 404 (JsonError "Post not found."), d)
    | Dao.PostObject post =>
        let currentComments := Dao.getCommentsByPostId d postId Js.Undefined in
        if match Post.maxComments post with
           | Some m => (m <=? Z.of_nat (length currentComments))%Z
           | None => false
           end
        then (respond 403 (JsonError "Maximum number of comments reached for this post"), d)
        else
          let comment := {| Dao.nc_text := sanitize (text_of text);
                            Dao.nc_postId := postId; Dao.nc_userId := userId |} in
          match Dao.createComment d comment now with
          | (Dao.Ok result, d') => (respond 201 (JsonComment (sanitizeComment result)), d')
          | (Dao.Rejected _, d') =>
              (respond 503 (JsonError "Database error during comment creation"), d')
          end
    end.

(** PUT /api/comments/:id *)
Definition put_comment `{Sanitizer} (d : db) (s : session) (id : Z)
    (text : option Js.str) : response * db :=
  match req_user d s with
  | None => (respond 401 (JsonError "Not authenticated"), d)
  | Some u =>
      if negb (valid_id id && valid_text text) then (respond 422 JsonErrors, d)
      else
        let commentId := param_id id in
        let userId := user_id u in
        if not_user (UserDao.getUserById d userId)
        then (respond 404 (JsonError "User not found"), d)
        else
          let newText := sanitize (text_of text) in
          match Dao.updateComment d commentId newText userId (isAdminWithTotp s u) with
          | (Dao.UpdateError msg, d') => (respond 403 (JsonError msg), d')
          | (Dao.Updated, d') => (respond 200 JsonSuccess, d')
          end
  end.

(** DELETE /api/comments/:id *)
Definition delete_comment (d : db) (s : session) (id : Z) : response * db :=
  match req_user d s with
  | None => (respond 401 (JsonError "Not authenticated"), d)
  | Some u =>
      if negb (valid_id id) then (respond 422 JsonErrors, d)
      else
        let commentId := param_id id in
        let userId := user_id u in
        if not_user (UserDao.getUserById d userId)
        then (respond 404 (JsonError "User not found"), d)
        else
          let '(changes, d') := Dao.deleteComment d commentId userId (isAdminWithTotp s u) in
          if (changes =? 0)%Z
          then (respond 403 (JsonError "Not allowed or comment not found"), d')
          else (respond 200 JsonSuccess, d')
  end.

(** DELETE /api/posts/:id *)
Definition delete_post (d : db) (s : session) (id : Z) : response * db :=
  match req_user d s with
  | None => (respond 401 (JsonError "Not authenticated"), d)
  | Some u =>
      if negb (valid_id id) then (respond 422 JsonErrors, d)
      else
        let postId := param_id id in
        let userId := user_id u in
        if not_user (UserDao.getUserById d userId)
        then (respond 404 (JsonError "User not found"), d)
        else
          let '(changes, d') := Dao.deletePost d postId userId (isAdminWithTotp s u) in
          if (changes =? 0)%Z
          then (respond 403 (JsonError "Not allowed or post not found"), d')
          else (respond 200 JsonSuccess, d')
  end.

(** POST /api/comments/:id/interesting *)
Definition post_comment_interesting (d : db) (s : session) (id : Z) : response * db :=
  match req_user d s with
  | None => (respond 401 (JsonError "Not authenticated"), d)
  | Some u =>
      if negb (valid_id id) then (respond 422 JsonErrors, d)
      else
        let commentId := param_id id in
        let userId := user_id u in
        if not_user (UserDao.getUserById d userId)
        then (respond 404 (JsonError "User not found"), d)
        else
          match Dao.markCommentAsInteresting d commentId userId with
          | (Dao.Ok _, d') => (respond 200 JsonSuccess, d')
          | (Dao.Rejected err, d') =>
              if String.eqb (Sqlite.message err) "Already marked"
              then (respond 409 (JsonError "Comment already marked as interesting by this user"), d')
              else (respond 503 (JsonError "Database error while marking comment as interesting"), d')
          end
  end.

(** DELETE /api/comments/:id/interesting *)
Definition delete_comment_interesting (d : db) (s : session) (id : Z) : response * db :=
  match req_user d s with
  | None => (respond 401 (JsonError "Not authenticated"), d)
  | Some u =>
      if negb (valid_id id) then (respond 422 JsonErrors, d)
      else
        let commentId := param_id id in
        let userId := user_id u in
        if not_user (UserDao.getUserById d userId)
        then (respond 404 (JsonError "User not found"), d)
        else
          match Dao.unmarkCommentAsInteresting d commentId userId with
          | (Dao.Ok _, d') => (respond 200 JsonSuccess, d')
          | (Dao.Rejected _, d') =>
              (respond 503 (JsonError "Database error while unmarking comment as interesting"), d')
          end
  end.

(** POST /api/login-totp: the checking middleware, then
    [passport.authenticate("totp")], then the handler that marks the
    session.  The third component lists what the TOTP strategy did. *)
Definition post_login_totp `{Totp} (d : db) (s : session) (code : Js.json)
    : response * session * list event :=
  match req_user d s with
  | None => (respond 401 (JsonError "Not authenticated"), s, [])
  | Some u =>
      let userId := user_id u in
      if not_user (UserDao.getUserById d userId)
      then (respond 404 (JsonError "User not found"), s, [])
      else if negb (admin u)
      then (respond 403 (JsonError "Only admin can use 2FA login"), s, [])
      else if negb (has_secret u)
      then (respond 403 (JsonError "2FA not enabled for this user"), s, [])
      else if negb (Js.truthy code)
      then (respond 422 (JsonError "Missing or invalid TOTP code"), s, [])
      else
        match code, u with
        | Js.JString c, UserDao.UserObject user =>
            if negb (Validator.isNumeric (Validator.trim c))
            then (respond 422 (JsonError "Missing or invalid TOTP code"), s, [])
            else
              let value := Validator.trim c in
              let key := base32_decode (User.secret user) in
              let trace := [Base32Decode (User.secret user); TotpVerify value key 30] in
              if totp_verify value key 30
              then (respond 200 JsonOtp,
                    {| passport_user := passport_user s; method := Some "totp" |}, trace)
              else (respond 401 (Text "Unauthorized"), s, trace)
        | _, _ =>
            (* a code that is not a string has no [trim]: the TypeError ends
               in the promise's catch (a request that gets here has a user
               object, the error object has no admin mark) *)
            (respond 503 (JsonError "Error validating user"), s, [])
        end
  end.

(** The bodies and responses of the routes under [/api/posts]. *)
Inductive post_body :=
  | PostError (msg : string)                   (* { error: msg } *)
  | PostErrors                                 (* { errors: errors.array() } *)
  | JsonPost (p : PostJson.t)
  | JsonPosts (l : list PostJson.t).

Record post_response := { post_status : Z; post_content : post_body }.

Definition respond_post (code : Z) (b : post_body) : post_response :=
  {| post_status := code; post_content := b |}.

(** [sanitizePost].  The [parseInt] of an id and of a count gives the
    number back (a rowid and a count are below 10^21); that of
    [maxComments] is kept, the column takes any number. *)
Definition sanitizePost `{Sanitizer} (p : PostSummary.t) : PostJson.t :=
  {| PostJson.id := PostSummary.id p;
     PostJson.title := sanitize (Validator.trim (PostSummary.title p));
     PostJson.text := sanitize (PostSummary.text p);
     PostJson.maxComments := (fun m => Js.parseInt (Js.Num m)) <$> PostSummary.maxComments p;
     PostJson.username :=
       match PostSummary.username p with
       | [] => None
       | n => Some (sanitize (Validator.trim n))
       end;
     PostJson.date := sanitize (Js.lit (PostSummary.date p));
     PostJson.commentCount := PostSummary.commentCount p |}.

(** The fields of [getPost]'s object that [sanitizePost] reads. *)
Definition summary_of (p : Post.t) : PostSummary.t :=
  {| PostSummary.id := Post.id p; PostSummary.title := Post.title p;
     PostSummary.text := Post.text p; PostSummary.date := Post.date p;
     PostSummary.maxComments := Post.maxComments p;
     PostSummary.username := Post.username p;
     PostSummary.commentCount := Post.commentCount p |}.

(** GET /api/posts *)
Definition get_posts `{Sanitizer} (d : db) : post_response :=
  respond_post 200 (JsonPosts (sanitizePost <$> Dao.listPosts d)).

(** GET /api/posts/:id: the DAO gets [req.params.id] itself, the Number
    [toInt()] left. *)
Definition get_post `{Sanitizer} (d : db) (id : Z) : post_response :=
  if negb (valid_id id) then respond_post 422 PostErrors
  else
    match Dao.getPost d (Js.toInt id) with
    | Dao.PostNotFound => respond_post 404 (PostError "Post not found.")
    | Dao.PostObject result => respond_post 200 (JsonPost (sanitizePost (summary_of result)))
    end.

(** The chain on [title]: a string of 1 to 100 characters that keeps
    some content when sanitized and trimmed. *)
Definition valid_title `{Sanitizer} (t : option Js.str) : bool :=
  match t with
  | Some s =>
      Validator.isLength s 1 (Some 100%nat) &&
      negb (length (Validator.trim (sanitize s)) =? 0)%nat
  | None => false
  end.

(** The chain on [maxComments], [optional({ nullable: true }).isInt({
    min: 0 }).toInt()]: the field is left out or null ([None]), or it is
    a JSON number whose value is the integer [n].  [JSON.parse] has made
    a Number of it, the validator looks at the string that Number is
    written as, and from 10^21 on that string is in exponent notation
    and not an integer. *)
Definition valid_maxComments (m : option Z) : bool :=
  match m with
  | Some n =>
      (0 <=? n)%Z &&
      match Js.to_number n with
      | Js.Num v => (v <? 10 ^ 21)%Z
      | _ => false
      end
  | None => true
  end.

(** [req.body.maxComments ?? null], once [toInt()] has read the field's
    string back: the number, or null. *)
Definition maxComments_of (m : option Z) : option Z :=
  m ≫= fun n => Js.key (Js.bind_num (Js.parseInt (Js.to_number n))).

(** POST /api/posts *)
Definition post_posts `{Sanitizer} (d : db) (s : session)
    (title text : option Js.str) (maxComments : option Z) (now : string) : post_response * db :=
  match req_user d s with
  | None => (respond_post 401 (PostError "Not authenticated"), d)
  | Some u =>
      if negb (valid_title title && valid_text text && valid_maxComments maxComments)
      then (respond_post 422 PostErrors, d)
      else
        let userId := user_id u in
        if not_user (UserDao.getUserById d userId)
        then (respond_post 404 (PostError "User not found"), d)
        else
          let post := {| Dao.np_title := sanitize (Validator.trim (text_of title));
                         Dao.np_text := sanitize (text_of text);
                         Dao.np_maxComments := maxComments_of maxComments;
                         Dao.np_userId := userId |} in
          match Dao.createPost d post now with
          | (Dao.Ok result, d') => (respond_post 201 (JsonPost (sanitizePost result)), d')
          | (Dao.Rejected err, d') =>
              if Js.includes (Sqlite.message err) "UNIQUE constraint failed: posts.title"
              then (respond_post 409 (PostError "Title already used"), d')
              else (respond_post 503 (PostError "Database error during post creation"), d')
          end
  end.

(** The function the LocalStrategy verifies a login with: what it hands
    to [done], the user or [false] and the message. *)
Definition verify_local `{Crypto} (d : db) (username password : Js.str)
    : outcome (option User.t * option string) :=
  let username := Validator.escape (Validator.trim username) in
  let password := Validator.trim password in
  if negb (Validator.isLength username 3 (Some 20%nat)) ||
     negb (Validator.isLength password 6 None)
  then Resolved (None, Some "Incorrect username or password.")
  else
    match UserDao.getUser d username password with
    | Resolved None => Resolved (None, Some "Incorrect username or password.")
    | Resolved (Some user) => Resolved (Some user, None)
    | Thrown => Thrown
    end.

(** [serializeUser] keeps the user's id; [deserializeUser] reads the
    user back with [getUserById]. *)
Definition serializeUser (user : User.t) : Z := User.id user.

Definition deserializeUser (d : db) (id : Z) : UserDao.user_or_error :=
  UserDao.getUserById d (Js.Num id).

End Server.

(** ** The routes that write, as one step function *)

Module App.

(** A request to one of the seven routes that change the database. *)
Inductive request :=
  | PostPosts (title text : option Js.str) (maxComments : option Z) (now : string)
  | PostPostComments (id : Z) (text : option Js.str) (now : string)
  | PutComment (id : Z) (text : option Js.str)
  | DeleteComment (id : Z)
  | DeletePost (id : Z)
  | PostInteresting (id : Z)
  | DeleteInteresting (id : Z).

(** The status the route answers with and the database it leaves. *)
Definition handle `{Sanitizer} (d : db) (s : Server.session) (r : request) : Z * db :=
  match r with
  | PostPosts title text maxComments now =>
      let '(res, d') := Server.post_posts d s title text maxComments now in
      (Server.post_status res, d')
  | PostPostComments id text now =>
      let '(res, d') := Server.post_post_comments d s id text now in (Server.status res, d')
  | PutComment id text =>
      let '(res, d') := Server.put_comment d s id text in (Server.status res, d')
  | DeleteComment id =>
      let '(res, d') := Server.delete_comment d s id in (Server.status res, d')
  | DeletePost id =>
      let '(res, d') := Server.delete_post d s id in (Server.status res, d')
  | PostInteresting id =>
      let '(res, d') := Server.post_comment_interesting d s id in (Server.status res, d')
  | DeleteInteresting id =>
      let '(res, d') := Server.delete_comment_interesting d s id in (Server.status res, d')
  end.

(** The requests of a list served one after the other, each with the
    session it comes with. *)
Fixpoint run `{Sanitizer} (d : db) (rs : list (Server.session * request)) : db :=
  match rs with
  | [] => d
  | (s, r) :: rest => run (handle d s r).2 rest
  end.

End App.

(** ** The second-factor form of the client ([AuthComponents.jsx]) *)

Module TotpForm.

(** [s.replace(/\D/g, "")]: the digits of [s]. *)
Definition digits_of (s : Js.str) : Js.str := List.filter Validator.is_digit s.

(** [handleSubmit]: the code handed to [API.totpVerify], or [None] when
    the form shows its error instead. *)
Definition handleSubmit (totpCode : Js.str) : option Js.str :=
  let cleanCode := digits_of (Validator.trim totpCode) in
  if match cleanCode with [] => true | _ => false end || negb (length cleanCode =? 6)%nat
  then None
  else Some (Validator.trim totpCode).

End TotpForm.

(** ** Seed data

    An excerpt of the rows [db.sql] inserts: the five users, the posts 1
    to 3 (their texts cut to the first sentence) with their comments 1
    to 9, and the one flag on these comments.  The counters stand where
    the full seed leaves them. *)

Module Seed.

Definition alberto : user :=
  {| u_username := Js.lit "alberto"; u_salt := "123348dusd437840";
     u_password := "451f285506c0b237317244eb8fb57ea736cb9693b4b329e300bcfec4d63485ca";
     u_secret := "LXBSMDTMSP2I5XFXIYRGFVWSFI"; u_admin := Some 1 |}.

Definition bob : user :=
  {| u_username := Js.lit "bob"; u_salt := "7732qweydg3sd637";
     u_password := "0a9580050849c541807e5778b7f0410569832414ceaf9a17054666206beb0fd7";
     u_secret := "LXBSMDTMSP2I5XFXIYRGFVWSFI"; u_admin := Some 1 |}.

Definition carl : user :=
  {| u_username := Js.lit "carl"; u_salt := "wgb32sge2sh7hse7";
     u_password := "c56467cd69169df291e9267ebde0bc152a8e822ee0ca38944bb901ed0a720708";
     u_secret := ""; u_admin := Some 0 |}.

Definition diana : user :=
  {| u_username := Js.lit "diana"; u_salt := "safd6523tdwt82et";
     u_password := "0cd67adcdcd0b48c2441c10c53e476036ffd263f63f1c855fd06e0767b65c145";
     u_secret := ""; u_admin := Some 0 |}.

Definition emma : user :=
  {| u_username := Js.lit "emma"; u_salt := "ad37JHUW38wj2833";
     u_password := "ceecfec4323954e7ab79427ac9ca86fc3ba54a4bfbc44aa6c336935f898744af";
     u_secret := ""; u_admin := Some 0 |}.

Definition post1 : post :=
  {| p_title := Js.lit "The Quantum Leap in Computing"; p_userId := 1;
     p_text := Js.lit "The future of technology is about to get a major upgrade.";
     p_maxComments := Some 4; p_date := "2015-01-01 10:21:27" |}.

Definition post2 : post :=
  {| p_title := Js.lit "Deciphering Dark Matter"; p_userId := 1;
     p_text := Js.lit "The universe holds many secrets, and dark matter is one of the biggest.";
     p_maxComments := Some 9; p_date := "2013-01-02 09:53:01" |}.

Definition post3 : post :=
  {| p_title := Js.lit "The Ethical Dilemmas of AI"; p_userId := 2;
     p_text := Js.lit "As AI becomes more sophisticated, so do the ethical questions surrounding it.";
     p_maxComments := None; p_date := "2014-01-03 19:44:02" |}.

Definition row (text date : string) (userId : option Z) (postId : Z) : comment :=
  {| c_text := Js.lit text; c_date := date; c_userId := userId; c_postId := postId |}.

Definition seed_comments : list (Z * comment) :=
  [ (1, row "Absolutely fascinating! This really makes you think." "2015-12-01 11:21:27" (Some 2) 1);
    (2, row "Great points raised here. So much to consider." "2015-10-04 14:44:56" None 1);
    (3, row "I have been wondering about this topic lately. Thanks for the insights!" "2015-12-05 12:01:09" (Some 4) 1);
    (4, row "This truly breaks down a complex subject into digestible pieces. Well done." "2013-11-04 09:12:01" (Some 4) 2);
    (5, row "Thought-provoking! I am definitely going to dive deeper into this." "2013-10-22 05:43:06" (Some 3) 2);
    (6, row "Could not agree more with these observations." "2013-10-13 16:55:09" None 2);
    (7, row "A really insightful take. It offers a fresh perspective." "2014-12-05 07:46:07" (Some 1) 3);
    (8, row "This sparked a few new ideas for me. Appreciate it!" "2014-11-12 05:44:00" (Some 2) 3);
    (9, row "Fantastic read! It is rare to find such clarity on this." "2014-12-05 04:11:52" None 3) ].

Definition forum : db :=
  {| users := list_to_map [(1, alberto); (2, bob); (3, carl); (4, diana); (5, emma)];
     posts := list_to_map [(1, post1); (2, post2); (3, post3)];
     comments := list_to_map seed_comments;
     interesting_flags := {[ (1, 4) ]};
     seq_posts := 9; seq_comments := 27 |}.

(** Sessions: nobody, and a user after the password login. *)
Definition anonymous : Server.session :=
  {| Server.passport_user := None; Server.method := None |}.

Definition logged_in (i : Z) : Server.session :=
  {| Server.passport_user := Some i; Server.method := None |}.

(** The session of a user who has completed the second factor. *)
Definition with_totp (i : Z) : Server.session :=
  {| Server.passport_user := Some i; Server.method := Some "totp" |}.

(** A text of a request body. *)
Definition said (text : string) : option Js.str := Some (Js.lit text).

(** The no-break space, U+00A0. *)
Definition nbsp : Z := 160.

(** Stand-ins for the platform, to run the model on the seed. *)

Definition bytes_of (s : string) : list Byte.byte :=
  byte_of_ascii <$> list_ascii_of_string s.

Definition low_bytes_of (s : Js.str) : list Byte.byte :=
  (fun c => byte_of_ascii (ascii_of_nat (Z.to_nat c))) <$> s.

(** A key derivation that is not scrypt: password and salt, cut or
    padded to the key length. *)
Definition plain_kdf : Crypto :=
  {| scrypt password salt keylen :=
       resize keylen Byte.x00 (low_bytes_of password ++ bytes_of salt)%list;
     scrypt_length password salt keylen := length_resize _ _ _ |}.

(** A sanitizer that finds nothing to remove. *)
Definition keep_all : Sanitizer := {| sanitize s := s |}.

(** A second factor that accepts the code 000000 only. *)
Definition fixed_code : Totp :=
  {| base32_decode := bytes_of;
     totp_verify code key period := bool_decide (code = Js.lit "000000") |}.

(** A sixth user whose stored hash is the one [plain_kdf] derives from
    the password "secret1" and the salt "salt". *)
Definition frank : user :=
  {| u_username := Js.lit "frank"; u_salt := "salt";
     u_password := "73656372657431" ++ "73616c74" ++ "000000000000000000000000000000000000000000";
     u_secret := ""; u_admin := Some 0 |}.

Definition forum_with_frank : db :=
  {| users := <[6 := frank]> (users forum); posts := posts forum;
     comments := comments forum; interesting_flags := interesting_flags forum;
     seq_posts := seq_posts forum; seq_comments := seq_comments forum |}.

(** The seed after bob adds a fourth comment to post 1, whose
    [maxComments] is 4. *)
Definition forum_post1_full : db :=
  (Dao.createComment forum
     {| Dao.nc_text := Js.lit "Count me in."; Dao.nc_postId := Js.Num 1;
        Dao.nc_userId := Js.Number (Js.Num 2) |} "2025-06-01 10:00:00").2.

(** The seed with a tenth comment, on post 3, of the very date of
    comment 7. *)
Definition forum_same_date : db :=
  {| users := users forum; posts := posts forum;
     comments := <[10 := row "Same minute, later row." "2014-12-05 07:46:07" None 3]>
                   (comments forum);
     interesting_flags := interesting_flags forum;
     seq_posts := seq_posts forum; seq_comments := seq_comments forum |}.

(** A run of requests against the seed: diana comments on post 1, emma
    flags that comment, alberto (elevated) deletes post 2, carl opens a
    post with room for one comment, and an anonymous visitor fills it
    and then tries once more. *)
Definition busy_day : list (Server.session * App.request) :=
  [ (logged_in 4, App.PostPostComments 1 (said "Count me in too.") "2025-06-01 10:00:00");
    (logged_in 5, App.PostInteresting 28);
    (with_totp 1, App.DeletePost 2);
    (logged_in 3, App.PostPosts (said "Tide Pools") (said "What lives between the tides?")
                    (Some 1) "2025-06-01 11:00:00");
    (anonymous, App.PostPostComments 10 (said "Crabs, mostly.") "2025-06-01 12:00:00");
    (anonymous, App.PostPostComments 10 (said "And limpets.") "2025-06-01 12:05:00") ].

End Seed.

(** ** Properties of a stored state *)

(** The UNIQUE constraint on [users.username]. *)
Definition unique_usernames (d : db) : Prop :=
  map_Forall (fun i r1 =>
    map_Forall (fun j r2 => u_username r1 = u_username r2 -> i = j) (users d)) (users d).

#[global] Instance unique_usernames_dec d : Decision (unique_usernames d).
Proof. unfold unique_usernames. apply _. Defined.

(** Every stored password is a 32-byte key in hexadecimal, as the seed
    writes them. *)
Definition stored_hashes_ok (d : db) : Prop :=
  map_Forall (fun _ r => length (Buffer.from (u_password r)) = 32%nat) (users d).

#[global] Instance stored_hashes_ok_dec d : Decision (stored_hashes_ok d).
Proof. unfold stored_hashes_ok. apply _. Defined.

(** The stored hash of [row] is the key derived from [password]. *)
Definition hash_matches `{Crypto} (row : user) (password : Js.str) : Prop :=
  Buffer.from (u_password row) = scrypt password (u_salt row) 32.

(** The foreign keys of the schema hold. *)
Definition references {V} (t : gmap Z V) (k : option Z) : Prop :=
  match k with Some i => is_Some (t !! i) | None => True end.

#[global] Instance references_dec {V} (t : gmap Z V) k : Decision (references t k).
Proof. unfold references. destruct k; apply _. Defined.

Definition referential_integrity (d : db) : Prop :=
  map_Forall (fun _ p => references (users d) (Some (p_userId p))) (posts d) /\
  map_Forall (fun _ c => references (posts d) (Some (c_postId c)) /\
                         references (users d) (c_userId c)) (comments d) /\
  set_Forall (fun uc : Z * Z => references (users d) (Some uc.1) /\
                                references (comments d) (Some uc.2))
             (interesting_flags d).

#[global] Instance referential_integrity_dec d : Decision (referential_integrity d).
Proof. unfold referential_integrity. apply _. Defined.

(** The UNIQUE constraint on [posts.title]. *)
Definition unique_titles (d : db) : Prop :=
  map_Forall (fun i p1 =>
    map_Forall (fun j p2 => p_title p1 = p_title p2 -> i = j) (posts d)) (posts d).

#[global] Instance unique_titles_dec d : Decision (unique_titles d).
Proof. unfold unique_titles. apply _. Defined.

(** No post holds more comments than its [maxComments], and no
    [maxComments] is negative. *)
Definition ceiling_ok (d : db) (i : Z) (p : post) : bool :=
  match p_maxComments p with
  | Some n => (Z.of_nat (size (Dao.comments_of d i)) <=? n)%Z
  | None => true
  end.

Definition within_ceiling (d : db) : Prop :=
  map_Forall (fun i p => ceiling_ok d i p = true) (posts d).

#[global] Instance within_ceiling_dec d : Decision (within_ceiling d).
Proof. unfold within_ceiling. apply _. Defined.

(** The AUTOINCREMENT counters are at least the rowids in use, as
    SQLite keeps them. *)
Definition rowids_recorded (d : db) : Prop :=
  map_Forall (fun k _ => k <= seq_comments d) (comments d) /\
  map_Forall (fun i _ => i <= seq_posts d) (posts d).

#[global] Instance rowids_recorded_dec d : Decision (rowids_recorded d).
Proof. unfold rowids_recorded. apply _. Defined.

(** What one request can do to the database: nothing, or the write of
    one DAO function that went through. *)
Inductive effect (d d' : db) : Prop :=
  | NoChange : d' = d -> effect d d'
  | CommentCreated c now result post :
      Dao.getPost d (Dao.nc_postId c) = Dao.PostObject post ->
      (forall n, Post.maxComments post = Some n ->
         Z.of_nat (size (Dao.comments_of d (Post.id post))) < n) ->
      Dao.createComment d c now = (Dao.Ok result, d') -> effect d d'
  | CommentUpdated commentId newText userId isAdminTotp :
      Dao.updateComment d commentId newText userId isAdminTotp = (Dao.Updated, d') ->
      effect d d'
  | CommentDeleted commentId userId isAdminTotp :
      Dao.deleteComment d commentId userId isAdminTotp = (1, d') -> effect d d'
  | PostDeleted postId userId isAdminTotp :
      Dao.deletePost d postId userId isAdminTotp = (1, d') -> effect d d'
  | FlagSet commentId userId b :
      Dao.markCommentAsInteresting d commentId userId = (Dao.Ok b, d') -> effect d d'
  | FlagCleared commentId userId b :
      Dao.unmarkCommentAsInteresting d commentId userId = (Dao.Ok b, d') -> effect d d'
  | PostCreated p now result :
      (forall n, Dao.np_maxComments p = Some n -> 0 <= n) ->
      Dao.createPost d p now = (Dao.Ok result, d') -> effect d d'.

(** [a] is the date of a row listed before the row dated [b]: [b] is
    not after [a], as TEXT. *)
Definition no_older (a b : string) : Prop := String.leb b a = true.

(** The comment [a] is listed before the comment [b]: [b] is not the
    newer one, and of two of one date [a] is the one that was stored
    first. *)
Definition listed_before (a b : Comment.t) : Prop :=
  no_older (Comment.date a) (Comment.date b) /\
  (Comment.date a = Comment.date b -> Comment.id a <= Comment.id b).

(** The bodies of the refusals of post creation. *)
Definition title_used : Server.post_body := Server.PostError "Title already used".

(** A list of characters that does not start with white space. *)
Definition head_ok (l : Js.str) : Prop :=
  match l with
  | c :: _ => Validator.is_space c = false
  | [] => True
  end.

(** The message of every failed login. *)
Definition login_failed : option User.t * option string :=
  (None, Some "Incorrect username or password.").

(** The body of the refusal at the comment ceiling. *)
Definition limit_reached : Server.body :=
  Server.JsonError "Maximum number of comments reached for this post".

(** An elevated session, in the specification's words: the second
    factor is completed and the session's user is an administrator. *)
Definition elevated (s : Server.session) (me : user) : Prop :=
  Server.method s = Some "totp" /\ exists a, u_admin me = Some a /\ a <> 0.

(** The bodies with which the three routes refuse a change. *)
Definition comment_update_refused : Server.body :=
  Server.JsonError "Comment not found or not owned by user".

Definition comment_delete_refused : Server.body :=
  Server.JsonError "Not allowed or comment not found".

Definition post_delete_refused : Server.body :=
  Server.JsonError "Not allowed or post not found".

(** The body with which the flag route reports a storage failure. *)
Definition mark_failed : Server.body :=
  Server.JsonError "Database error while marking comment as interesting".

(** * Verification *)

(** A decidable fact about concrete data, settled by running its
    decision procedure. *)
Ltac decide_by_running := apply (bool_decide_unpack _); vm_compute; exact I.

(** ** Numbers of a request *)

Section Numbers.

Lemma round53_exact n : 0 <= n < 2 ^ 53 -> Js.round53 n = n.
Proof.
  intros Hn. unfold Js.round53.
  assert (Z.log2 n - 52 <= 0) as He.
  { destruct (decide (n = 0)) as [->|Hz]; [done|].
    assert (Z.log2 n < 53) by (apply Z.log2_lt_pow2; lia). lia. }
  by rewrite (proj2 (Z.leb_le _ _) He).
Qed.

Lemma round53_nonneg n : 0 <= n -> 0 <= Js.round53 n.
Proof.
  intros Hn. unfold Js.round53. case_match; [done|].
  assert (0 <= n / 2 ^ (Z.log2 n - 52)) by (apply Z.div_pos; lia).
  assert (0 <= 2 ^ (Z.log2 n - 52)) by lia.
  repeat case_match; nia.
Qed.

(** A number below 2^53 that the route takes for an id is read as
    itself. *)
Lemma to_number_exact n : 0 <= n < 2 ^ 53 -> Js.to_number n = Js.Num n.
Proof.
  intros Hn. unfold Js.to_number.
  rewrite (Z.abs_eq n) by lia. rewrite round53_exact by done.
  assert (Z.sgn n * n = n) as -> by (destruct n; simpl; lia).
  rewrite (Z.abs_eq n) by lia.
  assert ((n <? 2 ^ 1024)%Z = true) as ->; [|done].
  apply Z.ltb_lt. eapply Z.lt_trans; [apply Hn|]. by vm_compute.
Qed.

Lemma parseInt_small v : Z.abs v < 10 ^ 21 -> Js.parseInt (Js.Num v) = Js.Num v.
Proof. intros Hv. unfold Js.parseInt. by rewrite (proj2 (Z.ltb_lt _ _) Hv). Qed.

Lemma param_id_exact n : 0 <= n < 2 ^ 53 -> Server.param_id n = Js.Num n.
Proof.
  intros Hn. unfold Server.param_id, Js.toInt. rewrite to_number_exact by done.
  apply parseInt_small. rewrite Z.abs_eq by lia.
  eapply Z.lt_trans; [apply Hn|]. by vm_compute.
Qed.

(** The id a route reads is a number or [NaN], never an infinity. *)
Lemma parseInt_cases x : Js.parseInt x = Js.NaN \/ exists k, Js.parseInt x = Js.Num k.
Proof. unfold Js.parseInt. destruct x as [| |v]; [by left..|]. right. case_match; by eexists. Qed.

Lemma param_id_cases raw :
  Server.param_id raw = Js.NaN \/ exists k, Server.param_id raw = Js.Num k.
Proof. apply parseInt_cases. Qed.

(** A [maxComments] the route accepts is stored as a number that is not
    negative. *)
Lemma valid_maxComments_value m n :
  Server.valid_maxComments m = true -> Server.maxComments_of m = Some n -> 0 <= n < 10 ^ 21.
Proof.
  destruct m as [z|]; [|discriminate]. simpl.
  intros [Hz Hv]%andb_true_iff. apply Z.leb_le in Hz.
  unfold Js.to_number in *. rewrite (Z.abs_eq z) in * by lia.
  pose proof (round53_nonneg z Hz) as Hr.
  assert (0 <= Z.sgn z * Js.round53 z) as Hs by (destruct z; simpl in *; lia).
  destruct (Z.abs _ <? 2 ^ 1024)%Z; [|discriminate].
  apply Z.ltb_lt in Hv. rewrite parseInt_small by (rewrite Z.abs_eq; lia).
  simpl. intros [= <-]. lia.
Qed.

Lemma valid_maxComments_exact n :
  0 <= n < 2 ^ 53 ->
  Server.valid_maxComments (Some n) = true /\ Server.maxComments_of (Some n) = Some n.
Proof.
  intros Hn. unfold Server.valid_maxComments, Server.maxComments_of. simpl.
  rewrite to_number_exact by done.
  assert (n < 10 ^ 21) by (eapply Z.lt_trans; [apply Hn|]; by vm_compute).
  rewrite parseInt_small by (rewrite Z.abs_eq; lia). simpl.
  split; [|done]. apply andb_true_iff. split; [apply Z.leb_le|apply Z.ltb_lt]; lia.
Qed.

End Numbers.

(** ** Credential verifier *)

Section Credentials.
Context `{Crypto}.

Lemma buffer_eqb_eq a b : Buffer.eqb a b = true <-> a = b.
Proof.
  revert b. induction a as [|x a IH]; intros [|y b]; simpl; try easy.
  rewrite andb_true_iff, IH. split.
  - intros [Hx ->]. by rewrite (Byte.byte_dec_bl _ _ Hx).
  - intros [= -> ->]. split; [by apply Byte.byte_dec_lb | done].
Qed.

Lemma row_by_username_Some d name i row :
  UserDao.row_by_username d name = Some (i, row) ->
  users d !! i = Some row /\ u_username row = Sqlite.text name.
Proof.
  unfold UserDao.row_by_username. intros Hf.
  apply fmap_Some in Hf as [[n kr] [Hfind Hkr]].
  apply list_find_Some in Hfind as (Hl & HP & _). simpl in *. subst kr.
  split; [|done].
  apply elem_of_map_to_list. eapply list_elem_of_lookup_2. exact Hl.
Qed.

Lemma row_by_username_None d name i row :
  UserDao.row_by_username d name = None ->
  users d !! i = Some row -> u_username row <> Sqlite.text name.
Proof.
  unfold UserDao.row_by_username. intros Hf Hrow.
  apply fmap_None, list_find_None in Hf.
  rewrite Forall_forall in Hf.
  apply (Hf (i, row)). by apply elem_of_map_to_list.
Qed.

Lemma row_by_username_unique d name i row :
  unique_usernames d ->
  users d !! i = Some row -> u_username row = Sqlite.text name ->
  UserDao.row_by_username d name = Some (i, row).
Proof.
  intros Huniq Hrow Hname.
  destruct (UserDao.row_by_username d name) as [[j row']|] eqn:Hf.
  - apply row_by_username_Some in Hf as [Hrow' Hname'].
    assert (j = i) as ->.
    { eapply (Huniq j row' Hrow' i row Hrow). congruence. }
    congruence.
  - exfalso. by eapply row_by_username_None.
Qed.

Lemma getUser_row d name password i row :
  UserDao.row_by_username d name = Some (i, row) ->
  length (Buffer.from (u_password row)) = 32%nat ->
  UserDao.getUser d name password =
    if Buffer.eqb (Buffer.from (u_password row)) (scrypt password (u_salt row) 32)
    then Resolved (Some (UserDao.user_of_row i row)) else Resolved None.
Proof.
  intros Hf Hlen. unfold UserDao.getUser, Buffer.timingSafeEqual.
  rewrite Hf, Hlen, scrypt_length. simpl.
  by destruct (Buffer.eqb _ _).
Qed.

(** The user object of a row, field by field. *)
Lemma user_of_row_fields u i row :
  u = UserDao.user_of_row i row <->
  User.id u = i /\ User.username u = u_username row /\
  User.admin u = u_admin row /\ User.secret u = u_secret row.
Proof.
  split; [by intros ->|]. destruct u; simpl. by intros (-> & -> & -> & ->).
Qed.

(** C9. Over a [users] table with unique usernames and 32-byte stored
    hashes, [getUser] resolves to a user object exactly when a row has
    the given username and its stored hash is the key derived from the
    given password and the row's salt, and the object then carries that
    row's id, username, admin mark and secret; for an unknown username
    and for a password that does not match it resolves to the same
    value, [false]. *)
Theorem getUser_verifies_credentials d name password :
  unique_usernames d -> stored_hashes_ok d ->
  (forall u,
     UserDao.getUser d name password = Resolved (Some u) <->
     exists i row, users d !! i = Some row /\ u_username row = Sqlite.text name /\
                   hash_matches row password /\
                   User.id u = i /\ User.username u = u_username row /\
                   User.admin u = u_admin row /\ User.secret u = u_secret row) /\
  ((forall i row, users d !! i = Some row -> u_username row <> Sqlite.text name) ->
     UserDao.getUser d name password = Resolved None) /\
  (forall i row, users d !! i = Some row -> u_username row = Sqlite.text name ->
     ~ hash_matches row password ->
     UserDao.getUser d name password = Resolved None).
Proof.
  intros Huniq Hlen. unfold hash_matches. split; [|split].
  - intros u. split.
    + intros Hget.
      destruct (UserDao.row_by_username d name) as [[i row]|] eqn:Hf.
      * pose proof (row_by_username_Some _ _ _ _ Hf) as [Hrow Hname].
        rewrite (getUser_row _ _ _ _ _ Hf (Hlen i row Hrow)) in Hget.
        destruct (Buffer.eqb _ _) eqn:Heq; [|discriminate].
        apply buffer_eqb_eq in Heq. injection Hget as <-.
        by exists i, row.
      * unfold UserDao.getUser in Hget. rewrite Hf in Hget. discriminate.
    + intros (i & row & Hrow & Hname & Hhash & Hfields).
      apply user_of_row_fields in Hfields as ->.
      pose proof (row_by_username_unique _ _ _ _ Huniq Hrow Hname) as Hf.
      rewrite (getUser_row _ _ _ _ _ Hf (Hlen i row Hrow)).
      apply buffer_eqb_eq in Hhash. by rewrite Hhash.
  - intros Hnone. unfold UserDao.getUser.
    destruct (UserDao.row_by_username d name) as [[i row]|] eqn:Hf; [|done].
    apply row_by_username_Some in Hf as [Hrow Hname]. by destruct (Hnone i row).
  - intros i row Hrow Hname Hhash.
    pose proof (row_by_username_unique _ _ _ _ Huniq Hrow Hname) as Hf.
    rewrite (getUser_row _ _ _ _ _ Hf (Hlen i row Hrow)).
    destruct (Buffer.eqb _ _) eqn:Heq; [|done].
    by apply buffer_eqb_eq in Heq.
Qed.

End Credentials.

Lemma getUser_verifies_credentials_witness :
  unique_usernames Seed.forum_with_frank /\
  stored_hashes_ok Seed.forum_with_frank /\
  UserDao.getUser (H:=Seed.plain_kdf) Seed.forum_with_frank (Js.lit "frank") (Js.lit "secret1")
    = Resolved (Some {| User.id := 6; User.username := Js.lit "frank";
                        User.admin := Some 0; User.secret := "" |}) /\
  UserDao.getUser (H:=Seed.plain_kdf) Seed.forum_with_frank (Js.lit "frank") (Js.lit "secret2")
    = Resolved None /\
  UserDao.getUser (H:=Seed.plain_kdf) Seed.forum_with_frank (Js.lit "fred") (Js.lit "secret1")
    = Resolved None.
Proof.
  assert (Hu : unique_usernames Seed.forum_with_frank) by (decide_by_running).
  assert (Hh : stored_hashes_ok Seed.forum_with_frank) by (decide_by_running).
  split; [exact Hu|]. split; [exact Hh|].
  split; [|split].
  - apply (getUser_verifies_credentials (H:=Seed.plain_kdf) _ (Js.lit "frank") (Js.lit "secret1")
             Hu Hh).
    exists 6, Seed.frank. repeat split; vm_compute; reflexivity.
  - destruct (getUser_verifies_credentials (H:=Seed.plain_kdf)
                Seed.forum_with_frank (Js.lit "frank") (Js.lit "secret2") Hu Hh)
      as (_ & _ & Hwrong).
    apply (Hwrong 6 Seed.frank); [reflexivity | reflexivity | vm_compute; discriminate].
  - destruct (getUser_verifies_credentials (H:=Seed.plain_kdf)
                Seed.forum_with_frank (Js.lit "fred") (Js.lit "secret1") Hu Hh)
      as (_ & Hunknown & _).
    apply Hunknown. intros i row Hrow.
    assert (Hall : map_Forall (fun _ r => u_username r <> Sqlite.text (Js.lit "fred"))
                     (users Seed.forum_with_frank))
      by (decide_by_running).
    exact (Hall i row Hrow).
Defined.

(** ** Comment visibility *)

Section Visibility.
Context `{Sanitizer}.

Lemma comments_of_lookup d pid k c :
  Dao.comments_of d pid !! k = Some c <-> comments d !! k = Some c /\ c_postId c = pid.
Proof. unfold Dao.comments_of. by rewrite map_lookup_filter_Some. Qed.

Lemma visible_rows_null d pid k c :
  Dao.visible_rows d pid Js.Null !! k = Some c <->
  comments d !! k = Some c /\ c_postId c = pid /\ c_userId c = None.
Proof.
  unfold Dao.visible_rows. simpl.
  rewrite map_lookup_filter_Some, comments_of_lookup. simpl. tauto.
Qed.

Lemma visible_rows_not_null d pid a :
  Js.is_null a = false -> Dao.visible_rows d pid a = Dao.comments_of d pid.
Proof. unfold Dao.visible_rows. by intros ->. Qed.

Lemma getCommentsByPostId_ids d pid a :
  Comment.id <$> Dao.getCommentsByPostId d (Js.Num pid) a
  ≡ₚ (map_to_list (Dao.visible_rows d pid a)).*1.
Proof.
  unfold Dao.getCommentsByPostId, Sqlite.order_by_date_desc. simpl.
  rewrite <- list_fmap_compose.
  rewrite (list_fmap_ext (Comment.id ∘ Dao.comment_of_row d a) fst) by done.
  apply fmap_Permutation, merge_sort_Permutation.
Qed.

Lemma getCommentsByPostId_length d pid a :
  length (Dao.getCommentsByPostId d (Js.Num pid) a) = size (Dao.visible_rows d pid a).
Proof.
  rewrite <- (length_fmap Comment.id), getCommentsByPostId_ids.
  by rewrite length_fmap, length_map_to_list.
Qed.

Lemma sanitized_ids (l : list Comment.t) :
  CommentJson.id <$> (Server.sanitizeComment <$> l) = Comment.id <$> l.
Proof. rewrite <- list_fmap_compose. by apply list_fmap_ext. Qed.

Lemma listed_ids d pid a k :
  k ∈ Comment.id <$> Dao.getCommentsByPostId d (Js.Num pid) a <->
  exists c, Dao.visible_rows d pid a !! k = Some c.
Proof.
  rewrite getCommentsByPostId_ids, list_elem_of_fmap. split.
  - intros [[k' c] [-> Hin]]. exists c. by apply elem_of_map_to_list.
  - intros [c Hc]. exists (k, c). split; [done|]. by apply elem_of_map_to_list.
Qed.

Lemma listed_ids_NoDup d pid a :
  NoDup (Comment.id <$> Dao.getCommentsByPostId d (Js.Num pid) a).
Proof. rewrite getCommentsByPostId_ids. apply NoDup_fst_map_to_list. Qed.

Lemma requester_anonymous d s :
  Server.passport_user s = None -> Server.requester d s = Js.Null.
Proof. unfold Server.requester, Server.req_user. by intros ->. Qed.

Lemma requester_authenticated d s i :
  Server.passport_user s = Some i -> Js.is_null (Server.requester d s) = false.
Proof. unfold Server.requester, Server.req_user. by intros ->. Qed.

Lemma valid_id_true raw : 1 <= raw -> Server.valid_id raw = true.
Proof. unfold Server.valid_id. lia. Qed.

(** The route on a path id that is read as the number [pid]. *)
Lemma get_post_comments_read d s raw pid :
  1 <= raw -> Server.param_id raw = Js.Num pid ->
  Server.get_post_comments d s raw = Server.respond 200 (Server.JsonComments
    (Server.sanitizeComment <$> Dao.getCommentsByPostId d (Js.Num pid) (Server.requester d s))).
Proof.
  intros Hraw Hpid. unfold Server.get_post_comments.
  by rewrite (valid_id_true _ Hraw), Hpid.
Qed.

(** C6. The route reads the id of its path as a number [pid].  The list
    an anonymous requester gets then holds, once each, exactly the
    comments of post [pid] with no owning user, and the list a requester
    with a session gets holds, once each, exactly all the comments of
    post [pid]; so every comment the anonymous requester is sent is also
    sent to the authenticated one.  A path id that is read as no number
    gets the empty list. *)
Theorem comment_list_visibility d raw :
  1 <= raw ->
  (forall pid, Server.param_id raw = Js.Num pid ->
    (forall s, Server.passport_user s = None ->
       exists l, Server.get_post_comments d s raw = Server.respond 200 (Server.JsonComments l) /\
         NoDup (CommentJson.id <$> l) /\
         forall k, k ∈ CommentJson.id <$> l <->
           exists c, comments d !! k = Some c /\ c_postId c = pid /\ c_userId c = None) /\
    (forall s i, Server.passport_user s = Some i ->
       exists l, Server.get_post_comments d s raw = Server.respond 200 (Server.JsonComments l) /\
         NoDup (CommentJson.id <$> l) /\
         forall k, k ∈ CommentJson.id <$> l <->
           exists c, comments d !! k = Some c /\ c_postId c = pid)) /\
  (forall s s' i la l,
     Server.passport_user s = None -> Server.passport_user s' = Some i ->
     Server.get_post_comments d s raw = Server.respond 200 (Server.JsonComments la) ->
     Server.get_post_comments d s' raw = Server.respond 200 (Server.JsonComments l) ->
     CommentJson.id <$> la ⊆ CommentJson.id <$> l) /\
  (Server.param_id raw = Js.NaN ->
     forall s, Server.get_post_comments d s raw = Server.respond 200 (Server.JsonComments [])).
Proof.
  intros Hraw.
  assert (Hin_anon : forall pid k,
    k ∈ CommentJson.id <$> (Server.sanitizeComment <$>
          Dao.getCommentsByPostId d (Js.Num pid) Js.Null) <->
    exists c, comments d !! k = Some c /\ c_postId c = pid /\ c_userId c = None).
  { intros pid k. rewrite sanitized_ids, listed_ids.
    split; intros [c Hc]; exists c; by apply visible_rows_null. }
  assert (Hin_auth : forall pid s i k, Server.passport_user s = Some i ->
    k ∈ CommentJson.id <$> (Server.sanitizeComment <$>
          Dao.getCommentsByPostId d (Js.Num pid) (Server.requester d s)) <->
    exists c, comments d !! k = Some c /\ c_postId c = pid).
  { intros pid s i k Hs. rewrite sanitized_ids, listed_ids.
    rewrite (visible_rows_not_null _ _ _ (requester_authenticated d s i Hs)).
    split; intros [c Hc]; exists c; by apply comments_of_lookup. }
  assert (Hnan : Server.param_id raw = Js.NaN ->
     forall s, Server.get_post_comments d s raw = Server.respond 200 (Server.JsonComments [])).
  { intros Hp s. unfold Server.get_post_comments.
    by rewrite (valid_id_true _ Hraw), Hp. }
  split; [|split; [|exact Hnan]].
  - intros pid Hpid. split.
    + intros s Hs. eexists. split; [by apply get_post_comments_read|].
      rewrite (requester_anonymous _ _ Hs). split; [|apply Hin_anon].
      rewrite sanitized_ids. apply listed_ids_NoDup.
    + intros s i Hs. eexists. split; [by apply get_post_comments_read|].
      split; [|intros k; by eapply Hin_auth].
      rewrite sanitized_ids. apply listed_ids_NoDup.
  - intros s s' i la l Hs Hs' Hla Hl k Hk.
    destruct (param_id_cases raw) as [Hp|[pid Hpid]].
    + rewrite (Hnan Hp s) in Hla. injection Hla as <-. by apply elem_of_nil in Hk.
    + rewrite (get_post_comments_read _ s _ _ Hraw Hpid) in Hla.
      rewrite (get_post_comments_read _ s' _ _ Hraw Hpid) in Hl.
      rewrite (requester_anonymous _ _ Hs) in Hla.
      injection Hla as <-. injection Hl as <-.
      apply (Hin_auth pid s' i k Hs'). apply Hin_anon in Hk as (c & ? & ? & ?). by exists c.
Qed.

End Visibility.

Lemma comment_list_visibility_witness :
  1 <= 1 /\ Server.param_id 1 = Js.Num 1 /\
  Server.get_post_comments (H:=Seed.keep_all) Seed.forum Seed.anonymous 1
    = Server.respond 200 (Server.JsonComments
        [ {| CommentJson.id := 2;
             CommentJson.text := Js.lit "Great points raised here. So much to consider.";
             CommentJson.username := None; CommentJson.date := Js.lit "2015-10-04 14:44:56";
             CommentJson.interestingCount := 0; CommentJson.markedByMe := false |} ]) /\
  (exists la l,
     Server.get_post_comments (H:=Seed.keep_all) Seed.forum Seed.anonymous 1
       = Server.respond 200 (Server.JsonComments la) /\
     Server.get_post_comments (H:=Seed.keep_all) Seed.forum (Seed.logged_in 3) 1
       = Server.respond 200 (Server.JsonComments l) /\
     CommentJson.id <$> la = [2] /\ CommentJson.id <$> l = [3; 1; 2] /\
     CommentJson.id <$> la ⊆ CommentJson.id <$> l) /\
  (* the path id 10^21 is read as 1, and gets the comments of post 1 *)
  Server.param_id (10 ^ 21) = Js.Num 1 /\
  Server.get_post_comments (H:=Seed.keep_all) Seed.forum Seed.anonymous (10 ^ 21)
    = Server.get_post_comments (H:=Seed.keep_all) Seed.forum Seed.anonymous 1.
Proof.
  split; [lia|]. split; [reflexivity|]. split; [vm_compute; reflexivity|].
  destruct (comment_list_visibility (H:=Seed.keep_all) Seed.forum 1 ltac:(lia))
    as (_ & Hsub & _).
  split; [|split; vm_compute; reflexivity].
  eexists _, _. split; [vm_compute; reflexivity|]. split; [vm_compute; reflexivity|].
  split; [reflexivity|]. split; [reflexivity|].
  apply (Hsub Seed.anonymous (Seed.logged_in 3) 3); vm_compute; reflexivity.
Defined.

(** ** The comment ceiling *)

Section Ceiling.
Context `{Sanitizer}.

Lemma max_rowid_ge {V} (t : gmap Z V) k v :
  t !! k = Some v -> k <= Sqlite.max_rowid t.
Proof.
  unfold Sqlite.max_rowid. revert k v.
  apply (map_fold_weak_ind (fun r (m : gmap Z V) => forall k v, m !! k = Some v -> k <= r)).
  - intros k v Hk. by rewrite lookup_empty in Hk.
  - intros i x m r Hi IH k v Hk.
    destruct (decide (i = k)) as [->|Hne].
    + lia.
    + rewrite lookup_insert_ne in Hk by done. specialize (IH k v Hk). lia.
Qed.

Lemma next_rowid_fresh {V} seq (t : gmap Z V) :
  t !! Sqlite.next_rowid seq t = None.
Proof.
  destruct (t !! Sqlite.next_rowid seq t) as [v|] eqn:Hk; [|done].
  apply max_rowid_ge in Hk. unfold Sqlite.next_rowid in Hk. lia.
Qed.

Lemma requester_fk_ok d s :
  Sqlite.fk_ok (users d) (Js.bind (Server.requester d s)) = true.
Proof.
  unfold Server.requester, Server.req_user.
  destruct (Server.passport_user s) as [i|]; simpl; [|done].
  unfold UserDao.getUserById. simpl.
  destruct (users d !! i) as [row|] eqn:Hrow; simpl; [|done].
  apply bool_decide_eq_true. by rewrite Hrow.
Qed.

Lemma getPost_exists d id post :
  Dao.getPost d id = Dao.PostObject post ->
  id = Js.Num (Post.id post) /\
  exists row, posts d !! Post.id post = Some row /\ Post.maxComments post = p_maxComments row.
Proof.
  unfold Dao.getPost. intros Hget. destruct id as [| |pid]; try discriminate. simpl in Hget.
  destruct (posts d !! pid) as [row|] eqn:Hrow; [|discriminate].
  destruct (users d !! p_userId row); [|discriminate].
  injection Hget as <-. simpl. split; [done|]. by exists row.
Qed.

(** An insert into [comments] that passes its foreign keys adds one row
    to the comments of its post. *)
Lemma createComment_adds d c now pid :
  Dao.nc_postId c = Js.Num pid ->
  Sqlite.fk_ok (users d) (Js.bind (Dao.nc_userId c)) = true ->
  is_Some (posts d !! pid) ->
  exists result d',
    Dao.createComment d c now = (Dao.Ok result, d') /\
    size (Dao.comments_of d' pid) = S (size (Dao.comments_of d pid)).
Proof.
  intros Hpid Huser Hpost. unfold Dao.createComment. rewrite Hpid, Huser. simpl.
  rewrite (bool_decide_eq_true_2 _ Hpost).
  eexists _, _. split; [reflexivity|].
  unfold Dao.comments_of at 1. simpl.
  rewrite map_filter_insert_True by done.
  apply map_size_insert_None, map_lookup_filter_None_2. left. apply next_rowid_fresh.
Qed.

(** What the route does once its input is valid and the post is found:
    it compares the post's maximum with the number of all the comments
    of the post. *)
Lemma post_post_comments_decides d s raw pid text now post :
  1 <= raw -> Server.param_id raw = Js.Num pid -> Server.valid_text text = true ->
  Dao.getPost d (Js.Num pid) = Dao.PostObject post ->
  let held := Z.of_nat (size (Dao.comments_of d pid)) in
  let out := Server.post_post_comments d s raw text now in
  if match Post.maxComments post with Some m => (m <=? held)%Z | None => false end
  then out = (Server.respond 403 limit_reached, d)
  else Server.status out.1 = 201 /\
       size (Dao.comments_of out.2 pid) = S (size (Dao.comments_of d pid)).
Proof.
  intros Hraw Hpid Htext Hget. simpl.
  unfold Server.post_post_comments.
  rewrite (valid_id_true _ Hraw), Htext, Hpid, Hget. simpl.
  rewrite getCommentsByPostId_length, visible_rows_not_null by done.
  destruct (match Post.maxComments post with Some m => _ | None => false end); [done|].
  destruct (getPost_exists _ _ _ Hget) as ([= Hid] & row & Hrow & _).
  destruct (createComment_adds d
    {| Dao.nc_text := sanitize (Server.text_of text); Dao.nc_postId := Js.Num pid;
       Dao.nc_userId := Server.requester d s |} now pid eq_refl (requester_fk_ok d s))
    as (result & d' & -> & Hsize).
  { rewrite Hid, Hrow. by eexists. }
  by simpl in *.
Qed.

(** C5. On a valid request for a post that is found, the post whose id
    the route reads in the path: when the post's [maxComments] is N,
    the creation succeeds (201, and the post holds one comment more)
    while the post holds fewer than N comments, and is refused with 403
    and the limit error, the database unchanged, once it holds N or
    more; when [maxComments] is null the creation succeeds whatever the
    count. *)
Theorem comment_ceiling d s raw pid text now post :
  1 <= raw -> Server.param_id raw = Js.Num pid -> Server.valid_text text = true ->
  Dao.getPost d (Js.Num pid) = Dao.PostObject post ->
  let held := size (Dao.comments_of d pid) in
  let out := Server.post_post_comments d s raw text now in
  (forall N, Post.maxComments post = Some N -> Z.of_nat held < N ->
     Server.status out.1 = 201 /\ size (Dao.comments_of out.2 pid) = S held) /\
  (forall N, Post.maxComments post = Some N -> N <= Z.of_nat held ->
     out = (Server.respond 403 limit_reached, d)) /\
  (Post.maxComments post = None ->
     Server.status out.1 = 201 /\ size (Dao.comments_of out.2 pid) = S held).
Proof.
  intros Hraw Hpid Htext Hget. simpl.
  pose proof (post_post_comments_decides d s raw pid text now post Hraw Hpid Htext Hget) as Hdec.
  simpl in Hdec.
  split; [|split].
  - intros N HN Hlt. rewrite HN in Hdec.
    destruct (Z.leb_spec N (Z.of_nat (size (Dao.comments_of d pid)))); [lia|done].
  - intros N HN Hle. rewrite HN in Hdec.
    destruct (Z.leb_spec N (Z.of_nat (size (Dao.comments_of d pid)))); [done|lia].
  - intros HN. by rewrite HN in Hdec.
Qed.

(** C10. The ceiling check of comment creation reads the comment list
    with the [userId] argument left out, so the list holds every comment
    of the post, and a valid request for a post with [maxComments] N is
    refused with 403 exactly when N is at most the number of all the
    comments of the post, for any requester, an anonymous one
    included. *)
Theorem ceiling_counts_all_comments d s raw pid text now post N :
  1 <= raw -> Server.param_id raw = Js.Num pid -> Server.valid_text text = true ->
  Dao.getPost d (Js.Num pid) = Dao.PostObject post ->
  Post.maxComments post = Some N ->
  Dao.visible_rows d pid Js.Undefined = Dao.comments_of d pid /\
  length (Dao.getCommentsByPostId d (Js.Num pid) Js.Undefined) = size (Dao.comments_of d pid) /\
  (Server.status (Server.post_post_comments d s raw text now).1 = 403 <->
   N <= Z.of_nat (size (Dao.comments_of d pid))).
Proof.
  intros Hraw Hpid Htext Hget HN.
  split; [done|]. split.
  { by rewrite getCommentsByPostId_length. }
  pose proof (post_post_comments_decides d s raw pid text now post Hraw Hpid Htext Hget) as Hdec.
  simpl in Hdec. rewrite HN in Hdec.
  destruct (Z.leb_spec N (Z.of_nat (size (Dao.comments_of d pid)))) as [Hle|Hlt].
  - rewrite Hdec. simpl. split; [done|lia].
  - destruct Hdec as [Hst _]. rewrite Hst. split; [discriminate|lia].
Qed.

End Ceiling.

(** Post 1 of the seed as [getPost] reports it. *)
Lemma getPost_seed_post1 :
  Dao.getPost Seed.forum (Js.Num 1) = Dao.PostObject
    {| Post.id := 1; Post.title := Js.lit "The Quantum Leap in Computing";
       Post.text := Js.lit "The future of technology is about to get a major upgrade.";
       Post.date := "2015-01-01 10:21:27"; Post.maxComments := Some 4;
       Post.username := Js.lit "alberto"; Post.userId := 1; Post.commentCount := 3 |}.
Proof. vm_compute. reflexivity. Qed.

Lemma getPost_full_post1 :
  Dao.getPost Seed.forum_post1_full (Js.Num 1) = Dao.PostObject
    {| Post.id := 1; Post.title := Js.lit "The Quantum Leap in Computing";
       Post.text := Js.lit "The future of technology is about to get a major upgrade.";
       Post.date := "2015-01-01 10:21:27"; Post.maxComments := Some 4;
       Post.username := Js.lit "alberto"; Post.userId := 1; Post.commentCount := 4 |}.
Proof. vm_compute. reflexivity. Qed.

Lemma comment_ceiling_witness :
  size (Dao.comments_of Seed.forum 1) = 3%nat /\
  Server.status (Server.post_post_comments (H:=Seed.keep_all) Seed.forum Seed.anonymous 1
                   (Seed.said "Me too.") "2025-06-01 11:00:00").1 = 201 /\
  size (Dao.comments_of Seed.forum_post1_full 1) = 4%nat /\
  Server.post_post_comments (H:=Seed.keep_all) Seed.forum_post1_full Seed.anonymous 1
    (Seed.said "Me too.") "2025-06-01 11:00:00"
  = (Server.respond 403 limit_reached, Seed.forum_post1_full).
Proof.
  assert (H3 : size (Dao.comments_of Seed.forum 1) = 3%nat) by (vm_compute; reflexivity).
  assert (H4 : size (Dao.comments_of Seed.forum_post1_full 1) = 4%nat) by (vm_compute; reflexivity).
  split; [exact H3|]. split; [|split; [exact H4|]].
  - destruct (comment_ceiling (H:=Seed.keep_all) Seed.forum Seed.anonymous 1 1
                (Seed.said "Me too.") "2025-06-01 11:00:00" _
                ltac:(lia) eq_refl eq_refl getPost_seed_post1) as (Hbelow & _ & _).
    apply (Hbelow 4 eq_refl). rewrite H3. lia.
  - destruct (comment_ceiling (H:=Seed.keep_all) Seed.forum_post1_full Seed.anonymous 1 1
                (Seed.said "Me too.") "2025-06-01 11:00:00" _
                ltac:(lia) eq_refl eq_refl getPost_full_post1) as (_ & Hfull & _).
    apply (Hfull 4 eq_refl). rewrite H4. lia.
Defined.

Lemma ceiling_counts_all_comments_witness :
  length (Dao.getCommentsByPostId Seed.forum_post1_full (Js.Num 1) Js.Null) = 1%nat /\
  size (Dao.comments_of Seed.forum_post1_full 1) = 4%nat /\
  Server.status (Server.post_post_comments (H:=Seed.keep_all) Seed.forum_post1_full
                   Seed.anonymous 1 (Seed.said "Me too.") "2025-06-01 11:00:00").1 = 403.
Proof.
  assert (H4 : size (Dao.comments_of Seed.forum_post1_full 1) = 4%nat) by (vm_compute; reflexivity).
  split; [vm_compute; reflexivity|]. split; [exact H4|].
  destruct (ceiling_counts_all_comments (H:=Seed.keep_all) Seed.forum_post1_full
              Seed.anonymous 1 1 (Seed.said "Me too.") "2025-06-01 11:00:00" _ 4
              ltac:(lia) eq_refl eq_refl getPost_full_post1 eq_refl) as (_ & _ & Hiff).
  apply Hiff. rewrite H4. lia.
Defined.

(** ** Authorization of edits and deletions *)

Section Authorization.
Context `{Sanitizer}.

Lemma req_user_row d s i me :
  Server.passport_user s = Some i -> users d !! i = Some me ->
  Server.req_user d s = Some (UserDao.UserObject (UserDao.user_of_row i me)).
Proof.
  intros Hs Hme. unfold Server.req_user, UserDao.getUserById. rewrite Hs. simpl.
  by rewrite Hme.
Qed.

Lemma not_user_false u : Server.not_user u = false.
Proof. by destruct u. Qed.

Lemma isAdminWithTotp_elevated s i me :
  Server.isAdminWithTotp s (UserDao.UserObject (UserDao.user_of_row i me)) = true <->
  elevated s me.
Proof.
  unfold Server.isAdminWithTotp, elevated. simpl.
  destruct (Server.method s) as [m|]; [|split; [done|by intros [? _]]].
  rewrite andb_true_iff, String.eqb_eq. split.
  - intros [-> Ha]. split; [done|].
    destruct (u_admin me) as [a|]; [|done]. exists a. split; [done|].
    apply negb_true_iff in Ha. lia.
  - intros [[= ->] (a & -> & Ha)]. split; [done|].
    apply negb_true_iff. lia.
Qed.

Lemma owner_is_Some column i :
  Dao.owner_is column (Some i) = true <-> column = Some i.
Proof.
  destruct column as [a|]; simpl; [|done].
  rewrite Z.eqb_eq. split; congruence.
Qed.

Lemma owner_is_false column i :
  Dao.owner_is column (Some i) = false <-> column <> Some i.
Proof. rewrite <- owner_is_Some. by destruct (Dao.owner_is _ _). Qed.

(** The three DAO writes on a row that exists. *)
Lemma updateComment_found d cid c newText userId isAdminTotp :
  comments d !! cid = Some c ->
  Dao.updateComment d (Js.Num cid) newText userId isAdminTotp =
    if isAdminTotp || Dao.owner_is (c_userId c) (Js.key (Js.bind_num userId))
    then (Dao.Updated,
          {| users := users d; posts := posts d;
             comments := alter (Dao.set_text (Sqlite.text newText)) cid (comments d);
             interesting_flags := interesting_flags d;
             seq_posts := seq_posts d; seq_comments := seq_comments d |})
    else (Dao.UpdateError "Comment not found or not owned by user", d).
Proof.
  intros Hc. unfold Dao.updateComment. simpl. rewrite Hc.
  by destruct isAdminTotp, (Dao.owner_is _ _).
Qed.

(** The three DAO writes when no row has the id: the id is a number no
    row has, or it is no number. *)
Lemma updateComment_absent d id newText userId isAdminTotp :
  (forall cid, id = Js.Num cid -> comments d !! cid = None) ->
  Dao.updateComment d id newText userId isAdminTotp =
    (Dao.UpdateError "Comment not found or not owned by user", d).
Proof.
  intros Hc. unfold Dao.updateComment. destruct id as [| |cid]; simpl; [done..|].
  by rewrite (Hc cid eq_refl).
Qed.

Lemma deleteComment_found d cid c userId isAdminTotp :
  comments d !! cid = Some c ->
  Dao.deleteComment d (Js.Num cid) userId isAdminTotp =
    if isAdminTotp || Dao.owner_is (c_userId c) (Js.key (Js.bind_num userId))
    then (1, {| users := users d; posts := posts d;
                comments := delete cid (comments d);
                interesting_flags :=
                  Sqlite.cascade_flags {[cid := c]} (interesting_flags d);
                seq_posts := seq_posts d; seq_comments := seq_comments d |})
    else (0, d).
Proof.
  intros Hc. unfold Dao.deleteComment. simpl. rewrite Hc.
  by destruct isAdminTotp, (Dao.owner_is _ _).
Qed.

Lemma deleteComment_absent d id userId isAdminTotp :
  (forall cid, id = Js.Num cid -> comments d !! cid = None) ->
  Dao.deleteComment d id userId isAdminTotp = (0, d).
Proof.
  intros Hc. unfold Dao.deleteComment. destruct id as [| |cid]; simpl; [done..|].
  by rewrite (Hc cid eq_refl).
Qed.

Lemma deletePost_found d pid p userId isAdminTotp :
  posts d !! pid = Some p ->
  Dao.deletePost d (Js.Num pid) userId isAdminTotp =
    if isAdminTotp || Dao.owner_is (Some (p_userId p)) (Js.key (Js.bind_num userId))
    then (1, {| users := users d; posts := delete pid (posts d);
                comments := filter (fun kc : Z * comment => c_postId kc.2 ≠ pid) (comments d);
                interesting_flags :=
                  Sqlite.cascade_flags (Dao.comments_of d pid) (interesting_flags d);
                seq_posts := seq_posts d; seq_comments := seq_comments d |})
    else (0, d).
Proof.
  intros Hp. unfold Dao.deletePost. simpl. rewrite Hp.
  destruct isAdminTotp; [done|]. simpl. by case_match.
Qed.

Lemma deletePost_absent d id userId isAdminTotp :
  (forall pid, id = Js.Num pid -> posts d !! pid = None) ->
  Dao.deletePost d id userId isAdminTotp = (0, d).
Proof.
  intros Hp. unfold Dao.deletePost. destruct id as [| |pid]; simpl; [done..|].
  by rewrite (Hp pid eq_refl).
Qed.

(** The three routes for a requester whose session resolves to a row. *)
Lemma put_comment_row d s i me raw text :
  Server.passport_user s = Some i -> users d !! i = Some me ->
  1 <= raw -> Server.valid_text text = true ->
  Server.put_comment d s raw text =
    match Dao.updateComment d (Server.param_id raw) (sanitize (Server.text_of text)) (Js.Num i)
            (Server.isAdminWithTotp s (UserDao.UserObject (UserDao.user_of_row i me))) with
    | (Dao.UpdateError msg, d') => (Server.respond 403 (Server.JsonError msg), d')
    | (Dao.Updated, d') => (Server.respond 200 Server.JsonSuccess, d')
    end.
Proof.
  intros Hs Hme Hid Htext. unfold Server.put_comment.
  by rewrite (req_user_row _ _ _ _ Hs Hme), Htext, not_user_false, (valid_id_true _ Hid).
Qed.

Lemma delete_comment_row d s i me raw :
  Server.passport_user s = Some i -> users d !! i = Some me -> 1 <= raw ->
  Server.delete_comment d s raw =
    let '(changes, d') := Dao.deleteComment d (Server.param_id raw) (Js.Num i)
            (Server.isAdminWithTotp s (UserDao.UserObject (UserDao.user_of_row i me))) in
    if (changes =? 0)%Z then (Server.respond 403 comment_delete_refused, d')
    else (Server.respond 200 Server.JsonSuccess, d').
Proof.
  intros Hs Hme Hid. unfold Server.delete_comment.
  by rewrite (req_user_row _ _ _ _ Hs Hme), not_user_false, (valid_id_true _ Hid).
Qed.

Lemma delete_post_row d s i me raw :
  Server.passport_user s = Some i -> users d !! i = Some me -> 1 <= raw ->
  Server.delete_post d s raw =
    let '(changes, d') := Dao.deletePost d (Server.param_id raw) (Js.Num i)
            (Server.isAdminWithTotp s (UserDao.UserObject (UserDao.user_of_row i me))) in
    if (changes =? 0)%Z then (Server.respond 403 post_delete_refused, d')
    else (Server.respond 200 Server.JsonSuccess, d').
Proof.
  intros Hs Hme Hid. unfold Server.delete_post.
  by rewrite (req_user_row _ _ _ _ Hs Hme), not_user_false, (valid_id_true _ Hid).
Qed.

Lemma permit_bool s i me column :
  Server.isAdminWithTotp s (UserDao.UserObject (UserDao.user_of_row i me))
    || Dao.owner_is column (Some i) = true <->
  elevated s me \/ column = Some i.
Proof. by rewrite orb_true_iff, isAdminWithTotp_elevated, owner_is_Some. Qed.

(** The three routes on a resource that exists: the answer follows
    the permit test of the DAO's statement. *)
Lemma put_comment_existing d s i me raw cid c text :
  Server.passport_user s = Some i -> users d !! i = Some me ->
  1 <= raw -> Server.param_id raw = Js.Num cid ->
  Server.valid_text text = true -> comments d !! cid = Some c ->
  (Server.status (Server.put_comment d s raw text).1 = 200 <->
     elevated s me \/ c_userId c = Some i) /\
  (~ (elevated s me \/ c_userId c = Some i) ->
     Server.put_comment d s raw text = (Server.respond 403 comment_update_refused, d)).
Proof.
  intros Hs Hme Hid Hcid Htext Hc.
  rewrite (put_comment_row _ _ _ _ _ _ Hs Hme Hid Htext), Hcid.
  rewrite (updateComment_found _ _ _ _ _ _ Hc). simpl.
  pose proof (permit_bool s i me (c_userId c)) as Hp.
  destruct (_ || _); simpl.
  - split; [|intros Hn; destruct Hn; by apply Hp]. split; [intros _; by apply Hp|done].
  - split; [|done]. split; [discriminate|]. intros Hy. by apply Hp in Hy.
Qed.

Lemma delete_comment_existing d s i me raw cid c :
  Server.passport_user s = Some i -> users d !! i = Some me ->
  1 <= raw -> Server.param_id raw = Js.Num cid -> comments d !! cid = Some c ->
  (Server.status (Server.delete_comment d s raw).1 = 200 <->
     elevated s me \/ c_userId c = Some i) /\
  (~ (elevated s me \/ c_userId c = Some i) ->
     Server.delete_comment d s raw = (Server.respond 403 comment_delete_refused, d)).
Proof.
  intros Hs Hme Hid Hcid Hc.
  rewrite (delete_comment_row _ _ _ _ _ Hs Hme Hid), Hcid.
  rewrite (deleteComment_found _ _ _ _ _ Hc). simpl.
  pose proof (permit_bool s i me (c_userId c)) as Hp.
  destruct (_ || _); simpl.
  - split; [|intros Hn; destruct Hn; by apply Hp]. split; [intros _; by apply Hp|done].
  - split; [|done]. split; [discriminate|]. intros Hy. by apply Hp in Hy.
Qed.

Lemma delete_post_existing d s i me raw pid p :
  Server.passport_user s = Some i -> users d !! i = Some me ->
  1 <= raw -> Server.param_id raw = Js.Num pid -> posts d !! pid = Some p ->
  (Server.status (Server.delete_post d s raw).1 = 200 <->
     elevated s me \/ p_userId p = i) /\
  (~ (elevated s me \/ p_userId p = i) ->
     Server.delete_post d s raw = (Server.respond 403 post_delete_refused, d)).
Proof.
  intros Hs Hme Hid Hpid Hp'.
  rewrite (delete_post_row _ _ _ _ _ Hs Hme Hid), Hpid.
  rewrite (deletePost_found _ _ _ _ _ Hp'). simpl.
  pose proof (permit_bool s i me (Some (p_userId p))) as Hp.
  assert (Hinj : Some (p_userId p) = Some i <-> p_userId p = i)
    by (split; congruence).
  rewrite Hinj in Hp.
  destruct (_ || _); simpl.
  - split; [|intros Hn; destruct Hn; by apply Hp]. split; [intros _; by apply Hp|done].
  - split; [|done]. split; [discriminate|]. intros Hy. by apply Hp in Hy.
Qed.

(** C4. For a requester whose session resolves to a user row, and a
    comment or post that exists, the one whose id the route reads in the
    path, on a request that passes validation: editing the comment,
    deleting the comment and deleting the post answer 200 if and only if
    the session is elevated or the requester's id is the resource's
    owning user id, and answer 403, leaving the database as it was, in
    every other case. *)
Theorem edit_delete_authorized_iff d s i me :
  Server.passport_user s = Some i -> users d !! i = Some me ->
  (forall raw cid c text,
     1 <= raw -> Server.param_id raw = Js.Num cid ->
     Server.valid_text text = true -> comments d !! cid = Some c ->
     let out := Server.put_comment d s raw text in
     (Server.status out.1 = 200 <-> elevated s me \/ c_userId c = Some i) /\
     (~ (elevated s me \/ c_userId c = Some i) ->
        out = (Server.respond 403 comment_update_refused, d))) /\
  (forall raw cid c,
     1 <= raw -> Server.param_id raw = Js.Num cid -> comments d !! cid = Some c ->
     let out := Server.delete_comment d s raw in
     (Server.status out.1 = 200 <-> elevated s me \/ c_userId c = Some i) /\
     (~ (elevated s me \/ c_userId c = Some i) ->
        out = (Server.respond 403 comment_delete_refused, d))) /\
  (forall raw pid p,
     1 <= raw -> Server.param_id raw = Js.Num pid -> posts d !! pid = Some p ->
     let out := Server.delete_post d s raw in
     (Server.status out.1 = 200 <-> elevated s me \/ p_userId p = i) /\
     (~ (elevated s me \/ p_userId p = i) ->
        out = (Server.respond 403 post_delete_refused, d))).
Proof.
  intros Hs Hme. split; [|split].
  - intros raw cid c text Hid Hcid Htext Hc. by apply (put_comment_existing d s i me raw cid).
  - intros raw cid c Hid Hcid Hc. by apply (delete_comment_existing d s i me raw cid).
  - intros raw pid p Hid Hpid Hp. by apply (delete_post_existing d s i me raw pid).
Qed.

End Authorization.

Lemma edit_delete_authorized_iff_witness :
  (* diana, not elevated, deletes her own comment 3 and is refused on bob's comment 1 *)
  Server.status (Server.delete_comment Seed.forum (Seed.logged_in 4) 3).1 = 200 /\
  Server.delete_comment Seed.forum (Seed.logged_in 4) 1
    = (Server.respond 403 comment_delete_refused, Seed.forum) /\
  (* alberto, elevated, edits carl's comment 5 and deletes bob's post 3 *)
  Server.status (Server.put_comment (H:=Seed.keep_all) Seed.forum (Seed.with_totp 1) 5
                   (Seed.said "Edited by a moderator.")).1 = 200 /\
  Server.status (Server.delete_post Seed.forum (Seed.with_totp 1) 3).1 = 200 /\
  (* the path id 3 * 10^21 is read as 3: diana deletes her comment 3 with it *)
  Server.status (Server.delete_comment Seed.forum (Seed.logged_in 4) (3 * 10 ^ 21)).1 = 200.
Proof.
  destruct (edit_delete_authorized_iff (H:=Seed.keep_all) Seed.forum (Seed.logged_in 4) 4
              Seed.diana eq_refl eq_refl) as (_ & Hdiana & _).
  destruct (edit_delete_authorized_iff (H:=Seed.keep_all) Seed.forum (Seed.with_totp 1) 1
              Seed.alberto eq_refl eq_refl) as (Hput & _ & Hpost).
  assert (Helev : elevated (Seed.with_totp 1) Seed.alberto).
  { split; [reflexivity|]. exists 1. split; [reflexivity|lia]. }
  split; [|split; [|split; [|split]]].
  - apply (Hdiana 3 3 (Seed.row "I have been wondering about this topic lately. Thanks for the insights!"
                       "2015-12-05 12:01:09" (Some 4) 1) ltac:(lia) eq_refl eq_refl).
    right. reflexivity.
  - apply (Hdiana 1 1 (Seed.row "Absolutely fascinating! This really makes you think."
                       "2015-12-01 11:21:27" (Some 2) 1) ltac:(lia) eq_refl eq_refl).
    intros [[Hm _]|Howner]; discriminate.
  - apply (Hput 5 5 (Seed.row "Thought-provoking! I am definitely going to dive deeper into this."
                     "2013-10-22 05:43:06" (Some 3) 2) (Seed.said "Edited by a moderator.")
             ltac:(lia) eq_refl eq_refl eq_refl).
    left. exact Helev.
  - apply (Hpost 3 3 Seed.post3 ltac:(lia) eq_refl eq_refl). left. exact Helev.
  - apply (Hdiana (3 * 10 ^ 21) 3
             (Seed.row "I have been wondering about this topic lately. Thanks for the insights!"
                "2015-12-05 12:01:09" (Some 4) 1) ltac:(lia)); [vm_compute; reflexivity|reflexivity|].
    right. reflexivity.
Defined.

(** ** Absent resources at the boundary *)

Section Absent.
Context `{Sanitizer}.

(** C3, amended. For a requester whose session resolves to a user row
    and a request that passes validation, editing or deleting a comment
    that does not exist, and deleting a post that does not exist (no row
    has the id the route reads in the path), answer 403 with the route's
    refusal body and leave the database as it was; that is the very
    response the route gives for an existing resource the requester is
    neither elevated for nor the owner of. *)
Theorem absent_resource_answers_403 d s i me :
  Server.passport_user s = Some i -> users d !! i = Some me ->
  (forall raw text, 1 <= raw -> Server.valid_text text = true ->
     (forall cid, Server.param_id raw = Js.Num cid -> comments d !! cid = None) ->
     Server.put_comment d s raw text = (Server.respond 403 comment_update_refused, d)) /\
  (forall raw, 1 <= raw ->
     (forall cid, Server.param_id raw = Js.Num cid -> comments d !! cid = None) ->
     Server.delete_comment d s raw = (Server.respond 403 comment_delete_refused, d)) /\
  (forall raw, 1 <= raw ->
     (forall pid, Server.param_id raw = Js.Num pid -> posts d !! pid = None) ->
     Server.delete_post d s raw = (Server.respond 403 post_delete_refused, d)) /\
  (forall raw cid c text, 1 <= raw -> Server.param_id raw = Js.Num cid ->
     Server.valid_text text = true ->
     comments d !! cid = Some c -> ~ (elevated s me \/ c_userId c = Some i) ->
     Server.put_comment d s raw text = (Server.respond 403 comment_update_refused, d)) /\
  (forall raw cid c, 1 <= raw -> Server.param_id raw = Js.Num cid ->
     comments d !! cid = Some c ->
     ~ (elevated s me \/ c_userId c = Some i) ->
     Server.delete_comment d s raw = (Server.respond 403 comment_delete_refused, d)) /\
  (forall raw pid p, 1 <= raw -> Server.param_id raw = Js.Num pid ->
     posts d !! pid = Some p ->
     ~ (elevated s me \/ p_userId p = i) ->
     Server.delete_post d s raw = (Server.respond 403 post_delete_refused, d)).
Proof.
  intros Hs Hme. repeat split.
  - intros raw text Hid Htext Hc.
    rewrite (put_comment_row _ _ _ _ _ _ Hs Hme Hid Htext).
    by rewrite (updateComment_absent _ _ _ _ _ Hc).
  - intros raw Hid Hc.
    rewrite (delete_comment_row _ _ _ _ _ Hs Hme Hid).
    by rewrite (deleteComment_absent _ _ _ _ Hc).
  - intros raw Hid Hp.
    rewrite (delete_post_row _ _ _ _ _ Hs Hme Hid).
    by rewrite (deletePost_absent _ _ _ _ Hp).
  - intros raw cid c text Hid Hcid Htext Hc Hno.
    by apply (put_comment_existing d s i me raw cid c text Hs Hme Hid Hcid Htext Hc).
  - intros raw cid c Hid Hcid Hc Hno.
    by apply (delete_comment_existing d s i me raw cid c Hs Hme Hid Hcid Hc).
  - intros raw pid p Hid Hpid Hp Hno.
    by apply (delete_post_existing d s i me raw pid p Hs Hme Hid Hpid Hp).
Qed.

End Absent.

Lemma absent_resource_answers_403_witness :
  Server.param_id 999 = Js.Num 999 /\ comments Seed.forum !! 999 = None /\
  Server.delete_comment Seed.forum (Seed.logged_in 4) 999
    = (Server.respond 403 comment_delete_refused, Seed.forum) /\
  Server.delete_post Seed.forum (Seed.logged_in 4) 999
    = (Server.respond 403 post_delete_refused, Seed.forum) /\
  (* a path id of 400 digits is read as no number *)
  Server.param_id (10 ^ 400) = Js.NaN /\
  Server.delete_comment Seed.forum (Seed.logged_in 4) (10 ^ 400)
    = (Server.respond 403 comment_delete_refused, Seed.forum).
Proof.
  destruct (absent_resource_answers_403 (H:=Seed.keep_all) Seed.forum (Seed.logged_in 4) 4
              Seed.diana eq_refl eq_refl) as (_ & Hdel & Hpost & _).
  split; [reflexivity|]. split; [reflexivity|]. split; [|split; [|split]].
  - apply Hdel; [lia|]. intros cid Hcid. vm_compute in Hcid. by injection Hcid as <-.
  - apply Hpost; [lia|]. intros pid Hpid. vm_compute in Hpid. by injection Hpid as <-.
  - vm_compute. reflexivity.
  - apply Hdel; [lia|]. intros cid Hcid. vm_compute in Hcid. discriminate.
Defined.

(** C3, as stated, fails: diana's request to delete the comment 999,
    which does not exist, is answered 403 and not 404, with the same
    response as her request to delete bob's comment 1, which exists and
    which she may not delete. *)
Lemma absent_comment_is_not_404 :
  comments Seed.forum !! 999 = None /\
  Server.status (Server.delete_comment Seed.forum (Seed.logged_in 4) 999).1 = 403 /\
  Server.status (Server.delete_comment Seed.forum (Seed.logged_in 4) 999).1 <> 404 /\
  is_Some (comments Seed.forum !! 1) /\
  (Server.delete_comment Seed.forum (Seed.logged_in 4) 999).1
    = (Server.delete_comment Seed.forum (Seed.logged_in 4) 1).1.
Proof.
  split; [reflexivity|]. split; [reflexivity|]. split; [discriminate|].
  split; [by eexists|reflexivity].
Qed.

(** ** The flag ledger *)

Section Flags.

Lemma constraint_message_not_already_marked e :
  String.eqb (Sqlite.message e) "Already marked" = false.
Proof. by destruct e. Qed.

Lemma post_comment_interesting_row d s i me raw :
  Server.passport_user s = Some i -> users d !! i = Some me -> 1 <= raw ->
  Server.post_comment_interesting d s raw =
    match Dao.markCommentAsInteresting d (Server.param_id raw) (Js.Num i) with
    | (Dao.Ok _, d') => (Server.respond 200 Server.JsonSuccess, d')
    | (Dao.Rejected _, d') => (Server.respond 503 mark_failed, d')
    end.
Proof.
  intros Hs Hme Hid. unfold Server.post_comment_interesting.
  rewrite (req_user_row _ _ _ _ Hs Hme), not_user_false, (valid_id_true _ Hid).
  simpl. destruct (Dao.markCommentAsInteresting _ _ _) as [[b|e] d']; [done|].
  by rewrite constraint_message_not_already_marked.
Qed.

Lemma flag_count_insert d d' u cid :
  (u, cid) ∉ interesting_flags d ->
  interesting_flags d' = {[ (u, cid) ]} ∪ interesting_flags d ->
  Dao.flag_count d' cid = S (Dao.flag_count d cid).
Proof.
  intros Hnew Hd'. unfold Dao.flag_count. rewrite Hd'.
  assert (filter (fun uc : Z * Z => uc.2 = cid) ({[(u, cid)]} ∪ interesting_flags d)
          = {[(u, cid)]} ∪ filter (fun uc : Z * Z => uc.2 = cid) (interesting_flags d)) as ->.
  { apply set_eq. intros [u' k]. rewrite elem_of_filter, !elem_of_union, elem_of_filter,
      elem_of_singleton. simpl. split; [tauto|]. intros [[= -> ->]|[-> Hin]]; tauto. }
  rewrite size_union, size_singleton; [done|].
  apply disjoint_singleton_l. rewrite elem_of_filter. tauto.
Qed.

(** C1, what the code does, for the comment whose id the route reads in
    the path. A first mark of an existing comment answers 200 and raises
    the comment's count by one.  A mark by a user who has already marked
    the comment leaves the flags, and so the count, as they were, but
    the answer is the 503 of a storage failure and not the 409 of a
    conflict: the DAO rejects with SQLite's own error, whose message is
    never "Already marked". *)
Theorem second_mark_answers_503 d s i me raw cid :
  Server.passport_user s = Some i -> users d !! i = Some me ->
  1 <= raw -> Server.param_id raw = Js.Num cid ->
  (forall c, comments d !! cid = Some c -> (i, cid) ∉ interesting_flags d ->
     let out := Server.post_comment_interesting d s raw in
     Server.status out.1 = 200 /\
     (i, cid) ∈ interesting_flags out.2 /\
     Dao.flag_count out.2 cid = S (Dao.flag_count d cid)) /\
  ((i, cid) ∈ interesting_flags d ->
     Server.post_comment_interesting d s raw = (Server.respond 503 mark_failed, d)).
Proof.
  intros Hs Hme Hid Hcid. rewrite (post_comment_interesting_row _ _ _ _ _ Hs Hme Hid), Hcid.
  unfold Dao.markCommentAsInteresting. simpl. split.
  - intros c Hc Hnew. rewrite (bool_decide_eq_false_2 _ Hnew).
    rewrite !bool_decide_eq_true_2 by (by rewrite ?Hme, ?Hc). simpl.
    split; [done|]. split; [set_solver|].
    by apply (flag_count_insert d _ i cid).
  - intros Hold. by rewrite (bool_decide_eq_true_2 _ Hold).
Qed.

End Flags.

Lemma second_mark_answers_503_witness :
  (1, 4) ∈ interesting_flags Seed.forum /\
  Server.post_comment_interesting Seed.forum (Seed.logged_in 1) 4
    = (Server.respond 503 mark_failed, Seed.forum) /\
  Server.status (Server.post_comment_interesting Seed.forum (Seed.logged_in 2) 4).1 = 200.
Proof.
  assert (Hin : (1, 4) ∈ interesting_flags Seed.forum) by decide_by_running.
  assert (Hout : (2, 4) ∉ interesting_flags Seed.forum) by decide_by_running.
  split; [exact Hin|]. split.
  - destruct (second_mark_answers_503 Seed.forum (Seed.logged_in 1) 1 Seed.alberto 4 4
                eq_refl eq_refl ltac:(lia) eq_refl) as [_ Hsecond].
    exact (Hsecond Hin).
  - destruct (second_mark_answers_503 Seed.forum (Seed.logged_in 2) 2 Seed.bob 4 4
                eq_refl eq_refl ltac:(lia) eq_refl) as [Hfirst _].
    apply (Hfirst (Seed.row "This truly breaks down a complex subject into digestible pieces. Well done."
                     "2013-11-04 09:12:01" (Some 4) 2) eq_refl Hout).
Defined.

(** ** The second factor *)

Section SecondFactor.
Context `{Totp}.

(** The checking middleware for a requester whose session resolves to a
    row: the admin mark, then the secret, then the code. *)
Lemma post_login_totp_row d s i me code :
  Server.passport_user s = Some i -> users d !! i = Some me ->
  let u := UserDao.UserObject (UserDao.user_of_row i me) in
  Server.post_login_totp d s code =
    if negb (Server.admin u)
    then (Server.respond 403 (Server.JsonError "Only admin can use 2FA login"), s, [])
    else if negb (Server.has_secret u)
    then (Server.respond 403 (Server.JsonError "2FA not enabled for this user"), s, [])
    else if negb (Js.truthy code)
    then (Server.respond 422 (Server.JsonError "Missing or invalid TOTP code"), s, [])
    else match code with
         | Js.JString c =>
             if negb (Validator.isNumeric (Validator.trim c))
             then (Server.respond 422 (Server.JsonError "Missing or invalid TOTP code"), s, [])
             else
               let value := Validator.trim c in
               let key := base32_decode (u_secret me) in
               let trace := [Server.Base32Decode (u_secret me); Server.TotpVerify value key 30] in
               if totp_verify value key 30
               then (Server.respond 200 Server.JsonOtp,
                     {| Server.passport_user := Server.passport_user s;
                        Server.method := Some "totp" |}, trace)
               else (Server.respond 401 (Server.Text "Unauthorized"), s, trace)
         | _ => (Server.respond 503 (Server.JsonError "Error validating user"), s, [])
         end.
Proof.
  intros Hs Hme. simpl. unfold Server.post_login_totp.
  rewrite (req_user_row _ _ _ _ Hs Hme), not_user_false. simpl.
  by destruct code.
Qed.

(** C7. When the session's user is not an administrator or has no
    second-factor secret, the second-factor route answers 403 whatever
    code is submitted, leaves the session as it was and does not run the
    TOTP check. *)
Theorem second_factor_refused d s i me code :
  Server.passport_user s = Some i -> users d !! i = Some me ->
  u_admin me = None \/ u_admin me = Some 0 \/ u_secret me = "" ->
  exists msg,
    Server.post_login_totp d s code = (Server.respond 403 (Server.JsonError msg), s, []).
Proof.
  intros Hs Hme Hno. rewrite (post_login_totp_row _ _ _ _ _ Hs Hme). simpl.
  destruct Hno as [Ha|[Ha|Hsecret]].
  - rewrite Ha. simpl. by eexists.
  - rewrite Ha. simpl. by eexists.
  - rewrite Hsecret. simpl.
    destruct (match u_admin me with Some a => negb (a =? 0)%Z | None => false end);
      simpl; by eexists.
Qed.

(** C2, amended. A submitted code that is missing, is not a string, or
    whose trimmed text [isNumeric] rejects (the empty text among them)
    never reaches the TOTP strategy: nothing is decoded or verified, the
    session stays as it was and the answer is not 200.  For an
    administrator with a secret, a non-empty string whose trimmed text
    [isNumeric] accepts, of any length, is handed to the TOTP strategy,
    which decodes the secret and verifies the trimmed code. *)
Theorem totp_code_gate d s code :
  ((forall c, code = Js.JString c -> Validator.isNumeric (Validator.trim c) = false) ->
   let '(r, s', trace) := Server.post_login_totp d s code in
   trace = [] /\ s' = s /\ Server.status r <> 200) /\
  (forall i me c a,
     Server.passport_user s = Some i -> users d !! i = Some me ->
     u_admin me = Some a -> a <> 0 -> u_secret me <> "" ->
     code = Js.JString c -> c <> [] ->
     Validator.isNumeric (Validator.trim c) = true ->
     (Server.post_login_totp d s code).2 =
       [Server.Base32Decode (u_secret me);
        Server.TotpVerify (Validator.trim c) (base32_decode (u_secret me)) 30]).
Proof.
  split.
  - intros Hcode. unfold Server.post_login_totp.
    destruct (Server.req_user d s) as [u|]; [|done].
    rewrite not_user_false.
    destruct (negb (Server.admin u)); [done|].
    destruct (negb (Server.has_secret u)); [done|].
    destruct (negb (Js.truthy code)); [done|].
    destruct code as [| |b|z|c]; try done.
    destruct u as [user|]; [|done].
    by rewrite (Hcode c eq_refl).
  - intros i me c a Hs Hme Ha Hnz Hsecret -> Hc Hnum.
    rewrite (post_login_totp_row _ _ _ _ _ Hs Hme). simpl.
    rewrite Ha, Hnum. simpl.
    assert ((a =? 0)%Z = false) as -> by lia.
    assert (String.eqb (u_secret me) "" = false) as -> by (by apply String.eqb_neq).
    destruct c; [done|].
    simpl. by destruct (totp_verify _ _ _).
Qed.

End SecondFactor.

Lemma second_factor_refused_witness :
  Server.post_login_totp (H:=Seed.fixed_code) Seed.forum (Seed.logged_in 3)
    (Js.JString (Js.lit "000000"))
    = (Server.respond 403 (Server.JsonError "Only admin can use 2FA login"),
       Seed.logged_in 3, []).
Proof.
  destruct (second_factor_refused (H:=Seed.fixed_code) Seed.forum (Seed.logged_in 3) 3
              Seed.carl (Js.JString (Js.lit "000000")) eq_refl eq_refl
              ltac:(right; left; reflexivity)) as [msg Hmsg].
  rewrite Hmsg. vm_compute in Hmsg. injection Hmsg as <-. reflexivity.
Defined.

Lemma totp_code_gate_witness :
  (let '(r, s', trace) :=
     Server.post_login_totp (H:=Seed.fixed_code) Seed.forum (Seed.logged_in 1)
       (Js.JString (Js.lit "12a456")) in
   trace = [] /\ s' = Seed.logged_in 1 /\ Server.status r <> 200) /\
  (* white space of any kind is trimmed: a no-break space before, a
     space after *)
  (Server.post_login_totp (H:=Seed.fixed_code) Seed.forum (Seed.logged_in 1)
     (Js.JString (Seed.nbsp :: Js.lit "000000 "))).2
  = [Server.Base32Decode "LXBSMDTMSP2I5XFXIYRGFVWSFI";
     Server.TotpVerify (Js.lit "000000") (Seed.bytes_of "LXBSMDTMSP2I5XFXIYRGFVWSFI") 30].
Proof.
  split.
  - apply (totp_code_gate (H:=Seed.fixed_code) Seed.forum (Seed.logged_in 1)
             (Js.JString (Js.lit "12a456"))).
    intros c [= <-]. reflexivity.
  - destruct (totp_code_gate (H:=Seed.fixed_code) Seed.forum (Seed.logged_in 1)
                (Js.JString (Seed.nbsp :: Js.lit "000000 "))) as [_ Hpass].
    apply (Hpass 1 Seed.alberto (Seed.nbsp :: Js.lit "000000 ") 1);
      try reflexivity; try discriminate.
Defined.

(** C2, as stated, fails: the code 12345 has five digits, not six, and
    alberto's request with it is not turned away before the TOTP check;
    the strategy decodes his secret and verifies the code against it. *)
Lemma five_digit_code_reaches_totp :
  length (Js.lit "12345") <> 6%nat /\
  Validator.isNumeric (Validator.trim (Js.lit "12345")) = true /\
  (Server.post_login_totp (H:=Seed.fixed_code) Seed.forum (Seed.logged_in 1)
     (Js.JString (Js.lit "12345"))).2
  = [Server.Base32Decode "LXBSMDTMSP2I5XFXIYRGFVWSFI";
     Server.TotpVerify (Js.lit "12345") (Seed.bytes_of "LXBSMDTMSP2I5XFXIYRGFVWSFI") 30].
Proof. split; [discriminate|]. split; reflexivity. Qed.

(** ** Deleting a post *)

Section Cascade.

(** A 200 from the route means the DAO deleted the post's row, and with
    it the post's comments and their flags. *)
Lemma delete_post_200 d s raw :
  Server.status (Server.delete_post d s raw).1 = 200 ->
  exists pid p, Server.param_id raw = Js.Num pid /\ posts d !! pid = Some p /\
    (Server.delete_post d s raw).2 =
      {| users := users d; posts := delete pid (posts d);
         comments := filter (fun kc : Z * comment => c_postId kc.2 ≠ pid) (comments d);
         interesting_flags :=
           Sqlite.cascade_flags (Dao.comments_of d pid) (interesting_flags d);
         seq_posts := seq_posts d; seq_comments := seq_comments d |}.
Proof.
  unfold Server.delete_post.
  destruct (Server.req_user d s) as [u|]; [|discriminate].
  destruct (negb (Server.valid_id raw)); [discriminate|].
  rewrite not_user_false.
  destruct (param_id_cases raw) as [->|[pid ->]]; [discriminate|].
  destruct (posts d !! pid) as [p|] eqn:Hp.
  - rewrite (deletePost_found _ _ _ _ _ Hp).
    destruct (_ || _); simpl; [|discriminate]. intros _. by exists pid, p.
  - rewrite deletePost_absent; [discriminate|]. by intros ? [= <-].
Qed.

Lemma comments_of_after_delete d d' pid :
  comments d' = filter (fun kc : Z * comment => c_postId kc.2 ≠ pid) (comments d) ->
  Dao.comments_of d' pid = ∅.
Proof.
  intros Hd'. apply map_eq. intros k. rewrite lookup_empty.
  destruct (Dao.comments_of d' pid !! k) as [c|] eqn:Hk; [|done].
  apply comments_of_lookup in Hk as [Hk Hpid]. rewrite Hd' in Hk.
  apply map_lookup_filter_Some in Hk as [_ Hne]. by destruct Hne.
Qed.

Lemma getCommentsByPostId_none d pid a :
  Dao.comments_of d pid = ∅ -> Dao.getCommentsByPostId d (Js.Num pid) a = [].
Proof.
  intros Hnone. unfold Dao.getCommentsByPostId, Dao.visible_rows. simpl. rewrite Hnone.
  destruct (Js.is_null a); by rewrite ?map_filter_empty, map_to_list_empty.
Qed.

(** C8. After the route has answered a post deletion with 200, the row
    of the post, the one whose id the route read in the path, is gone,
    no comment with that post as parent is left, no flag on a comment
    that had that post as parent is left, reading the post or its
    comments finds nothing, and the comments of other posts and the
    flags on them are still there. *)
Theorem delete_post_cascades d s raw :
  Server.status (Server.delete_post d s raw).1 = 200 ->
  let d' := (Server.delete_post d s raw).2 in
  exists pid, Server.param_id raw = Js.Num pid /\
  is_Some (posts d !! pid) /\
  posts d' !! pid = None /\
  (forall k c, comments d' !! k = Some c -> c_postId c <> pid) /\
  (forall u k c, comments d !! k = Some c -> c_postId c = pid ->
     (u, k) ∉ interesting_flags d') /\
  Dao.getPost d' (Js.Num pid) = Dao.PostNotFound /\
  (forall a, Dao.getCommentsByPostId d' (Js.Num pid) a = []) /\
  (forall k c, comments d !! k = Some c -> c_postId c <> pid -> comments d' !! k = Some c) /\
  (forall u k, (u, k) ∈ interesting_flags d ->
     (forall c, comments d !! k = Some c -> c_postId c <> pid) ->
     (u, k) ∈ interesting_flags d').
Proof.
  intros H200. destruct (delete_post_200 d s raw H200) as (pid & p & Hpid & Hp & Hd'). simpl.
  exists pid. split; [done|]. split; [by exists p|].
  rewrite Hd'. simpl. repeat split.
  - apply lookup_delete_eq.
  - intros k c Hk. by apply map_lookup_filter_Some in Hk as [_ Hne].
  - intros u k c Hk Hpid' Hin. unfold Sqlite.cascade_flags in Hin.
    apply elem_of_filter in Hin as [Hgone _]. simpl in Hgone.
    assert (Dao.comments_of d pid !! k = Some c) by (by apply comments_of_lookup).
    congruence.
  - unfold Dao.getPost. simpl. by rewrite lookup_delete_eq.
  - intros a. by apply getCommentsByPostId_none, (comments_of_after_delete d).
  - intros k c Hk Hne. by apply map_lookup_filter_Some.
  - intros u k Hin Hother. unfold Sqlite.cascade_flags.
    apply elem_of_filter. split; [|done]. simpl.
    destruct (Dao.comments_of d pid !! k) as [c|] eqn:Hk; [|done].
    apply comments_of_lookup in Hk as [Hk Hpid']. by destruct (Hother c Hk).
Qed.

End Cascade.

Lemma delete_post_cascades_witness :
  Server.status (Server.delete_post Seed.forum (Seed.with_totp 1) 2).1 = 200 /\
  (1, 4) ∈ interesting_flags Seed.forum /\
  ((1, 4) ∉ interesting_flags (Server.delete_post Seed.forum (Seed.with_totp 1) 2).2) /\
  (comments (Server.delete_post Seed.forum (Seed.with_totp 1) 2).2) !! 4 = None /\
  Dao.getCommentsByPostId (Server.delete_post Seed.forum (Seed.with_totp 1) 2).2 (Js.Num 2)
    (Js.Number (Js.Num 1)) = [].
Proof.
  assert (H200 : Server.status (Server.delete_post Seed.forum (Seed.with_totp 1) 2).1 = 200)
    by reflexivity.
  destruct (delete_post_cascades Seed.forum (Seed.with_totp 1) 2 H200)
    as (pid & Hpid & _ & _ & Hcomments & Hflags & _ & Hread & _).
  vm_compute in Hpid. injection Hpid as <-.
  split; [exact H200|]. split; [decide_by_running|]. split; [|split].
  - apply (Hflags 1 4 (Seed.row "This truly breaks down a complex subject into digestible pieces. Well done."
                         "2013-11-04 09:12:01" (Some 4) 2)); reflexivity.
  - destruct ((comments _) !! 4) as [c|] eqn:Hc; [|reflexivity].
    exfalso. revert Hc. vm_compute. discriminate.
  - apply Hread.
Defined.

(** * Further properties of the server *)

(** ** What a request does to the database *)

Section Effects.
Context `{Sanitizer}.

Lemma createComment_rejected d c now e d' :
  Dao.createComment d c now = (Dao.Rejected e, d') -> d' = d.
Proof.
  unfold Dao.createComment. destruct (Js.bind_num _); try by intros [= _ <-].
  destruct (_ && _); [discriminate|]. by intros [= _ <-].
Qed.

Lemma updateComment_error d cid newText userId adm msg d' :
  Dao.updateComment d cid newText userId adm = (Dao.UpdateError msg, d') -> d' = d.
Proof.
  unfold Dao.updateComment. destruct (Js.key _); [|by intros [= _ <-]].
  destruct (_ =? _)%Z; [|discriminate]. by intros [= _ <-].
Qed.

Lemma deleteComment_changes d cid userId adm n d' :
  Dao.deleteComment d cid userId adm = (n, d') -> (n = 0 /\ d' = d) \/ n = 1.
Proof.
  unfold Dao.deleteComment. destruct (Js.key _) as [k|]; [|intros [= <- <-]; by left].
  destruct (comments d !! k); [|intros [= <- <-]; by left].
  destruct (if adm then _ else _); intros [= <- <-]; [by right|by left].
Qed.

Lemma deletePost_changes d pid userId adm n d' :
  Dao.deletePost d pid userId adm = (n, d') -> (n = 0 /\ d' = d) \/ n = 1.
Proof.
  unfold Dao.deletePost. destruct (Js.key _) as [k|]; [|intros [= <- <-]; by left].
  destruct (posts d !! k); [|intros [= <- <-]; by left].
  destruct (if adm then _ else _); intros [= <- <-]; [by right|by left].
Qed.

Lemma markCommentAsInteresting_rejected d cid userId e d' :
  Dao.markCommentAsInteresting d cid userId = (Dao.Rejected e, d') -> d' = d.
Proof.
  unfold Dao.markCommentAsInteresting.
  destruct (Js.bind_num userId), (Js.bind_num cid); try by intros [= _ <-].
  destruct (bool_decide _); [by intros [= _ <-]|].
  destruct (_ && _); [discriminate|]. by intros [= _ <-].
Qed.

Lemma unmarkCommentAsInteresting_resolves d cid userId :
  exists d', Dao.unmarkCommentAsInteresting d cid userId = (Dao.Ok true, d').
Proof.
  unfold Dao.unmarkCommentAsInteresting.
  destruct (Js.key (Js.bind_num userId)), (Js.key (Js.bind_num cid)); by eexists.
Qed.

Lemma createPost_rejected d p now e d' :
  Dao.createPost d p now = (Dao.Rejected e, d') -> d' = d.
Proof.
  unfold Dao.createPost.
  destruct (Js.bind_num _); [by intros [= _ <-]|..];
    (destruct (negb _); [by intros [= _ <-]|]); simpl; [|by intros [= _ <-]].
  destruct (users d !! _); [discriminate|]. by intros [= _ <-].
Qed.

(** A refused request: the database is as it was. *)
Ltac refused := simpl; split; [by apply NoChange|done].

(** Every request either goes through, with status 200 or 201 and the
    effect of one DAO write, or is refused and changes nothing. *)
Lemma handle_effect d s r :
  effect d (App.handle d s r).2 /\
  ((App.handle d s r).1 <> 200 -> (App.handle d s r).1 <> 201 -> (App.handle d s r).2 = d).
Proof.
  destruct r as [title text m now|id text now|id text|id|id|id|id]; simpl.
  - unfold Server.post_posts.
    destruct (Server.req_user d s) as [u|]; [|refused].
    destruct (Server.valid_title title && Server.valid_text text && Server.valid_maxComments m)
      eqn:Hvalid; simpl; [|refused].
    rewrite not_user_false.
    destruct (Dao.createPost d _ now) as [[result|e] d'] eqn:Hcreate; simpl.
    + split; [|done]. eapply PostCreated; [|exact Hcreate]. simpl.
      apply andb_true_iff in Hvalid as [_ Hm]. intros n Hn.
      by destruct (valid_maxComments_value m n Hm Hn).
    + apply createPost_rejected in Hcreate as ->.
      destruct (Js.includes _ _); simpl; refused.
  - unfold Server.post_post_comments.
    destruct (negb (Server.valid_id id && Server.valid_text text)); [refused|].
    destruct (Dao.getPost d (Server.param_id id)) as [post|] eqn:Hget; [|refused].
    destruct (getPost_exists _ _ _ Hget) as [Hid _]. rewrite Hid.
    rewrite getCommentsByPostId_length, visible_rows_not_null by done.
    destruct (match Post.maxComments post with Some m => _ | None => false end) eqn:Hmax;
      [refused|].
    destruct (Dao.createComment d _ now) as [[result|e] d'] eqn:Hcreate; simpl.
    + split; [|done].
      apply (CommentCreated d d' {| Dao.nc_text := sanitize (Server.text_of text);
               Dao.nc_postId := Js.Num (Post.id post);
               Dao.nc_userId := Server.requester d s |}
               now result post); [by rewrite <- Hid| |exact Hcreate].
      intros n Hn. rewrite Hn in Hmax. lia.
    + apply createComment_rejected in Hcreate as ->. refused.
  - unfold Server.put_comment.
    destruct (Server.req_user d s) as [u|]; [|refused].
    destruct (negb (Server.valid_id id && Server.valid_text text)); [refused|].
    rewrite not_user_false.
    destruct (Dao.updateComment d _ _ _ _) as [[|msg] d'] eqn:Hupd; simpl.
    + split; [|done]. eapply CommentUpdated. exact Hupd.
    + apply updateComment_error in Hupd as ->. refused.
  - unfold Server.delete_comment.
    destruct (Server.req_user d s) as [u|]; [|refused].
    destruct (negb (Server.valid_id id)); [refused|].
    rewrite not_user_false.
    destruct (Dao.deleteComment d _ _ _) as [n d'] eqn:Hdel.
    destruct (deleteComment_changes _ _ _ _ _ _ Hdel) as [[-> ->]| ->]; simpl.
    + refused.
    + split; [|done]. eapply CommentDeleted. exact Hdel.
  - unfold Server.delete_post.
    destruct (Server.req_user d s) as [u|]; [|refused].
    destruct (negb (Server.valid_id id)); [refused|].
    rewrite not_user_false.
    destruct (Dao.deletePost d _ _ _) as [n d'] eqn:Hdel.
    destruct (deletePost_changes _ _ _ _ _ _ Hdel) as [[-> ->]| ->]; simpl.
    + refused.
    + split; [|done]. eapply PostDeleted. exact Hdel.
  - unfold Server.post_comment_interesting.
    destruct (Server.req_user d s) as [u|]; [|refused].
    destruct (negb (Server.valid_id id)); [refused|].
    rewrite not_user_false.
    destruct (Dao.markCommentAsInteresting d _ _) as [[b|e] d'] eqn:Hmark; simpl.
    + split; [|done]. eapply FlagSet. exact Hmark.
    + apply markCommentAsInteresting_rejected in Hmark as ->.
      destruct (String.eqb _ _); simpl; refused.
  - unfold Server.delete_comment_interesting.
    destruct (Server.req_user d s) as [u|]; [|refused].
    destruct (negb (Server.valid_id id)); [refused|].
    rewrite not_user_false.
    destruct (unmarkCommentAsInteresting_resolves d (Server.param_id id) (Server.user_id u))
      as [d' Hun].
    rewrite Hun. simpl. split; [|done]. eapply FlagCleared. exact Hun.
Qed.

End Effects.

(** ** The shape of each write that goes through *)

Section Writes.

Lemma fk_ok_Int {V} (t : gmap Z V) i :
  Sqlite.fk_ok t (Js.SqlInt i) = true <-> is_Some (t !! i).
Proof. simpl. apply bool_decide_eq_true. Qed.

Lemma fk_ok_references {V} (t : gmap Z V) v :
  Sqlite.fk_ok t v = true -> references t (Js.key v).
Proof. destruct v; simpl; [done| |done]. apply bool_decide_eq_true. Qed.

Lemma bind_num_Int n z : Js.bind_num n = Js.SqlInt z -> n = Js.Num z.
Proof. destruct n; simpl; congruence. Qed.

Lemma key_bind_num n z : Js.key (Js.bind_num n) = Some z -> n = Js.Num z.
Proof. destruct n; simpl; congruence. Qed.

Lemma createComment_Ok d c now result d' :
  Dao.createComment d c now = (Dao.Ok result, d') ->
  exists pid, Dao.nc_postId c = Js.Num pid /\
  let k := Sqlite.next_rowid (seq_comments d) (comments d) in
  let row := {| c_text := Sqlite.text (Dao.nc_text c); c_date := now;
                c_userId := Js.key (Js.bind (Dao.nc_userId c)); c_postId := pid |} in
  references (users d) (Js.key (Js.bind (Dao.nc_userId c))) /\
  is_Some (posts d !! pid) /\
  Comment.id result = k /\ Comment.text result = Sqlite.text (Dao.nc_text c) /\
  users d' = users d /\ posts d' = posts d /\
  comments d' = <[k := row]> (comments d) /\
  interesting_flags d' = interesting_flags d /\
  seq_posts d' = seq_posts d /\ seq_comments d' = k.
Proof.
  unfold Dao.createComment.
  destruct (Js.bind_num (Dao.nc_postId c)) as [|pid|] eqn:Hpid; try discriminate.
  apply bind_num_Int in Hpid.
  destruct (Sqlite.fk_ok (users d) _) eqn:Hu; [|discriminate].
  destruct (Sqlite.fk_ok (posts d) _) eqn:Hp; [|discriminate].
  simpl. intros [= <- <-]. exists pid. simpl.
  apply fk_ok_Int in Hp. apply fk_ok_references in Hu. done.
Qed.

Lemma updateComment_Updated d cid newText userId adm d' :
  Dao.updateComment d cid newText userId adm = (Dao.Updated, d') ->
  exists k c, cid = Js.Num k /\ comments d !! k = Some c /\
    (adm = true \/ Dao.owner_is (c_userId c) (Js.key (Js.bind_num userId)) = true) /\
    users d' = users d /\ posts d' = posts d /\
    comments d' = alter (Dao.set_text (Sqlite.text newText)) k (comments d) /\
    interesting_flags d' = interesting_flags d /\
    seq_posts d' = seq_posts d /\ seq_comments d' = seq_comments d.
Proof.
  unfold Dao.updateComment.
  destruct (Js.key (Js.bind_num cid)) as [k|] eqn:Hk; [|discriminate].
  apply key_bind_num in Hk.
  destruct (comments d !! k) as [c|] eqn:Hc; [|discriminate].
  destruct adm; simpl.
  - intros [= <-]. exists k, c. simpl. intuition.
  - destruct (Dao.owner_is _ _) eqn:Ho; [|discriminate].
    intros [= <-]. exists k, c. simpl. intuition.
Qed.

Lemma deleteComment_deleted d cid userId adm d' :
  Dao.deleteComment d cid userId adm = (1, d') ->
  exists k c, cid = Js.Num k /\ comments d !! k = Some c /\
    (adm = true \/ Dao.owner_is (c_userId c) (Js.key (Js.bind_num userId)) = true) /\
    users d' = users d /\ posts d' = posts d /\
    comments d' = delete k (comments d) /\
    interesting_flags d' = Sqlite.cascade_flags {[k := c]} (interesting_flags d) /\
    seq_posts d' = seq_posts d /\ seq_comments d' = seq_comments d.
Proof.
  unfold Dao.deleteComment.
  destruct (Js.key (Js.bind_num cid)) as [k|] eqn:Hk; [|discriminate].
  apply key_bind_num in Hk.
  destruct (comments d !! k) as [c|] eqn:Hc; [|discriminate].
  destruct adm; simpl.
  - intros [= <-]. exists k, c. simpl. intuition.
  - destruct (Dao.owner_is _ _) eqn:Ho; [|discriminate].
    intros [= <-]. exists k, c. simpl. intuition.
Qed.

Lemma deletePost_deleted d pid userId adm d' :
  Dao.deletePost d pid userId adm = (1, d') ->
  exists k p, pid = Js.Num k /\ posts d !! k = Some p /\
    (adm = true \/ Dao.owner_is (Some (p_userId p)) (Js.key (Js.bind_num userId)) = true) /\
    users d' = users d /\ posts d' = delete k (posts d) /\
    comments d' = filter (fun kc : Z * comment => c_postId kc.2 ≠ k) (comments d) /\
    interesting_flags d' = Sqlite.cascade_flags (Dao.comments_of d k) (interesting_flags d) /\
    seq_posts d' = seq_posts d /\ seq_comments d' = seq_comments d.
Proof.
  unfold Dao.deletePost.
  destruct (Js.key (Js.bind_num pid)) as [k|] eqn:Hk; [|discriminate].
  apply key_bind_num in Hk.
  destruct (posts d !! k) as [p|] eqn:Hp; [|discriminate].
  destruct adm.
  - simpl. intros [= <-]. exists k, p. simpl. intuition.
  - destruct (Dao.owner_is _ _) eqn:Ho; [|discriminate].
    simpl. intros [= <-]. exists k, p. simpl. intuition.
Qed.

Lemma markCommentAsInteresting_Ok d cid userId b d' :
  Dao.markCommentAsInteresting d cid userId = (Dao.Ok b, d') ->
  exists u k, userId = Js.Num u /\ cid = Js.Num k /\
    ((u, k) ∉ interesting_flags d) /\
    is_Some (users d !! u) /\ is_Some (comments d !! k) /\
    users d' = users d /\ posts d' = posts d /\ comments d' = comments d /\
    interesting_flags d' = {[ (u, k) ]} ∪ interesting_flags d /\
    seq_posts d' = seq_posts d /\ seq_comments d' = seq_comments d.
Proof.
  unfold Dao.markCommentAsInteresting.
  destruct (Js.bind_num userId) as [|u|] eqn:Hu0; try discriminate;
    destruct (Js.bind_num cid) as [|k|] eqn:Hk0; try discriminate.
  apply bind_num_Int in Hu0, Hk0.
  destruct (bool_decide _) eqn:Hin; [discriminate|].
  destruct (Sqlite.fk_ok (users d) _) eqn:Hu; [|discriminate].
  destruct (Sqlite.fk_ok (comments d) _) eqn:Hc; [|discriminate].
  simpl. intros [= <- <-]. exists u, k. simpl.
  apply bool_decide_eq_false in Hin. apply fk_ok_Int in Hu, Hc. done.
Qed.

Lemma unmarkCommentAsInteresting_Ok d cid userId b d' :
  Dao.unmarkCommentAsInteresting d cid userId = (Dao.Ok b, d') ->
  users d' = users d /\ posts d' = posts d /\ comments d' = comments d /\
  interesting_flags d' ⊆ interesting_flags d /\
  seq_posts d' = seq_posts d /\ seq_comments d' = seq_comments d.
Proof.
  unfold Dao.unmarkCommentAsInteresting.
  destruct (Js.key (Js.bind_num userId)) as [u|], (Js.key (Js.bind_num cid)) as [k|];
    intros [= <- <-]; simpl; repeat split; try done.
  intros x Hx. by apply elem_of_difference in Hx as [? _].
Qed.

Lemma createPost_Ok d p now result d' :
  Dao.createPost d p now = (Dao.Ok result, d') ->
  let i := Sqlite.next_rowid (seq_posts d) (posts d) in
  exists u author,
    Dao.np_userId p = Js.Num u /\ users d !! u = Some author /\
    Dao.title_free d (Sqlite.text (Dao.np_title p)) /\
    PostSummary.id result = i /\
    users d' = users d /\
    posts d' = <[i := {| p_title := Sqlite.text (Dao.np_title p); p_userId := u;
                         p_text := Sqlite.text (Dao.np_text p);
                         p_maxComments := Dao.np_maxComments p; p_date := now |}]> (posts d) /\
    comments d' = comments d /\ interesting_flags d' = interesting_flags d /\
    seq_posts d' = i /\ seq_comments d' = seq_comments d.
Proof.
  unfold Dao.createPost.
  destruct (Js.bind_num _) as [|u|] eqn:Hu0; [discriminate|..];
    (destruct (bool_decide _) eqn:Hfree; [|discriminate]); simpl; [|discriminate].
  apply bind_num_Int in Hu0.
  destruct (users d !! u) as [author|] eqn:Hauthor; [|discriminate].
  intros [= <- <-]. exists u, author. simpl.
  apply bool_decide_eq_true in Hfree. done.
Qed.

(** ** What no request does: change [users] *)

Lemma effect_users d d' : effect d d' -> users d' = users d.
Proof.
  intros [->|c now r post _ _ Hc|cid t u a Hu|cid u a Hd|pid u a Hd|cid u b Hm|cid u b Hm
          |p now r _ Hp]; [done|..].
  - by apply createComment_Ok in Hc as (pid & _ & _ & _ & _ & _ & ? & _).
  - by apply updateComment_Updated in Hu as (k & c & _ & _ & _ & ? & _).
  - by apply deleteComment_deleted in Hd as (k & c & _ & _ & _ & ? & _).
  - by apply deletePost_deleted in Hd as (k & p & _ & _ & _ & ? & _).
  - by apply markCommentAsInteresting_Ok in Hm as (u' & k & _ & _ & _ & _ & _ & ? & _).
  - by apply unmarkCommentAsInteresting_Ok in Hm as (? & _).
  - by apply createPost_Ok in Hp as (u & author & _ & _ & _ & _ & ? & _).
Qed.

End Writes.

(** ** Invariants of the stored state *)

Section Invariants.
Context `{Sanitizer}.

Lemma effect_referential_integrity d d' :
  effect d d' -> referential_integrity d -> referential_integrity d'.
Proof.
  intros Heff (Hposts & Hcomments & Hflags).
  destruct Heff as [->|c now r post _ _ Hc|cid t u a Hu|cid u a Hd|pid u a Hd|cid u b Hm|cid u b Hm
          |p now r _ Hp]; [done|..].
  - apply createComment_Ok in Hc as (pid & _ & Hfu & Hfp & _ & _ & Eu & Ep & Ec & Ef & _).
    unfold referential_integrity. rewrite Eu, Ep, Ec, Ef. split; [done|]. split.
    + intros k row. rewrite lookup_insert. case_decide.
      * intros [= <-]. simpl. done.
      * apply Hcomments.
    + intros uc Huc. destruct (Hflags uc Huc) as [Hu Hk]. split; [done|].
      simpl in *. rewrite lookup_insert. by case_decide.
  - apply updateComment_Updated in Hu as (k0 & c & _ & Hc & _ & Eu & Ep & Ec & Ef & _).
    unfold referential_integrity. rewrite Eu, Ep, Ec, Ef. split; [done|]. split.
    + intros k row. rewrite lookup_alter. case_decide; [|apply Hcomments].
      subst k. rewrite Hc. intros [= <-]. simpl. exact (Hcomments k0 c Hc).
    + intros uc Huc. destruct (Hflags uc Huc) as [Hu' Hk]. split; [done|].
      simpl in *. rewrite lookup_alter. case_decide; [|done]. subst. rewrite Hc. by eexists.
  - apply deleteComment_deleted in Hd as (k0 & c & _ & Hc & _ & Eu & Ep & Ec & Ef & _).
    unfold referential_integrity. rewrite Eu, Ep, Ec, Ef. split; [done|]. split.
    + intros k row Hk. apply lookup_delete_Some in Hk as [_ Hk]. by apply Hcomments in Hk.
    + intros uc Huc. apply elem_of_filter in Huc as [Hgone Huc].
      destruct (Hflags uc Huc) as [Hu' Hk]. split; [done|].
      simpl in *. rewrite lookup_delete_ne; [done|]. intros Heq.
      rewrite <- Heq in Hgone. by rewrite lookup_singleton_eq in Hgone.
  - apply deletePost_deleted in Hd as (k0 & p & _ & Hp & _ & Eu & Ep & Ec & Ef & _).
    unfold referential_integrity. rewrite Eu, Ep, Ec, Ef. split; [|split].
    + intros i q Hq. apply lookup_delete_Some in Hq as [_ Hq]. by apply Hposts in Hq.
    + intros k row Hk. apply map_lookup_filter_Some in Hk as [Hk Hne]. simpl in Hne.
      destruct (Hcomments k row Hk) as [Hfp Hfu]. split; [|done].
      simpl in *. by rewrite lookup_delete_ne.
    + intros uc Huc. apply elem_of_filter in Huc as [Hgone Huc].
      destruct (Hflags uc Huc) as [Hu' Hk]. split; [done|].
      simpl in *. destruct Hk as [row Hrow].
      exists row. apply map_lookup_filter_Some. split; [done|]. simpl. intros Hpid.
      assert (Dao.comments_of d k0 !! uc.2 = Some row) by (by apply comments_of_lookup).
      congruence.
  - apply markCommentAsInteresting_Ok in Hm
      as (u' & k0 & _ & _ & _ & Hu' & Hc & Eu & Ep & Ec & Ef & _).
    unfold referential_integrity. rewrite Eu, Ep, Ec, Ef. split; [done|]. split; [done|].
    intros uc Huc. apply elem_of_union in Huc as [Huc|Huc]; [|by apply Hflags].
    apply elem_of_singleton in Huc as ->. simpl. done.
  - apply unmarkCommentAsInteresting_Ok in Hm as (Eu & Ep & Ec & Ef & _).
    unfold referential_integrity. rewrite Eu, Ep, Ec. split; [done|]. split; [done|].
    intros uc Huc. apply Hflags. by apply Ef.
  - apply createPost_Ok in Hp as (u' & author & _ & Hauthor & _ & _ & Eu & Ep & Ec & Ef & _).
    unfold referential_integrity. rewrite Eu, Ep, Ec, Ef. split; [|split; [|done]].
    + intros i q. rewrite lookup_insert. case_decide; [|apply Hposts].
      intros [= <-]. simpl. by rewrite Hauthor.
    + intros k row Hk. destruct (Hcomments k row Hk) as [Hfp Hfu]. split; [|done].
      simpl in *. rewrite lookup_insert. by case_decide.
Qed.

Lemma effect_unique_titles d d' :
  effect d d' -> unique_titles d -> unique_titles d'.
Proof.
  intros Heff Huniq.
  destruct Heff as [->|c now r post _ _ Hc|cid t u a Hu|cid u a Hd|pid u a Hd|cid u b Hm|cid u b Hm
          |p now r _ Hp]; [done|..]; unfold unique_titles.
  - apply createComment_Ok in Hc as (pid & _ & _ & _ & _ & _ & _ & -> & _). done.
  - apply updateComment_Updated in Hu as (k & c & _ & _ & _ & _ & -> & _). done.
  - apply deleteComment_deleted in Hd as (k & c & _ & _ & _ & _ & -> & _). done.
  - apply deletePost_deleted in Hd as (k & p & _ & _ & _ & _ & -> & _).
    intros i p1 H1 j p2 H2.
    apply lookup_delete_Some in H1 as [_ H1]. apply lookup_delete_Some in H2 as [_ H2].
    exact (Huniq i p1 H1 j p2 H2).
  - apply markCommentAsInteresting_Ok in Hm as (u' & k & _ & _ & _ & _ & _ & _ & -> & _). done.
  - apply unmarkCommentAsInteresting_Ok in Hm as (_ & -> & _). done.
  - apply createPost_Ok in Hp as (u' & author & _ & _ & Hfree & _ & _ & -> & _).
    intros i p1 H1 j p2 H2. rewrite lookup_insert in H1, H2.
    destruct (decide (Sqlite.next_rowid (seq_posts d) (posts d) = i)) as [Hi|Hi];
      destruct (decide (Sqlite.next_rowid (seq_posts d) (posts d) = j)) as [Hj|Hj].
    + intros _. congruence.
    + injection H1 as <-. simpl. intros Ht. by destruct (Hfree j p2 H2).
    + injection H2 as <-. simpl. intros Ht. by destruct (Hfree i p1 H1).
    + exact (Huniq i p1 H1 j p2 H2).
Qed.

Lemma comments_of_same d d' i :
  comments d' = comments d -> Dao.comments_of d' i = Dao.comments_of d i.
Proof. unfold Dao.comments_of. by intros ->. Qed.

Lemma ceiling_ok_same d d' i p :
  (size (Dao.comments_of d' i) <= size (Dao.comments_of d i))%nat ->
  ceiling_ok d i p = true -> ceiling_ok d' i p = true.
Proof.
  unfold ceiling_ok. destruct (p_maxComments p); [|done].
  rewrite !Z.leb_le. lia.
Qed.

Lemma comments_of_alter_size d d' cid text i :
  comments d' = alter (Dao.set_text text) cid (comments d) ->
  size (Dao.comments_of d' i) = size (Dao.comments_of d i).
Proof.
  intros Ec. rewrite <- !(size_dom (D:=gset Z)). f_equal.
  unfold Dao.comments_of. rewrite Ec. apply dom_filter_L. intros k.
  rewrite elem_of_dom. unfold is_Some. setoid_rewrite map_lookup_filter_Some.
  setoid_rewrite lookup_alter_Some. simpl. split.
  - intros [c [Hc Hp]]. destruct (decide (cid = k)) as [->|Hne].
    + exists (Dao.set_text text c). split; [|done]. left. split; [done|]. by exists c.
    + exists c. split; [|done]. right. done.
  - intros [c [[[-> (c0 & Hc0 & ->)]|[Hne Hc]] Hp]]; [exists c0|exists c]; done.
Qed.

Lemma comments_of_delete_size d d' cid i :
  comments d' = delete cid (comments d) ->
  (size (Dao.comments_of d' i) <= size (Dao.comments_of d i))%nat.
Proof.
  intros Ec. unfold Dao.comments_of. rewrite Ec, map_filter_delete, map_size_delete.
  destruct (_ !! cid); simpl; lia.
Qed.

Lemma comments_of_other_post d d' pid i :
  comments d' = filter (fun kc : Z * comment => c_postId kc.2 ≠ pid) (comments d) ->
  i ≠ pid -> Dao.comments_of d' i = Dao.comments_of d i.
Proof.
  intros Ec Hne. unfold Dao.comments_of. rewrite Ec. apply map_eq. intros k.
  apply option_eq. intros c. rewrite !map_lookup_filter_Some. simpl.
  split; [tauto|]. intros [Hc Hp]. split; [|done]. split; [done|]. congruence.
Qed.

Lemma comments_of_no_post d i :
  referential_integrity d -> posts d !! i = None -> Dao.comments_of d i = ∅.
Proof.
  intros (_ & Hcomments & _) Hnone. apply map_empty. intros k.
  apply map_lookup_filter_None_2.
  destruct (comments d !! k) as [c|] eqn:Hc; [right|by left].
  intros c' [= <-]. simpl. intros Hp.
  destruct (Hcomments k c Hc) as [Hfp _]. simpl in Hfp.
  rewrite Hp, Hnone in Hfp. by destruct Hfp.
Qed.

Lemma createComment_count d c now result d' pid i :
  Dao.createComment d c now = (Dao.Ok result, d') -> Dao.nc_postId c = Js.Num pid ->
  size (Dao.comments_of d' i) =
    if decide (pid = i) then S (size (Dao.comments_of d i))
    else size (Dao.comments_of d i).
Proof.
  intros Hc Hpid0.
  apply createComment_Ok in Hc as (pid' & Hpid & _ & _ & _ & _ & _ & _ & Ec & _).
  rewrite Hpid0 in Hpid. injection Hpid as <-.
  unfold Dao.comments_of. rewrite Ec. case_decide as Hi.
  - rewrite map_filter_insert_True by done.
    apply map_size_insert_None, map_lookup_filter_None_2. left. apply next_rowid_fresh.
  - rewrite map_filter_insert_False by done.
    by rewrite delete_id by apply next_rowid_fresh.
Qed.

Lemma effect_within_ceiling d d' :
  effect d d' -> referential_integrity d -> within_ceiling d -> within_ceiling d'.
Proof.
  intros Heff Hri Hceil.
  destruct Heff as [->|c now r post Hget Hroom Hc|cid t u a Hu|cid u a Hd|pid u a Hd
          |cid u b Hm|cid u b Hm|p now r Hmax Hp]; [done|..]; unfold within_ceiling.
  - destruct (getPost_exists _ _ _ Hget) as (Hid & row & Hrow & Hmaxrow).
    pose proof (fun i => createComment_count d c now r d' _ i Hc Hid) as Hcount.
    apply createComment_Ok in Hc as (pid & _ & _ & _ & _ & _ & _ & Ep & _). rewrite Ep.
    intros i p Hp. specialize (Hceil i p Hp). unfold ceiling_ok in *.
    destruct (p_maxComments p) as [n|] eqn:Hn; [|done].
    rewrite Z.leb_le in *. rewrite (Hcount i). case_decide as Hi; [|done].
    subst i.
    rewrite Hrow in Hp. injection Hp as ->.
    specialize (Hroom n). rewrite Hmaxrow, Hn in Hroom. specialize (Hroom eq_refl). lia.
  - apply updateComment_Updated in Hu as (k & c & _ & _ & _ & _ & Ep & Ec & _). rewrite Ep.
    intros i p Hp. apply (ceiling_ok_same d); [|by apply Hceil].
    by rewrite (comments_of_alter_size d d' k _ i Ec).
  - apply deleteComment_deleted in Hd as (k & c & _ & _ & _ & _ & Ep & Ec & _). rewrite Ep.
    intros i p Hp. apply (ceiling_ok_same d); [|by apply Hceil].
    by apply (comments_of_delete_size d d' k).
  - apply deletePost_deleted in Hd as (k & p & _ & _ & _ & _ & Ep & Ec & _). rewrite Ep.
    intros i q Hq. apply lookup_delete_Some in Hq as [Hne Hq].
    apply (ceiling_ok_same d); [|by apply Hceil].
    by rewrite (comments_of_other_post d d' k i Ec).
  - apply markCommentAsInteresting_Ok in Hm as (u' & k & _ & _ & _ & _ & _ & _ & Ep & Ec & _).
    rewrite Ep. intros i p Hp. apply (ceiling_ok_same d); [|by apply Hceil].
    by rewrite (comments_of_same d d' i Ec).
  - apply unmarkCommentAsInteresting_Ok in Hm as (_ & Ep & Ec & _).
    rewrite Ep. intros i p Hp. apply (ceiling_ok_same d); [|by apply Hceil].
    by rewrite (comments_of_same d d' i Ec).
  - apply createPost_Ok in Hp as (u' & author & _ & _ & _ & _ & _ & Ep & Ec & _).
    rewrite Ep. intros i q. rewrite lookup_insert. case_decide as Hi.
    + intros [= <-]. unfold ceiling_ok. simpl.
      destruct (Dao.np_maxComments p) as [n|] eqn:Hn; [|done].
      rewrite (comments_of_same d d' i Ec), <- Hi.
      rewrite (comments_of_no_post d _ Hri (next_rowid_fresh _ _)).
      rewrite map_size_empty. specialize (Hmax n eq_refl). apply Z.leb_le. simpl. lia.
    + intros Hq. apply (ceiling_ok_same d); [|by apply Hceil].
      by rewrite (comments_of_same d d' i Ec).
Qed.

Lemma effect_rowids d d' :
  effect d d' -> rowids_recorded d ->
  rowids_recorded d' /\ seq_comments d <= seq_comments d' /\ seq_posts d <= seq_posts d'.
Proof.
  intros Heff [Hc Hp].
  destruct Heff as [->|c now r post _ _ Hcr|cid t u a Hu|cid u a Hd|pid u a Hd
          |cid u b Hm|cid u b Hm|p now r _ Hcp]; [done|..]; unfold rowids_recorded.
  - apply createComment_Ok in Hcr as (pid & _ & _ & _ & _ & _ & _ & -> & -> & _ & -> & ->).
    unfold Sqlite.next_rowid. split; [|lia]. split.
    + intros k row. rewrite lookup_insert. case_decide; [intros _; lia|].
      intros Hk. specialize (Hc k row Hk). simpl in Hc. lia.
    + done.
  - apply updateComment_Updated in Hu as (k0 & c & _ & _ & _ & _ & -> & -> & _ & -> & ->).
    split; [|lia]. split; [|done].
    intros k row Hk. apply lookup_alter_Some in Hk as [[-> (c0 & Hc0 & _)]|[_ Hk]].
    + exact (Hc k c0 Hc0).
    + exact (Hc k row Hk).
  - apply deleteComment_deleted in Hd as (k0 & c & _ & _ & _ & _ & -> & -> & _ & -> & ->).
    split; [|lia]. split; [|done].
    intros k row Hk. apply lookup_delete_Some in Hk as [_ Hk]. exact (Hc k row Hk).
  - apply deletePost_deleted in Hd as (k0 & p & _ & _ & _ & _ & -> & -> & _ & -> & ->).
    split; [|lia]. split.
    + intros k row Hk. apply map_lookup_filter_Some in Hk as [Hk _]. exact (Hc k row Hk).
    + intros i q Hq. apply lookup_delete_Some in Hq as [_ Hq]. exact (Hp i q Hq).
  - apply markCommentAsInteresting_Ok in Hm
      as (u' & k & _ & _ & _ & _ & _ & _ & -> & -> & _ & -> & ->). split; [done|lia].
  - apply unmarkCommentAsInteresting_Ok in Hm as (_ & -> & -> & _ & -> & ->).
    split; [done|lia].
  - apply createPost_Ok in Hcp as (u' & author & _ & _ & _ & _ & _ & -> & -> & _ & -> & ->).
    unfold Sqlite.next_rowid. split; [|lia]. split; [done|].
    intros i q. rewrite lookup_insert. case_decide; [intros _; lia|].
    intros Hq. specialize (Hp i q Hq). simpl in Hp. lia.
Qed.

End Invariants.

(** ** Any sequence of requests *)

Section Runs.
Context `{Sanitizer}.

Lemma run_invariant (P : db -> Prop) :
  (forall d d', effect d d' -> P d -> P d') ->
  forall rs d, P d -> P (App.run d rs).
Proof.
  intros Hstep rs. induction rs as [|[s r] rs IH]; intros d Hd; [done|].
  simpl. apply IH. eapply Hstep; [|exact Hd]. apply handle_effect.
Qed.

(** X1. Whatever requests are served, in whatever order and with
    whatever sessions, the foreign keys of the schema keep holding and
    post titles stay unique. *)
Theorem requests_keep_integrity d rs :
  referential_integrity d -> unique_titles d ->
  referential_integrity (App.run d rs) /\ unique_titles (App.run d rs).
Proof.
  intros Hri Hut.
  apply (run_invariant (fun d => referential_integrity d /\ unique_titles d)); [|done].
  intros d1 d2 Heff [? ?].
  split; [by eapply effect_referential_integrity|by eapply effect_unique_titles].
Qed.

(** X2. No sequence of requests changes the [users] table. *)
Theorem requests_never_change_users d rs :
  users (App.run d rs) = users d.
Proof.
  revert d. induction rs as [|[s r] rs IH]; intros d; [done|].
  simpl. rewrite IH. apply effect_users, handle_effect.
Qed.

(** X3. Served one after the other, the requests never take a post
    over its ceiling: if no post holds more comments than its
    [maxComments] before, none does after. *)
Theorem requests_keep_ceiling d rs :
  referential_integrity d -> within_ceiling d -> within_ceiling (App.run d rs).
Proof.
  intros Hri Hceil.
  apply (run_invariant (fun d => referential_integrity d /\ within_ceiling d)); [|done].
  intros d1 d2 Heff [? ?].
  split; [by eapply effect_referential_integrity|by eapply effect_within_ceiling].
Qed.

(** X4. Comment ids are never handed out twice: after any sequence of
    requests, a new comment gets an id above every id a comment had
    before the sequence, whether that comment still exists or not. *)
Theorem comment_ids_never_reused d rs c now result d' :
  rowids_recorded d ->
  Dao.createComment (App.run d rs) c now = (Dao.Ok result, d') ->
  forall k, is_Some (comments d !! k) -> k < Comment.id result.
Proof.
  intros Hrec Hcreate k [row Hk].
  assert (Hmono : rowids_recorded (App.run d rs) /\ seq_comments d <= seq_comments (App.run d rs)).
  { apply (run_invariant (fun d1 => rowids_recorded d1 /\ seq_comments d <= seq_comments d1));
      [|split; [done|lia]].
    intros d1 d2 Heff [Hr Hle].
    destruct (effect_rowids d1 d2 Heff Hr) as (? & ? & _). split; [done|lia]. }
  destruct Hmono as [_ Hle].
  apply createComment_Ok in Hcreate as (pid & _ & _ & _ & -> & _).
  destruct Hrec as [Hc _]. specialize (Hc k row Hk). simpl in Hc.
  unfold Sqlite.next_rowid. lia.
Qed.

(** X5. A request that is not answered 200 or 201 leaves the database
    exactly as it was. *)
Theorem refused_request_changes_nothing d s r :
  (App.handle d s r).1 <> 200 -> (App.handle d s r).1 <> 201 ->
  (App.handle d s r).2 = d.
Proof. apply handle_effect. Qed.

(** X6. Without a session, every writing route but comment creation
    answers 401 and changes nothing. *)
Theorem no_session_no_write d s r :
  Server.passport_user s = None ->
  (forall id text now, r <> App.PostPostComments id text now) ->
  App.handle d s r = (401, d).
Proof.
  intros Hs Hr. unfold App.handle.
  destruct r as [title text m now|id text now|id text|id|id|id|id];
    [|by destruct (Hr id text now)|..];
    unfold Server.post_posts, Server.put_comment, Server.delete_comment, Server.delete_post,
      Server.post_comment_interesting, Server.delete_comment_interesting, Server.req_user;
    by rewrite Hs.
Qed.

Lemma handle_status d s r :
  (App.handle d s r).1 =
    match r with
    | App.PostPosts title text m now =>
        Server.post_status (Server.post_posts d s title text m now).1
    | App.PostPostComments id text now =>
        Server.status (Server.post_post_comments d s id text now).1
    | App.PutComment id text => Server.status (Server.put_comment d s id text).1
    | App.DeleteComment id => Server.status (Server.delete_comment d s id).1
    | App.DeletePost id => Server.status (Server.delete_post d s id).1
    | App.PostInteresting id => Server.status (Server.post_comment_interesting d s id).1
    | App.DeleteInteresting id => Server.status (Server.delete_comment_interesting d s id).1
    end.
Proof.
  destruct r; simpl;
    match goal with |- context [let '(_, _) := ?x in _] => by destruct x end.
Qed.

(** X7. The 404 for a missing user is out of reach: the six routes that
    look the session's user up, and the second-factor route, never
    answer 404, whether or not the user's row exists. *)
Theorem user_lookup_never_404 `{Totp} d s r code :
  (forall id text now, r <> App.PostPostComments id text now) ->
  (App.handle d s r).1 <> 404 /\
  Server.status (Server.post_login_totp d s code).1.1 <> 404.
Proof.
  intros Hr. split.
  - rewrite handle_status.
    destruct r as [title text m now|id text now|id text|id|id|id|id];
      [|by destruct (Hr id text now)|..];
      unfold Server.post_posts, Server.put_comment, Server.delete_comment, Server.delete_post,
        Server.post_comment_interesting, Server.delete_comment_interesting;
      destruct (Server.req_user d s); try rewrite not_user_false;
      repeat case_match; simpl; discriminate.
  - unfold Server.post_login_totp.
    destruct (Server.req_user d s); try rewrite not_user_false;
      repeat case_match; simpl; discriminate.
Qed.

End Runs.

Lemma requests_keep_integrity_witness :
  referential_integrity Seed.forum /\ unique_titles Seed.forum /\
  referential_integrity (App.run (H:=Seed.keep_all) Seed.forum Seed.busy_day) /\
  unique_titles (App.run (H:=Seed.keep_all) Seed.forum Seed.busy_day).
Proof.
  assert (Hri : referential_integrity Seed.forum) by decide_by_running.
  assert (Hut : unique_titles Seed.forum) by decide_by_running.
  split; [exact Hri|]. split; [exact Hut|].
  exact (requests_keep_integrity (H:=Seed.keep_all) Seed.forum Seed.busy_day Hri Hut).
Defined.

Lemma requests_keep_ceiling_witness :
  referential_integrity Seed.forum /\ within_ceiling Seed.forum /\
  within_ceiling (App.run (H:=Seed.keep_all) Seed.forum Seed.busy_day).
Proof.
  assert (Hri : referential_integrity Seed.forum) by decide_by_running.
  assert (Hc : within_ceiling Seed.forum) by decide_by_running.
  split; [exact Hri|]. split; [exact Hc|].
  exact (requests_keep_ceiling (H:=Seed.keep_all) Seed.forum Seed.busy_day Hri Hc).
Defined.

Lemma comment_ids_never_reused_witness :
  rowids_recorded Seed.forum /\
  exists result d',
    Dao.createComment (App.run (H:=Seed.keep_all) Seed.forum Seed.busy_day)
      {| Dao.nc_text := Js.lit "Late to the party."; Dao.nc_postId := Js.Num 3;
         Dao.nc_userId := Js.Null |}
      "2025-06-02 09:00:00" = (Dao.Ok result, d') /\
    is_Some (comments Seed.forum !! 4) /\
    4 < Comment.id result.
Proof.
  assert (Hrec : rowids_recorded Seed.forum) by decide_by_running.
  split; [exact Hrec|].
  set (r := Dao.createComment (App.run (H:=Seed.keep_all) Seed.forum Seed.busy_day)
              {| Dao.nc_text := Js.lit "Late to the party."; Dao.nc_postId := Js.Num 3;
                 Dao.nc_userId := Js.Null |}
              "2025-06-02 09:00:00").
  assert (Hok : exists result, r = (Dao.Ok result, r.2)) by (vm_compute; by eexists).
  destruct Hok as [result Hcreate].
  assert (Hold : is_Some (comments Seed.forum !! 4)) by (by eexists).
  exists result, r.2. split; [exact Hcreate|]. split; [exact Hold|].
  exact (comment_ids_never_reused (H:=Seed.keep_all) Seed.forum Seed.busy_day _ _ result r.2
           Hrec Hcreate 4 Hold).
Defined.

Lemma refused_request_changes_nothing_witness :
  (App.handle (H:=Seed.keep_all) Seed.forum (Seed.logged_in 4) (App.DeletePost 1)).1 = 403 /\
  (App.handle (H:=Seed.keep_all) Seed.forum (Seed.logged_in 4) (App.DeletePost 1)).2 = Seed.forum.
Proof.
  split; [reflexivity|].
  apply (refused_request_changes_nothing (H:=Seed.keep_all)); vm_compute; discriminate.
Defined.

Lemma no_session_no_write_witness :
  App.handle (H:=Seed.keep_all) Seed.forum Seed.anonymous
    (App.PutComment 2 (Seed.said "Mine now."))
  = (401, Seed.forum).
Proof.
  apply (no_session_no_write (H:=Seed.keep_all)); [reflexivity|discriminate].
Defined.

Lemma user_lookup_never_404_witness :
  (App.handle (H:=Seed.keep_all) Seed.forum (Seed.logged_in 77) (App.DeleteComment 2)).1 <> 404 /\
  Server.status (Server.post_login_totp (H:=Seed.fixed_code) Seed.forum (Seed.logged_in 77)
                   (Js.JString (Js.lit "000000"))).1.1 <> 404.
Proof.
  apply (user_lookup_never_404 (H:=Seed.keep_all) (H0:=Seed.fixed_code)). discriminate.
Defined.

(** ** Marking and unmarking *)

Section MarkUnmark.
Context `{Sanitizer}.

Lemma db_eta d :
  {| users := users d; posts := posts d; comments := comments d;
     interesting_flags := interesting_flags d;
     seq_posts := seq_posts d; seq_comments := seq_comments d |} = d.
Proof. by destruct d. Qed.

Lemma with_flags_eq (d : db) (F : gset (Z * Z)) :
  F = interesting_flags d ->
  {| users := users d; posts := posts d; comments := comments d;
     interesting_flags := F;
     seq_posts := seq_posts d; seq_comments := seq_comments d |} = d.
Proof. intros ->. apply db_eta. Qed.

Lemma delete_comment_interesting_row d s i me raw cid :
  Server.passport_user s = Some i -> users d !! i = Some me -> 1 <= raw ->
  Server.param_id raw = Js.Num cid ->
  Server.delete_comment_interesting d s raw =
    (Server.respond 200 Server.JsonSuccess,
     {| users := users d; posts := posts d; comments := comments d;
        interesting_flags := interesting_flags d ∖ {[ (i, cid) ]};
        seq_posts := seq_posts d; seq_comments := seq_comments d |}).
Proof.
  intros Hs Hme Hid Hcid. unfold Server.delete_comment_interesting.
  rewrite (req_user_row _ _ _ _ Hs Hme), not_user_false, (valid_id_true _ Hid), Hcid.
  done.
Qed.

(** A path id so large that it is read as no number: the statement
    compares [commentId] with NULL and deletes nothing. *)
Lemma delete_comment_interesting_unread d s i me raw :
  Server.passport_user s = Some i -> users d !! i = Some me -> 1 <= raw ->
  Server.param_id raw = Js.NaN ->
  Server.delete_comment_interesting d s raw = (Server.respond 200 Server.JsonSuccess, d).
Proof.
  intros Hs Hme Hid Hcid. unfold Server.delete_comment_interesting.
  rewrite (req_user_row _ _ _ _ Hs Hme), not_user_false, (valid_id_true _ Hid), Hcid.
  done.
Qed.

Lemma post_comment_interesting_new d s i me raw cid c :
  Server.passport_user s = Some i -> users d !! i = Some me -> 1 <= raw ->
  Server.param_id raw = Js.Num cid ->
  comments d !! cid = Some c -> (i, cid) ∉ interesting_flags d ->
  Server.post_comment_interesting d s raw =
    (Server.respond 200 Server.JsonSuccess,
     {| users := users d; posts := posts d; comments := comments d;
        interesting_flags := {[ (i, cid) ]} ∪ interesting_flags d;
        seq_posts := seq_posts d; seq_comments := seq_comments d |}).
Proof.
  intros Hs Hme Hid Hcid Hc Hnew.
  rewrite (post_comment_interesting_row _ _ _ _ _ Hs Hme Hid), Hcid.
  unfold Dao.markCommentAsInteresting. simpl.
  rewrite (bool_decide_eq_false_2 _ Hnew).
  by rewrite !bool_decide_eq_true_2 by (by rewrite ?Hme, ?Hc).
Qed.

(** X8. Unmarking always answers 200 to a logged-in user.  When the
    path id is read as the number [cid], it removes that user's flag on
    comment [cid] and no other flag; when the path id is read as no
    number, it removes nothing.  It changes nothing when the user had no
    flag on the comment the id is read as, and doing it twice is the
    same as doing it once. *)
Theorem unmark_is_idempotent d s i me raw :
  Server.passport_user s = Some i -> users d !! i = Some me -> 1 <= raw ->
  let out := Server.delete_comment_interesting d s raw in
  out.1 = Server.respond 200 Server.JsonSuccess /\
  (forall cid, Server.param_id raw = Js.Num cid ->
     forall uc, uc ∈ interesting_flags out.2 <-> uc ∈ interesting_flags d /\ uc <> (i, cid)) /\
  (Server.param_id raw = Js.NaN -> out.2 = d) /\
  ((forall cid, Server.param_id raw = Js.Num cid -> (i, cid) ∉ interesting_flags d) ->
     out.2 = d) /\
  Server.delete_comment_interesting out.2 s raw = out.
Proof.
  intros Hs Hme Hid. simpl.
  destruct (param_id_cases raw) as [Hnan|[cid Hcid]].
  - rewrite (delete_comment_interesting_unread _ _ _ _ _ Hs Hme Hid Hnan). simpl.
    split; [done|]. split; [intros cid Hcid; congruence|]. split; [done|]. split; [done|].
    by apply (delete_comment_interesting_unread _ _ i me).
  - rewrite (delete_comment_interesting_row _ _ _ _ _ _ Hs Hme Hid Hcid). simpl.
    split; [done|]. split; [|split; [congruence|split]].
    + intros cid' Hcid' uc. rewrite Hcid in Hcid'. injection Hcid' as <-.
      rewrite elem_of_difference, elem_of_singleton. done.
    + intros Hno. specialize (Hno cid Hcid).
      apply with_flags_eq. apply set_eq. intros uc.
      rewrite elem_of_difference, elem_of_singleton. split; [tauto|].
      intros Huc. split; [done|]. by intros ->.
    + rewrite (delete_comment_interesting_row _ s i me raw cid Hs) by done. simpl.
      do 2 f_equal. apply set_eq. intros uc.
      rewrite !elem_of_difference. tauto.
Qed.

(** X9. Marking and unmarking undo each other: for the comment the path
    id is read as, when it exists, a mark followed by an unmark of the
    same user gives back the database there was, and so does an unmark
    followed by a mark when the flag was set. *)
Theorem mark_unmark_round_trip d s i me raw cid c :
  Server.passport_user s = Some i -> users d !! i = Some me -> 1 <= raw ->
  Server.param_id raw = Js.Num cid ->
  comments d !! cid = Some c ->
  ((i, cid) ∉ interesting_flags d ->
     Server.delete_comment_interesting (Server.post_comment_interesting d s raw).2 s raw
     = (Server.respond 200 Server.JsonSuccess, d)) /\
  ((i, cid) ∈ interesting_flags d ->
     Server.post_comment_interesting (Server.delete_comment_interesting d s raw).2 s raw
     = (Server.respond 200 Server.JsonSuccess, d)).
Proof.
  intros Hs Hme Hid Hcid Hc. split.
  - intros Hnew.
    rewrite (post_comment_interesting_new _ _ _ _ _ _ _ Hs Hme Hid Hcid Hc Hnew). simpl.
    rewrite (delete_comment_interesting_row _ s i me raw cid Hs) by done. simpl.
    f_equal. apply with_flags_eq. apply set_eq. intros uc.
    rewrite elem_of_difference, elem_of_union, elem_of_singleton. split; [tauto|].
    intros Huc. split; [tauto|]. by intros ->.
  - intros Hold. rewrite (delete_comment_interesting_row _ _ _ _ _ _ Hs Hme Hid Hcid). simpl.
    rewrite (post_comment_interesting_new _ s i me raw cid c Hs) by
      (try done; simpl; rewrite elem_of_difference, elem_of_singleton; tauto).
    simpl. f_equal. apply with_flags_eq. apply set_eq. intros uc.
    rewrite elem_of_union, elem_of_difference, elem_of_singleton. split.
    + intros [->|[? _]]; done.
    + intros Huc. destruct (decide (uc = (i, cid))); [by left|by right].
Qed.

(** X10. Marking when no comment has the id the route reads in the path
    answers 503 and stores nothing. *)
Theorem mark_of_missing_comment_fails d s i me raw :
  Server.passport_user s = Some i -> users d !! i = Some me -> 1 <= raw ->
  (forall cid, Server.param_id raw = Js.Num cid -> comments d !! cid = None) ->
  Server.post_comment_interesting d s raw = (Server.respond 503 mark_failed, d).
Proof.
  intros Hs Hme Hid Hc. rewrite (post_comment_interesting_row _ _ _ _ _ Hs Hme Hid).
  destruct (param_id_cases raw) as [->|[cid Hcid]]; [done|].
  rewrite Hcid. specialize (Hc cid Hcid).
  unfold Dao.markCommentAsInteresting. simpl.
  destruct (bool_decide ((i, cid) ∈ interesting_flags d)); [done|].
  rewrite (bool_decide_eq_false_2 (is_Some (comments d !! cid))) by (rewrite Hc; by intros [? ?]).
  by rewrite andb_false_r.
Qed.

End MarkUnmark.

Lemma unmark_is_idempotent_witness :
  (* carl has no flag on comment 4: nothing changes *)
  ((3, 4) ∉ interesting_flags Seed.forum) /\
  Server.delete_comment_interesting Seed.forum (Seed.logged_in 3) 4
    = (Server.respond 200 Server.JsonSuccess, Seed.forum) /\
  (* the path id 4 * 10^21 is read as 4: alberto's flag on comment 4 goes *)
  Server.param_id (4 * 10 ^ 21) = Js.Num 4 /\
  (1, 4) ∈ interesting_flags Seed.forum /\
  ((1, 4) ∉ interesting_flags
     (Server.delete_comment_interesting Seed.forum (Seed.logged_in 1) (4 * 10 ^ 21)).2).
Proof.
  assert (Hno : (3, 4) ∉ interesting_flags Seed.forum) by decide_by_running.
  assert (Hread : Server.param_id (4 * 10 ^ 21) = Js.Num 4) by (vm_compute; reflexivity).
  split; [exact Hno|]. split; [|split; [exact Hread|split; [decide_by_running|]]].
  - destruct (unmark_is_idempotent Seed.forum (Seed.logged_in 3) 3 Seed.carl 4
                eq_refl eq_refl ltac:(lia)) as (Hres & _ & _ & Hsame & _).
    rewrite (surjective_pairing (Server.delete_comment_interesting _ _ _)).
    rewrite Hres, Hsame; [done|].
    intros cid Hcid. vm_compute in Hcid. injection Hcid as <-. exact Hno.
  - destruct (unmark_is_idempotent Seed.forum (Seed.logged_in 1) 1 Seed.alberto (4 * 10 ^ 21)
                eq_refl eq_refl ltac:(lia)) as (_ & Hgone & _).
    intros Hin. apply (Hgone 4 Hread) in Hin as [_ Hne]. by destruct Hne.
Defined.

Lemma mark_unmark_round_trip_witness :
  Server.delete_comment_interesting
    (Server.post_comment_interesting Seed.forum (Seed.logged_in 2) 4).2 (Seed.logged_in 2) 4
  = (Server.respond 200 Server.JsonSuccess, Seed.forum).
Proof.
  destruct (mark_unmark_round_trip Seed.forum (Seed.logged_in 2) 2 Seed.bob 4 4
              (Seed.row "This truly breaks down a complex subject into digestible pieces. Well done."
                 "2013-11-04 09:12:01" (Some 4) 2)
              eq_refl eq_refl ltac:(lia) eq_refl eq_refl) as [Hround _].
  apply Hround. decide_by_running.
Defined.

Lemma mark_of_missing_comment_fails_witness :
  Server.post_comment_interesting Seed.forum (Seed.logged_in 2) 999
    = (Server.respond 503 mark_failed, Seed.forum) /\
  (* 4 * 10^21 is read as 4, a comment that exists: the mark goes through *)
  Server.status (Server.post_comment_interesting Seed.forum (Seed.logged_in 2) (4 * 10 ^ 21)).1
    = 200 /\
  (* 10^400 is read as no number *)
  Server.post_comment_interesting Seed.forum (Seed.logged_in 2) (10 ^ 400)
    = (Server.respond 503 mark_failed, Seed.forum).
Proof.
  split; [|split; [vm_compute; reflexivity|]].
  - apply (mark_of_missing_comment_fails Seed.forum (Seed.logged_in 2) 2 Seed.bob 999);
      [reflexivity|reflexivity|lia|].
    intros cid Hcid. vm_compute in Hcid. injection Hcid as <-. reflexivity.
  - apply (mark_of_missing_comment_fails Seed.forum (Seed.logged_in 2) 2 Seed.bob (10 ^ 400));
      [reflexivity|reflexivity|lia|].
    intros cid Hcid. vm_compute in Hcid. discriminate.
Defined.

(** ** What the lists report *)

Section Lists.
Context `{Sanitizer}.

Lemma compare_Gt_Lt a b : String.compare a b = Gt <-> String.compare b a = Lt.
Proof. rewrite (String.compare_antisym b a). destruct (String.compare a b); simpl; by split. Qed.

Lemma compare_Lt_trans a b c :
  String.compare a b = Lt -> String.compare b c = Lt -> String.compare a c = Lt.
Proof.
  intros Hab Hbc. apply OrderedTypeEx.String_as_OT.cmp_lt in Hab, Hbc.
  pose proof (OrderedTypeEx.String_as_OT.lt_trans _ _ _ Hab Hbc) as Hac.
  by apply OrderedTypeEx.String_as_OT.cmp_lt in Hac.
Qed.

Lemma compare_refl a : String.compare a a = Eq.
Proof. by apply OrderedTypeEx.String_as_OT.cmp_eq. Qed.

Lemma later_first_trans da dm dz ia im iz :
  Sqlite.later_first da dm ia im -> Sqlite.later_first dm dz im iz ->
  Sqlite.later_first da dz ia iz.
Proof.
  unfold Sqlite.later_first.
  destruct (String.compare da dm) eqn:Hab; [|done|];
    destruct (String.compare dm dz) eqn:Hbc; try done.
  - apply String.compare_eq_iff in Hab, Hbc. subst. rewrite compare_refl. lia.
  - apply String.compare_eq_iff in Hab. subst. by rewrite Hbc.
  - apply String.compare_eq_iff in Hbc. subst. by rewrite Hab.
  - intros _ _. apply compare_Gt_Lt in Hab, Hbc.
    pose proof (compare_Lt_trans _ _ _ Hbc Hab) as Hac.
    apply compare_Gt_Lt in Hac. by rewrite Hac.
Qed.

Lemma later_first_total da dz ia iz :
  Sqlite.later_first da dz ia iz \/ Sqlite.later_first dz da iz ia.
Proof.
  unfold Sqlite.later_first. destruct (String.compare da dz) eqn:Hab.
  - apply String.compare_eq_iff in Hab. subst. rewrite compare_refl. lia.
  - right. apply compare_Gt_Lt in Hab. by rewrite Hab.
  - by left.
Qed.

Lemma later_first_no_older da dz ia iz :
  Sqlite.later_first da dz ia iz -> no_older da dz /\ (da = dz -> ia <= iz).
Proof.
  unfold Sqlite.later_first, no_older, String.leb.
  rewrite (String.compare_antisym dz da).
  destruct (String.compare da dz) eqn:Hab; simpl; [|done|].
  - by intros Hid.
  - intros _. split; [done|]. intros ->. by rewrite compare_refl in Hab.
Qed.

#[local] Instance date_desc_trans : Transitive Sqlite.date_desc.
Proof. intros a b c. unfold Sqlite.date_desc. apply later_first_trans. Qed.

#[local] Instance date_desc_total : Total Sqlite.date_desc.
Proof. intros a b. unfold Sqlite.date_desc. apply later_first_total. Qed.

#[local] Instance post_date_desc_trans : Transitive Sqlite.post_date_desc.
Proof. intros a b c. unfold Sqlite.post_date_desc. apply later_first_trans. Qed.

#[local] Instance post_date_desc_total : Total Sqlite.post_date_desc.
Proof. intros a b. unfold Sqlite.post_date_desc. apply later_first_total. Qed.

Lemma StronglySorted_omap {A B} (f : A -> option B) (R1 : relation A) (R2 : relation B) l :
  (forall x y x' y', R1 x y -> f x = Some x' -> f y = Some y' -> R2 x' y') ->
  StronglySorted R1 l -> StronglySorted R2 (omap f l).
Proof.
  intros Hf. induction 1 as [|x l Hl IH Hx]; simpl; [constructor|].
  destruct (f x) as [x'|] eqn:Hfx; [|done].
  constructor; [done|]. apply Forall_forall. intros y' Hy'.
  apply list_elem_of_omap in Hy' as (y & Hy & Hfy).
  rewrite Forall_forall in Hx. by eapply Hf; [apply Hx| |].
Qed.

(** X11. The comment list of a post comes newest first: no comment in
    it is dated after one that stands before it, and of two comments of
    one date the one stored first stands first. *)
Theorem comments_listed_newest_first d pid userId :
  StronglySorted no_older (Comment.date <$> Dao.getCommentsByPostId d pid userId) /\
  StronglySorted listed_before (Dao.getCommentsByPostId d pid userId).
Proof.
  unfold Dao.getCommentsByPostId, Sqlite.order_by_date_desc.
  destruct (Js.key (Js.bind_num pid)) as [i|]; [|split; constructor].
  split.
  - rewrite <- list_fmap_compose.
    apply (StronglySorted_fmap _ Sqlite.date_desc);
      [intros x y Hxy; by apply later_first_no_older in Hxy as [? _]|].
    apply StronglySorted_merge_sort; apply _.
  - apply (StronglySorted_fmap _ Sqlite.date_desc);
      [intros x y Hxy; by apply later_first_no_older in Hxy|].
    apply StronglySorted_merge_sort; apply _.
Qed.

Lemma listPosts_ids d :
  PostSummary.id <$> Dao.listPosts d =
  (filter (fun ip : Z * post => is_Some (users d !! p_userId ip.2))
          (Sqlite.order_posts_by_date_desc (map_to_list (posts d)))).*1.
Proof.
  unfold Dao.listPosts.
  induction (Sqlite.order_posts_by_date_desc (map_to_list (posts d))) as [|[i p] l IH];
    [done|].
  simpl. unfold Dao.post_summary at 1. simpl.
  destruct (users d !! p_userId p) as [author|] eqn:Hauthor.
  - rewrite filter_cons_True by (simpl; rewrite Hauthor; by eexists).
    rewrite !fmap_cons. f_equal. exact IH.
  - rewrite filter_cons_False by (simpl; rewrite Hauthor; by intros [? ?]).
    exact IH.
Qed.

Lemma listPosts_member d k :
  (exists p, posts d !! k = Some p /\ is_Some (users d !! p_userId p)) ->
  k ∈ PostSummary.id <$> Dao.listPosts d.
Proof.
  intros (p & Hp & Hauthor). rewrite listPosts_ids, list_elem_of_fmap.
  exists (k, p). split; [done|].
  apply list_elem_of_filter. split; [done|].
  unfold Sqlite.order_posts_by_date_desc. rewrite merge_sort_Permutation.
  by apply elem_of_map_to_list.
Qed.

(** X12. [listPosts] lists, once each and newest first, exactly the
    posts whose author's row exists; when the foreign keys hold, that is
    every post. *)
Theorem listPosts_complete_and_ordered d :
  NoDup (PostSummary.id <$> Dao.listPosts d) /\
  (forall k, k ∈ PostSummary.id <$> Dao.listPosts d <->
     exists p, posts d !! k = Some p /\ is_Some (users d !! p_userId p)) /\
  (referential_integrity d ->
     forall k, k ∈ PostSummary.id <$> Dao.listPosts d <-> is_Some (posts d !! k)) /\
  StronglySorted no_older (PostSummary.date <$> Dao.listPosts d).
Proof.
  assert (Hmem : forall k, k ∈ PostSummary.id <$> Dao.listPosts d <->
     exists p, posts d !! k = Some p /\ is_Some (users d !! p_userId p)).
  { intros k. rewrite listPosts_ids, list_elem_of_fmap. split.
    - intros [[k' p] [-> Hin]]. apply list_elem_of_filter in Hin as [Hauthor Hin].
      unfold Sqlite.order_posts_by_date_desc in Hin.
      rewrite merge_sort_Permutation in Hin. apply elem_of_map_to_list in Hin.
      by exists p.
    - intros (p & Hp & Hauthor). exists (k, p). split; [done|].
      apply list_elem_of_filter. split; [done|].
      unfold Sqlite.order_posts_by_date_desc. rewrite merge_sort_Permutation.
      by apply elem_of_map_to_list. }
  split; [|split; [exact Hmem|split]].
  - rewrite listPosts_ids.
    eapply sublist_NoDup; [|apply fmap_sublist, sublist_filter].
    unfold Sqlite.order_posts_by_date_desc. rewrite merge_sort_Permutation.
    apply NoDup_fst_map_to_list.
  - intros (Hposts & _) k. rewrite Hmem. split.
    + intros (p & Hp & _). by exists p.
    + intros [p Hp]. exists p. split; [done|]. exact (Hposts k p Hp).
  - apply (StronglySorted_fmap _
             (fun x y => no_older (PostSummary.date x) (PostSummary.date y))); [done|].
    apply (StronglySorted_omap _ Sqlite.post_date_desc);
      [|apply StronglySorted_merge_sort; apply _].
    intros x y x' y' Hxy Hx Hy. unfold Dao.post_summary in Hx, Hy.
    destruct (users d !! p_userId x.2); [|discriminate].
    destruct (users d !! p_userId y.2); [|discriminate].
    injection Hx as <-. injection Hy as <-. simpl.
    by apply later_first_no_older in Hxy as [? _].
Qed.

End Lists.

Lemma comments_listed_newest_first_witness :
  (* comments 7 and 10 of post 3 have one date: 7 comes first *)
  Comment.id <$> Dao.getCommentsByPostId Seed.forum_same_date (Js.Num 3) Js.Undefined
    = [7; 10; 9; 8] /\
  StronglySorted listed_before
    (Dao.getCommentsByPostId Seed.forum_same_date (Js.Num 3) Js.Undefined).
Proof.
  split; [reflexivity|].
  apply (comments_listed_newest_first Seed.forum_same_date (Js.Num 3) Js.Undefined).
Defined.

Lemma listPosts_complete_and_ordered_witness :
  referential_integrity Seed.forum /\
  (forall k, k ∈ PostSummary.id <$> Dao.listPosts Seed.forum <-> is_Some (posts Seed.forum !! k)) /\
  PostSummary.id <$> Dao.listPosts Seed.forum = [1; 3; 2].
Proof.
  assert (Hri : referential_integrity Seed.forum) by decide_by_running.
  split; [exact Hri|]. split; [|reflexivity].
  destruct (listPosts_complete_and_ordered Seed.forum) as (_ & _ & Hall & _).
  exact (Hall Hri).
Defined.

Section Counts.
Context `{Sanitizer}.

Lemma listed_comment d pid a o :
  o ∈ Dao.getCommentsByPostId d (Js.Num pid) a ->
  exists c, Dao.visible_rows d pid a !! Comment.id o = Some c /\
            o = Dao.comment_of_row d a (Comment.id o, c).
Proof.
  unfold Dao.getCommentsByPostId, Sqlite.order_by_date_desc. simpl. intros Ho.
  apply list_elem_of_fmap in Ho as [[k c] [-> Hin]].
  rewrite merge_sort_Permutation in Hin. apply elem_of_map_to_list in Hin.
  by exists c.
Qed.

Lemma listed_summary d o :
  o ∈ Dao.listPosts d ->
  exists p, posts d !! PostSummary.id o = Some p /\
            Dao.post_summary d (PostSummary.id o, p) = Some o.
Proof.
  unfold Dao.listPosts, Sqlite.order_posts_by_date_desc. intros Ho.
  apply list_elem_of_omap in Ho as ([k p] & Hin & Hsum).
  rewrite merge_sort_Permutation in Hin. apply elem_of_map_to_list in Hin.
  assert (PostSummary.id o = k) as ->.
  { unfold Dao.post_summary in Hsum. destruct (users d !! _); [|discriminate].
    by injection Hsum as <-. }
  by exists p.
Qed.

(** X13. The comment count shown with a post, by [getPost] and by
    [listPosts] alike, is the length of the comment list a requester
    with a session gets for it; the list an anonymous requester gets is
    never longer. *)
Theorem comment_count_matches_list d pid post n :
  Dao.getPost d pid = Dao.PostObject post ->
  Post.commentCount post = length (Dao.getCommentsByPostId d pid (Js.Number n)) /\
  (length (Dao.getCommentsByPostId d pid Js.Null) <= Post.commentCount post)%nat /\
  (forall o, o ∈ Dao.listPosts d -> Js.Num (PostSummary.id o) = pid ->
     PostSummary.commentCount o = Post.commentCount post).
Proof.
  intros Hget. destruct (getPost_exists _ _ _ Hget) as [-> _].
  assert (Hcount : Post.commentCount post = size (Dao.comments_of d (Post.id post))).
  { unfold Dao.getPost in Hget. simpl in Hget.
    destruct (posts d !! Post.id post); [|discriminate].
    destruct (users d !! _); [|discriminate]. injection Hget as Hget.
    by rewrite <- Hget at 1. }
  rewrite Hcount, !getCommentsByPostId_length. split; [done|]. split.
  - unfold Dao.visible_rows. simpl. apply map_size_filter.
  - intros o Ho [= Hid]. apply listed_summary in Ho as (p & _ & Hsum).
    unfold Dao.post_summary in Hsum. destruct (users d !! _); [|discriminate].
    injection Hsum as <-. simpl in *. by rewrite Hid.
Qed.

(** X14. Flags are counted for everybody and shown per user.  After a
    user's mark of a comment went through, every comment list of a valid
    post id shows that comment with a count one higher; the list for the
    marking user shows it as marked by them, the list for another user
    shows it marked or not as before, and the anonymous list never shows
    a mark. *)
Theorem mark_shows_per_user d s i me raw cid c raw_post :
  Server.passport_user s = Some i -> users d !! i = Some me ->
  1 <= raw -> Server.param_id raw = Js.Num cid ->
  comments d !! cid = Some c -> (i, cid) ∉ interesting_flags d -> 1 <= raw_post ->
  let d' := (Server.post_comment_interesting d s raw).2 in
  forall s' l o,
    Server.get_post_comments d' s' raw_post = Server.respond 200 (Server.JsonComments l) ->
    o ∈ l -> CommentJson.id o = cid ->
    CommentJson.interestingCount o = S (Dao.flag_count d cid) /\
    (Server.passport_user s' = Some i -> CommentJson.markedByMe o = true) /\
    (forall j other, Server.passport_user s' = Some j -> j <> i -> users d !! j = Some other ->
       CommentJson.markedByMe o = bool_decide ((j, cid) ∈ interesting_flags d)) /\
    (Server.passport_user s' = None -> CommentJson.markedByMe o = false).
Proof.
  intros Hs Hme Hid Hcid Hc Hnew Hpid. simpl.
  rewrite (post_comment_interesting_new _ _ _ _ _ _ _ Hs Hme Hid Hcid Hc Hnew). simpl.
  set (d' := {| users := users d; posts := posts d; comments := comments d;
                interesting_flags := {[(i, cid)]} ∪ interesting_flags d;
                seq_posts := seq_posts d; seq_comments := seq_comments d |}).
  intros s' l o Hget Ho Hocid. unfold Server.get_post_comments in Hget.
  rewrite (valid_id_true _ Hpid) in Hget. simpl in Hget. injection Hget as <-.
  apply list_elem_of_fmap in Ho as (o0 & -> & Ho0).
  destruct (param_id_cases raw_post) as [Hnan|[pid Hread]]; rewrite ?Hnan, ?Hread in Ho0;
    [by apply elem_of_nil in Ho0|].
  apply listed_comment in Ho0 as (c0 & _ & ->). simpl in Hocid. simpl.
  rewrite Hocid. split.
  { by apply (flag_count_insert d d' i cid). }
  unfold Dao.marked_by, Server.requester, Server.req_user. simpl. split; [|split].
  - intros ->. simpl. unfold UserDao.getUserById. simpl. rewrite Hme. simpl.
    apply bool_decide_eq_true. set_solver.
  - intros j other -> Hji Hother. simpl. unfold UserDao.getUserById. simpl.
    rewrite Hother. simpl. apply bool_decide_ext.
    rewrite elem_of_union, elem_of_singleton. split; [|tauto].
    intros [[= ->]|?]; done.
  - by intros ->.
Qed.

End Counts.

Lemma comment_count_matches_list_witness :
  length (Dao.getCommentsByPostId Seed.forum (Js.Num 1) (Js.Number (Js.Num 3))) = 3%nat /\
  (length (Dao.getCommentsByPostId Seed.forum (Js.Num 1) Js.Null) <= 3)%nat.
Proof.
  destruct (comment_count_matches_list Seed.forum (Js.Num 1) _ (Js.Num 3) getPost_seed_post1)
    as (Hall & Hanon & _).
  simpl in Hall, Hanon. split; [by rewrite <- Hall|exact Hanon].
Defined.

Lemma mark_shows_per_user_witness :
  ((2, 4) ∉ interesting_flags Seed.forum) /\
  exists l o,
    Server.get_post_comments (H:=Seed.keep_all)
      (Server.post_comment_interesting Seed.forum (Seed.logged_in 2) 4).2 (Seed.logged_in 1) 2
    = Server.respond 200 (Server.JsonComments l) /\
    o ∈ l /\ CommentJson.id o = 4 /\
    CommentJson.interestingCount o = S (Dao.flag_count Seed.forum 4) /\
    CommentJson.markedByMe o = true.
Proof.
  assert (Hnew : (2, 4) ∉ interesting_flags Seed.forum) by decide_by_running.
  split; [exact Hnew|].
  set (r := Server.get_post_comments (H:=Seed.keep_all)
              (Server.post_comment_interesting Seed.forum (Seed.logged_in 2) 4).2
              (Seed.logged_in 1) 2).
  pose (l := match Server.content r with Server.JsonComments l => l | _ => [] end).
  assert (Hl : r = Server.respond 200 (Server.JsonComments l)) by (vm_compute; reflexivity).
  destruct (list_find (fun o => CommentJson.id o = 4) l) as [[n o]|] eqn:Hfind;
    [|by vm_compute in Hfind].
  apply list_find_Some in Hfind as (Hn & Hid & _).
  assert (Ho : o ∈ l) by (by apply (list_elem_of_lookup_2 l n)).
  exists l, o. split; [exact Hl|]. split; [exact Ho|]. split; [exact Hid|].
  destruct (mark_shows_per_user (H:=Seed.keep_all) Seed.forum (Seed.logged_in 2) 2 Seed.bob 4 4
              (Seed.row "This truly breaks down a complex subject into digestible pieces. Well done."
                 "2013-11-04 09:12:01" (Some 4) 2) 2
              eq_refl eq_refl ltac:(lia) eq_refl eq_refl Hnew ltac:(lia)
              (Seed.logged_in 1) l o Hl Ho Hid)
    as (Hcount & _ & Hother & _).
  split; [exact Hcount|].
  rewrite (Hother 1 Seed.alberto eq_refl ltac:(lia) eq_refl).
  apply bool_decide_eq_true. decide_by_running.
Defined.

(** ** Writing comments *)

Section CommentWrites.
Context `{Sanitizer}.

Lemma post_post_comments_201 d s raw text now :
  Server.status (Server.post_post_comments d s raw text now).1 = 201 ->
  exists pid post result d',
    Server.param_id raw = Js.Num pid /\
    Dao.getPost d (Js.Num pid) = Dao.PostObject post /\
    Dao.createComment d {| Dao.nc_text := sanitize (Server.text_of text);
                           Dao.nc_postId := Js.Num pid;
                           Dao.nc_userId := Server.requester d s |} now = (Dao.Ok result, d') /\
    Server.post_post_comments d s raw text now =
      (Server.respond 201 (Server.JsonComment (Server.sanitizeComment result)), d').
Proof.
  unfold Server.post_post_comments.
  destruct (negb _); [discriminate|].
  destruct (Dao.getPost d (Server.param_id raw)) as [post|] eqn:Hget; [|discriminate].
  destruct (getPost_exists _ _ _ Hget) as [Hid _]. rewrite Hid in *.
  destruct (match Post.maxComments post with Some m => _ | None => false end); [discriminate|].
  destruct (Dao.createComment d _ now) as [[result|e] d'] eqn:Hc; [|discriminate].
  intros _. by exists (Post.id post), post, result, d'.
Qed.

Lemma requester_owner d s :
  Js.key (Js.bind (Server.requester d s)) =
    match Server.passport_user s with
    | Some i => match users d !! i with Some _ => Some i | None => None end
    | None => None
    end.
Proof.
  unfold Server.requester, Server.req_user, UserDao.getUserById.
  destruct (Server.passport_user s) as [i|]; simpl; [|done].
  by destruct (users d !! i).
Qed.

Lemma get_post_comments_ids d s raw pid l :
  1 <= raw -> Server.param_id raw = Js.Num pid ->
  Server.get_post_comments d s raw = Server.respond 200 (Server.JsonComments l) ->
  forall k, k ∈ CommentJson.id <$> l <->
    exists c, Dao.visible_rows d pid (Server.requester d s) !! k = Some c.
Proof.
  intros Hraw Hpid Hget k.
  rewrite (get_post_comments_read _ _ _ _ Hraw Hpid) in Hget. injection Hget as <-.
  by rewrite sanitized_ids, listed_ids.
Qed.

(** X15. A comment that was created (201) can be read back.  It gets
    an id no comment had, is stored with the sanitized text, the given
    time, the post the path id is read as and the requester as owner (no
    owner without a session), leaves every other comment as it was, and
    is from then on in the list of its post for every requester with a
    session, and in the anonymous list exactly when it has no owner. *)
Theorem created_comment_is_stored d s raw text now :
  1 <= raw ->
  Server.status (Server.post_post_comments d s raw text now).1 = 201 ->
  let out := Server.post_post_comments d s raw text now in
  let k := Sqlite.next_rowid (seq_comments d) (comments d) in
  let owner := match Server.passport_user s with
               | Some i => match users d !! i with Some _ => Some i | None => None end
               | None => None
               end in
  exists pid, Server.param_id raw = Js.Num pid /\
  comments d !! k = None /\
  comments out.2 !! k =
    Some {| c_text := Sqlite.text (sanitize (Server.text_of text)); c_date := now;
            c_userId := owner; c_postId := pid |} /\
  (forall k', k' <> k -> comments out.2 !! k' = comments d !! k') /\
  (exists o, out.1 = Server.respond 201 (Server.JsonComment o) /\ CommentJson.id o = k) /\
  (forall s' i l, Server.passport_user s' = Some i ->
     Server.get_post_comments out.2 s' raw = Server.respond 200 (Server.JsonComments l) ->
     k ∈ CommentJson.id <$> l) /\
  (forall s' l, Server.passport_user s' = None ->
     Server.get_post_comments out.2 s' raw = Server.respond 200 (Server.JsonComments l) ->
     (k ∈ CommentJson.id <$> l <-> owner = None)).
Proof.
  intros Hraw H201. simpl.
  destruct (post_post_comments_201 _ _ _ _ _ H201)
    as (pid & post & result & d' & Hpid & _ & Hc & ->).
  apply createComment_Ok in Hc as (pid' & [= <-] & _ & _ & Hk & _ & _ & _ & Ec & _).
  simpl in *. rewrite requester_owner in Ec.
  set (k := Sqlite.next_rowid (seq_comments d) (comments d)) in *.
  assert (Hnew : comments d' !! k = Some
            {| c_text := Sqlite.text (sanitize (Server.text_of text)); c_date := now;
               c_userId := match Server.passport_user s with
                           | Some i => match users d !! i with Some _ => Some i | None => None end
                           | None => None
                           end;
               c_postId := pid |}) by (rewrite Ec; apply lookup_insert_eq).
  exists pid. split; [exact Hpid|].
  split; [apply next_rowid_fresh|]. split; [exact Hnew|]. split; [|split; [|split]].
  - intros k' Hne. rewrite Ec. by apply lookup_insert_ne.
  - eexists. split; [reflexivity|]. exact Hk.
  - intros s' i l Hs' Hget. apply (get_post_comments_ids _ _ _ _ _ Hraw Hpid Hget).
    rewrite (visible_rows_not_null _ _ _ (requester_authenticated d' s' i Hs')).
    eexists. apply comments_of_lookup. split; [exact Hnew|done].
  - intros s' l Hs' Hget. rewrite (get_post_comments_ids _ _ _ _ _ Hraw Hpid Hget k).
    rewrite (requester_anonymous _ _ Hs'). split.
    + intros [c Hc]. apply visible_rows_null in Hc as (Hc & _ & Howner).
      rewrite Hnew in Hc. injection Hc as <-. exact Howner.
    + intros Howner. eexists. apply visible_rows_null. split; [exact Hnew|]. simpl. done.
Qed.

Lemma put_comment_200 d s raw text :
  Server.status (Server.put_comment d s raw text).1 = 200 ->
  exists u, Server.req_user d s = Some u /\
    Dao.updateComment d (Server.param_id raw) (sanitize (Server.text_of text)) (Server.user_id u)
      (Server.isAdminWithTotp s u) = (Dao.Updated, (Server.put_comment d s raw text).2).
Proof.
  unfold Server.put_comment.
  destruct (Server.req_user d s) as [u|]; [|discriminate].
  destruct (negb _); [discriminate|]. rewrite not_user_false.
  destruct (Dao.updateComment d _ _ _ _) as [[|msg] d'] eqn:Hu; [|discriminate].
  intros _. by exists u.
Qed.

(** X16. An edit that went through (200) replaces the text of one
    comment, the one the path id is read as, by the sanitized new text
    and touches nothing else: the comment keeps its date, owner and
    post, and all other comments, the posts, the flags and the users
    stay as they were. *)
Theorem edit_changes_text_only d s raw text :
  Server.status (Server.put_comment d s raw text).1 = 200 ->
  let d' := (Server.put_comment d s raw text).2 in
  exists cid c, Server.param_id raw = Js.Num cid /\ comments d !! cid = Some c /\
    comments d' !! cid =
      Some {| c_text := Sqlite.text (sanitize (Server.text_of text)); c_date := c_date c;
              c_userId := c_userId c; c_postId := c_postId c |} /\
    (forall k, k <> cid -> comments d' !! k = comments d !! k) /\
    posts d' = posts d /\ interesting_flags d' = interesting_flags d /\ users d' = users d.
Proof.
  intros H200. simpl. destruct (put_comment_200 _ _ _ _ H200) as (u & _ & Hu).
  apply updateComment_Updated in Hu as (cid & c & Hcid & Hc & _ & Eu & Ep & Ec & Ef & _).
  exists cid, c. split; [done|]. split; [done|]. rewrite Ec. split; [|split].
  - rewrite lookup_alter. case_decide; [|done]. by rewrite Hc.
  - intros k Hne. by apply lookup_alter_ne.
  - done.
Qed.

Lemma delete_comment_200 d s raw :
  Server.status (Server.delete_comment d s raw).1 = 200 ->
  exists u, Server.req_user d s = Some u /\
    Dao.deleteComment d (Server.param_id raw) (Server.user_id u) (Server.isAdminWithTotp s u)
      = (1, (Server.delete_comment d s raw).2).
Proof.
  unfold Server.delete_comment.
  destruct (Server.req_user d s) as [u|]; [|discriminate].
  destruct (negb _); [discriminate|]. rewrite not_user_false.
  destruct (Dao.deleteComment d _ _ _) as [n d'] eqn:Hd.
  destruct (deleteComment_changes _ _ _ _ _ _ Hd) as [[-> ->]| ->]; [discriminate|].
  intros _. by exists u.
Qed.

(** X17. A comment deletion that went through (200) removes one
    comment, the one the path id is read as, and the flags on it and
    nothing else: every other comment, every flag on another comment,
    the posts and the users stay. *)
Theorem delete_comment_removes_only_it d s raw :
  Server.status (Server.delete_comment d s raw).1 = 200 ->
  let d' := (Server.delete_comment d s raw).2 in
  exists cid, Server.param_id raw = Js.Num cid /\
  is_Some (comments d !! cid) /\
  comments d' !! cid = None /\
  (forall k, k <> cid -> comments d' !! k = comments d !! k) /\
  (forall u k, (u, k) ∈ interesting_flags d' <-> (u, k) ∈ interesting_flags d /\ k <> cid) /\
  posts d' = posts d /\ users d' = users d.
Proof.
  intros H200. simpl. destruct (delete_comment_200 _ _ _ H200) as (u & _ & Hd).
  apply deleteComment_deleted in Hd as (cid & c & Hcid & Hc & _ & Eu & Ep & Ec & Ef & _).
  exists cid. split; [done|].
  rewrite Ec, Ef. split; [by exists c|]. split; [apply lookup_delete_eq|]. split; [|split].
  - intros k Hne. by apply lookup_delete_ne.
  - intros u' k. unfold Sqlite.cascade_flags. rewrite elem_of_filter. simpl.
    rewrite lookup_singleton_None. split; intros [? ?]; split; try done; congruence.
  - done.
Qed.

(** X18. Deleting a comment of a post that is exactly at its ceiling
    makes room for one: before, a valid creation on the post is refused
    with 403; after the deletion went through, it is answered 201. *)
Theorem delete_frees_a_slot d s raw cid c post n s' raw_post text now :
  Dao.getPost d (Js.Num (c_postId c)) = Dao.PostObject post ->
  Post.maxComments post = Some n ->
  Z.of_nat (size (Dao.comments_of d (c_postId c))) = n ->
  1 <= raw -> Server.param_id raw = Js.Num cid -> comments d !! cid = Some c ->
  1 <= raw_post -> Server.param_id raw_post = Js.Num (c_postId c) ->
  Server.valid_text text = true ->
  Server.status (Server.delete_comment d s raw).1 = 200 ->
  Server.status (Server.post_post_comments d s' raw_post text now).1 = 403 /\
  Server.status (Server.post_post_comments (Server.delete_comment d s raw).2 s'
                   raw_post text now).1 = 201.
Proof.
  intros Hget Hmax Hfull Hraw Hcid Hc Hrawp Hpid Htext H200. split.
  - pose proof (post_post_comments_decides d s' _ _ text now post Hrawp Hpid Htext Hget) as Hdec.
    simpl in Hdec. rewrite Hmax in Hdec.
    destruct (Z.leb_spec n (Z.of_nat (size (Dao.comments_of d (c_postId c))))); [|lia].
    by rewrite Hdec.
  - destruct (delete_comment_200 _ _ _ H200) as (u & _ & Hd).
    apply deleteComment_deleted in Hd as (cid' & c' & Hcid' & Hc' & _ & Eu & Ep & Ec & _).
    rewrite Hcid in Hcid'. injection Hcid' as <-.
    set (d' := (Server.delete_comment d s raw).2) in *.
    assert (Hsize : S (size (Dao.comments_of d' (c_postId c))) = size (Dao.comments_of d (c_postId c))).
    { assert (Hin : Dao.comments_of d (c_postId c) !! cid = Some c)
        by (by apply comments_of_lookup).
      unfold Dao.comments_of in *. rewrite Ec, map_filter_delete, map_size_delete, Hin.
      destruct (size (filter _ (comments d))) eqn:Hz; [|done].
      apply map_size_empty_iff in Hz. rewrite Hz in Hin. by rewrite lookup_empty in Hin. }
    assert (Hget' : exists post', Dao.getPost d' (Js.Num (c_postId c)) = Dao.PostObject post' /\
                                  Post.maxComments post' = Some n).
    { unfold Dao.getPost in *. simpl in *. rewrite Ep, Eu.
      destruct (posts d !! c_postId c) as [row|]; [|discriminate].
      destruct (users d !! p_userId row); [|discriminate].
      injection Hget as <-. simpl in Hmax. eexists. split; [reflexivity|done]. }
    destruct Hget' as (post' & Hget' & Hmax').
    pose proof (post_post_comments_decides d' s' _ _ text now post' Hrawp Hpid Htext Hget')
      as Hdec.
    simpl in Hdec. rewrite Hmax' in Hdec.
    destruct (Z.leb_spec n (Z.of_nat (size (Dao.comments_of d' (c_postId c))))); [lia|].
    by destruct Hdec.
Qed.

End CommentWrites.

Lemma created_comment_is_stored_witness :
  comments (Server.post_post_comments (H:=Seed.keep_all) Seed.forum (Seed.logged_in 4) 1
              (Seed.said "Count me in too.") "2025-06-01 10:00:00").2 !! 28
  = Some (Seed.row "Count me in too." "2025-06-01 10:00:00" (Some 4) 1).
Proof.
  destruct (created_comment_is_stored (H:=Seed.keep_all) Seed.forum (Seed.logged_in 4) 1
              (Seed.said "Count me in too.") "2025-06-01 10:00:00" ltac:(lia) eq_refl)
    as (pid & Hpid & _ & Hstored & _).
  vm_compute in Hpid. injection Hpid as <-. exact Hstored.
Defined.

Lemma edit_changes_text_only_witness :
  comments (Server.put_comment (H:=Seed.keep_all) Seed.forum (Seed.logged_in 4) 3
              (Seed.said "Changed my mind.")).2 !! 3
  = Some (Seed.row "Changed my mind." "2015-12-05 12:01:09" (Some 4) 1).
Proof.
  destruct (edit_changes_text_only (H:=Seed.keep_all) Seed.forum (Seed.logged_in 4) 3
              (Seed.said "Changed my mind.") eq_refl) as (cid & c & Hcid & Hc & Hnew & _).
  vm_compute in Hcid. injection Hcid as <-.
  vm_compute in Hc. injection Hc as <-. exact Hnew.
Defined.

Lemma delete_comment_removes_only_it_witness :
  (1, 4) ∈ interesting_flags Seed.forum /\
  ((1, 4) ∉ interesting_flags (Server.delete_comment Seed.forum (Seed.with_totp 1) 4).2) /\
  (comments (Server.delete_comment Seed.forum (Seed.with_totp 1) 4).2) !! 5
    = comments Seed.forum !! 5.
Proof.
  destruct (delete_comment_removes_only_it Seed.forum (Seed.with_totp 1) 4 eq_refl)
    as (cid & Hcid & _ & _ & Hothers & Hflags & _).
  vm_compute in Hcid. injection Hcid as <-.
  split; [decide_by_running|]. split.
  - intros Hin. apply Hflags in Hin as [_ Hne]. by apply Hne.
  - apply Hothers. lia.
Defined.

Lemma delete_frees_a_slot_witness :
  Server.status (Server.post_post_comments (H:=Seed.keep_all) Seed.forum_post1_full
                   Seed.anonymous 1 (Seed.said "Me too.") "2025-06-01 11:00:00").1 = 403 /\
  Server.status (Server.post_post_comments (H:=Seed.keep_all)
                   (Server.delete_comment Seed.forum_post1_full (Seed.with_totp 1) 2).2
                   Seed.anonymous 1 (Seed.said "Me too.") "2025-06-01 11:00:00").1 = 201.
Proof.
  apply (delete_frees_a_slot (H:=Seed.keep_all) Seed.forum_post1_full (Seed.with_totp 1) 2 2
           (Seed.row "Great points raised here. So much to consider." "2015-10-04 14:44:56" None 1)
           _ 4 Seed.anonymous 1 (Seed.said "Me too.") "2025-06-01 11:00:00"
           getPost_full_post1 eq_refl);
    [vm_compute; reflexivity|lia|reflexivity|reflexivity|lia|reflexivity|reflexivity|reflexivity].
Defined.

(** ** Posts *)

Section Posts.
Context `{Sanitizer}.

Lemma post_posts_row d s i me title text m now :
  Server.passport_user s = Some i -> users d !! i = Some me ->
  Server.valid_title title = true -> Server.valid_text text = true ->
  Server.valid_maxComments m = true ->
  let stored := Sqlite.text (sanitize (Validator.trim (Server.text_of title))) in
  Server.post_posts d s title text m now =
    if bool_decide (Dao.title_free d stored) then
      let k := Sqlite.next_rowid (seq_posts d) (posts d) in
      let row := {| p_title := stored; p_userId := i;
                    p_text := Sqlite.text (sanitize (Server.text_of text));
                    p_maxComments := Server.maxComments_of m; p_date := now |} in
      let d' := {| users := users d; posts := <[k := row]> (posts d); comments := comments d;
                   interesting_flags := interesting_flags d;
                   seq_posts := k; seq_comments := seq_comments d |} in
      (Server.respond_post 201 (Server.JsonPost (Server.sanitizePost
         {| PostSummary.id := k; PostSummary.title := stored;
            PostSummary.text := Sqlite.text (sanitize (Server.text_of text));
            PostSummary.date := now;
            PostSummary.maxComments := Server.maxComments_of m;
            PostSummary.username := u_username me;
            PostSummary.commentCount := size (Dao.comments_of d' k) |})), d')
    else (Server.respond_post 409 title_used, d).
Proof.
  intros Hs Hme Ht Hx Hm. simpl. unfold Server.post_posts.
  rewrite (req_user_row _ _ _ _ Hs Hme), Ht, Hx, Hm, not_user_false. simpl.
  unfold Dao.createPost. simpl.
  destruct (bool_decide (Dao.title_free d _)); simpl; [|done].
  by rewrite Hme.
Qed.

Lemma max_rowid_nonneg {V} (t : gmap Z V) : 0 <= Sqlite.max_rowid t.
Proof.
  unfold Sqlite.max_rowid.
  apply (map_fold_weak_ind (fun r (m : gmap Z V) => 0 <= r)); [done|].
  intros i x m r _ Hr. lia.
Qed.

(** X19. Creating a post whose title, as it would be stored (trimmed,
    sanitized and written as TEXT), is the title of a stored post
    answers 409 with the title error and stores nothing. *)
Theorem duplicate_title_is_409 d s i me title text m now k p :
  Server.passport_user s = Some i -> users d !! i = Some me ->
  Server.valid_title title = true -> Server.valid_text text = true ->
  Server.valid_maxComments m = true ->
  posts d !! k = Some p ->
  p_title p = Sqlite.text (sanitize (Validator.trim (Server.text_of title))) ->
  Server.post_posts d s title text m now = (Server.respond_post 409 title_used, d).
Proof.
  intros Hs Hme Ht Hx Hm Hp Htitle.
  rewrite (post_posts_row _ _ _ _ _ _ _ _ Hs Hme Ht Hx Hm). simpl.
  rewrite bool_decide_eq_false_2; [done|].
  intros Hfree. by apply (Hfree k p Hp).
Qed.

(** X20. Creating a post with a title no stored post has answers 201
    and the post can be read back: it gets an id no post had, is stored
    with the requester as owner, with the title and the text trimmed,
    sanitized and written as TEXT and with the ceiling the request
    gave, leaves the other posts as they were, is in [listPosts], is
    found by [getPost] with no comments when the foreign keys hold, and
    its title is from then on refused with 409 to everybody. *)
Theorem created_post_is_stored d s i me title text m now :
  Server.passport_user s = Some i -> users d !! i = Some me ->
  Server.valid_title title = true -> Server.valid_text text = true ->
  Server.valid_maxComments m = true ->
  Dao.title_free d (Sqlite.text (sanitize (Validator.trim (Server.text_of title)))) ->
  let out := Server.post_posts d s title text m now in
  let k := Sqlite.next_rowid (seq_posts d) (posts d) in
  Server.post_status out.1 = 201 /\
  posts d !! k = None /\
  posts out.2 !! k =
    Some {| p_title := Sqlite.text (sanitize (Validator.trim (Server.text_of title)));
            p_userId := i; p_text := Sqlite.text (sanitize (Server.text_of text));
            p_maxComments := Server.maxComments_of m; p_date := now |} /\
  (forall n, m = Some n -> n < 2 ^ 53 -> Server.maxComments_of m = Some n) /\
  (m = None -> Server.maxComments_of m = None) /\
  (forall k', k' <> k -> posts out.2 !! k' = posts d !! k') /\
  k ∈ PostSummary.id <$> Dao.listPosts out.2 /\
  (referential_integrity d ->
     exists p, Dao.getPost out.2 (Js.Num k) = Dao.PostObject p /\
               Post.commentCount p = 0%nat /\
               Post.userId p = i /\ Post.username p = u_username me) /\
  (forall s' j other text' m' now',
     Server.passport_user s' = Some j -> users d !! j = Some other ->
     Server.valid_text text' = true -> Server.valid_maxComments m' = true ->
     Server.post_posts out.2 s' title text' m' now' = (Server.respond_post 409 title_used, out.2)).
Proof.
  intros Hs Hme Ht Hx Hm Hfree. simpl.
  rewrite (post_posts_row _ _ _ _ _ _ _ _ Hs Hme Ht Hx Hm). simpl.
  rewrite (bool_decide_eq_true_2 _ Hfree). simpl.
  set (k := Sqlite.next_rowid (seq_posts d) (posts d)).
  set (row := {| p_title := Sqlite.text (sanitize (Validator.trim (Server.text_of title)));
                 p_userId := i; p_text := Sqlite.text (sanitize (Server.text_of text));
                 p_maxComments := Server.maxComments_of m; p_date := now |}).
  set (d' := {| users := users d; posts := <[k := row]> (posts d); comments := comments d;
                interesting_flags := interesting_flags d;
                seq_posts := k; seq_comments := seq_comments d |}).
  assert (Hk : posts d' !! k = Some row) by apply lookup_insert_eq.
  split; [done|]. split; [apply next_rowid_fresh|]. split; [exact Hk|].
  split; [|split; [by intros ->|split; [|split; [|split]]]].
  - intros n -> Hn. apply valid_maxComments_exact.
    simpl in Hm. apply andb_true_iff in Hm as [Hm _]. lia.
  - intros k' Hne. by apply lookup_insert_ne.
  - apply listPosts_member. exists row. split; [exact Hk|].
    simpl. by rewrite Hme.
  - intros Hri. unfold Dao.getPost. cbn [Js.key Js.bind_num]. rewrite Hk. simpl. rewrite Hme.
    eexists. split; [reflexivity|]. simpl. split; [|done].
    rewrite (comments_of_same d d' k eq_refl).
    rewrite (comments_of_no_post d k Hri (next_rowid_fresh _ _)). apply map_size_empty.
  - intros s' j other text' m' now' Hs' Hother Hx' Hm'.
    rewrite (post_posts_row d' s' j other title text' m' now' Hs' Hother Ht Hx' Hm'). simpl.
    rewrite bool_decide_eq_false_2; [done|].
    intros Hfree'. by apply (Hfree' k row Hk).
Qed.

(** X21. A post may be created with [maxComments] 0, and such a post
    never takes a comment: every valid comment creation on it, by a
    path id that is read as the post's id, is refused with 403. *)
Theorem zero_ceiling_post_admits_no_comment d s i me title text now s' raw text' now' :
  Server.passport_user s = Some i -> users d !! i = Some me ->
  Server.valid_title title = true -> Server.valid_text text = true ->
  Dao.title_free d (Sqlite.text (sanitize (Validator.trim (Server.text_of title)))) ->
  Server.valid_text text' = true ->
  1 <= raw ->
  Server.param_id raw = Js.Num (Sqlite.next_rowid (seq_posts d) (posts d)) ->
  let out := Server.post_posts d s title text (Some 0) now in
  Server.post_status out.1 = 201 /\
  Server.post_post_comments out.2 s' raw text' now' = (Server.respond 403 limit_reached, out.2).
Proof.
  intros Hs Hme Ht Hx Hfree Hx' Hraw Hread. simpl.
  rewrite (post_posts_row d s i me title text (Some 0) now Hs Hme Ht Hx eq_refl). simpl.
  rewrite (bool_decide_eq_true_2 _ Hfree). simpl. split; [done|].
  set (k := Sqlite.next_rowid (seq_posts d) (posts d)) in *.
  set (d' := {| users := users d; posts := _; comments := comments d;
                interesting_flags := interesting_flags d;
                seq_posts := k; seq_comments := seq_comments d |}).
  assert (Hget : exists post, Dao.getPost d' (Js.Num k) = Dao.PostObject post /\
                              Post.maxComments post = Some 0).
  { unfold Dao.getPost. simpl. rewrite lookup_insert_eq. simpl. rewrite Hme.
    eexists. split; [reflexivity|done]. }
  destruct Hget as (post & Hget & Hmax).
  pose proof (post_post_comments_decides d' s' raw k text' now' post Hraw Hread Hx' Hget) as Hdec.
  simpl in Hdec. rewrite Hmax in Hdec.
  destruct (Z.leb_spec 0 (Z.of_nat (size (Dao.comments_of d' k)))); [done|lia].
Qed.

End Posts.

Lemma duplicate_title_is_409_witness :
  (* a no-break space before the title, a space and a tab after it *)
  Server.post_posts (H:=Seed.keep_all) Seed.forum (Seed.logged_in 3)
    (Some (Seed.nbsp :: Js.lit "Deciphering Dark Matter " ++ [9])%list)
    (Seed.said "Again.") None "2025-06-01 11:00:00"
  = (Server.respond_post 409 title_used, Seed.forum).
Proof.
  apply (duplicate_title_is_409 (H:=Seed.keep_all) Seed.forum (Seed.logged_in 3) 3 Seed.carl
           (Some (Seed.nbsp :: Js.lit "Deciphering Dark Matter " ++ [9])%list)
           (Seed.said "Again.") None "2025-06-01 11:00:00"
           2 Seed.post2); reflexivity.
Defined.

Lemma created_post_is_stored_witness :
  Dao.title_free Seed.forum (Js.lit "Tide Pools") /\
  posts (Server.post_posts (H:=Seed.keep_all) Seed.forum (Seed.logged_in 3)
           (Some (Seed.nbsp :: Js.lit "Tide Pools")) (Seed.said "What lives between the tides?")
           (Some 1) "2025-06-01 11:00:00").2 !! 10
  = Some {| p_title := Js.lit "Tide Pools"; p_userId := 3;
            p_text := Js.lit "What lives between the tides?";
            p_maxComments := Some 1; p_date := "2025-06-01 11:00:00" |} /\
  (* a ceiling of 10^21 is not accepted *)
  Server.post_status (Server.post_posts (H:=Seed.keep_all) Seed.forum (Seed.logged_in 3)
           (Seed.said "Tide Pools") (Seed.said "What lives between the tides?")
           (Some (10 ^ 21)) "2025-06-01 11:00:00").1 = 422.
Proof.
  assert (Hfree : Dao.title_free Seed.forum (Js.lit "Tide Pools")) by decide_by_running.
  split; [exact Hfree|]. split; [|vm_compute; reflexivity].
  destruct (created_post_is_stored (H:=Seed.keep_all) Seed.forum (Seed.logged_in 3) 3 Seed.carl
              (Some (Seed.nbsp :: Js.lit "Tide Pools")) (Seed.said "What lives between the tides?")
              (Some 1) "2025-06-01 11:00:00" eq_refl eq_refl eq_refl eq_refl eq_refl Hfree)
    as (_ & _ & Hstored & _).
  exact Hstored.
Defined.

Lemma zero_ceiling_post_admits_no_comment_witness :
  Server.status
    (Server.post_post_comments (H:=Seed.keep_all)
       (Server.post_posts (H:=Seed.keep_all) Seed.forum (Seed.logged_in 3)
          (Seed.said "Read Only") (Seed.said "No replies, please.") (Some 0)
          "2025-06-01 11:00:00").2
       Seed.anonymous 10 (Seed.said "First!") "2025-06-01 11:01:00").1 = 403.
Proof.
  assert (Hfree : Dao.title_free Seed.forum (Js.lit "Read Only")) by decide_by_running.
  destruct (zero_ceiling_post_admits_no_comment (H:=Seed.keep_all) Seed.forum (Seed.logged_in 3)
              3 Seed.carl (Seed.said "Read Only") (Seed.said "No replies, please.")
              "2025-06-01 11:00:00" Seed.anonymous 10 (Seed.said "First!") "2025-06-01 11:01:00"
              eq_refl eq_refl eq_refl eq_refl Hfree eq_refl ltac:(lia) eq_refl) as [_ Hrefused].
  by rewrite Hrefused.
Defined.

(** ** Trimming *)

Section Trim.

Lemma ltrim_head_ok l : head_ok (Validator.ltrim l).
Proof.
  induction l as [|c l IH]; simpl; [done|].
  destruct (Validator.is_space c) eqn:Hc; [done|]. simpl. exact Hc.
Qed.

Lemma ltrim_id l : head_ok l -> Validator.ltrim l = l.
Proof. destruct l as [|c l]; simpl; [done|]. by intros ->. Qed.

Lemma ltrim_suffix l : exists sp, l = (sp ++ Validator.ltrim l)%list.
Proof.
  induction l as [|c l [sp IH]]; simpl; [by exists []|].
  destruct (Validator.is_space c).
  - exists (c :: sp). simpl. by f_equal.
  - by exists [].
Qed.

Lemma head_ok_app_l x y : head_ok (x ++ y)%list -> x <> [] -> head_ok x.
Proof. by destruct x. Qed.

Lemma trim_idempotent s : Validator.trim (Validator.trim s) = Validator.trim s.
Proof.
  unfold Validator.trim. set (a := Validator.ltrim s). set (b := Validator.ltrim (rev a)).
  assert (Ha : head_ok a) by apply ltrim_head_ok.
  assert (Hb : head_ok b) by apply ltrim_head_ok.
  assert (Hrb : head_ok (rev b)).
  { destruct (ltrim_suffix (rev a)) as [sp Hsp]. fold b in Hsp.
    destruct b as [|c b'] eqn:Eb; [done|].
    assert (Hrev : a = (rev (c :: b') ++ rev sp)%list).
    { rewrite <- rev_app_distr, <- Hsp. by rewrite rev_involutive. }
    rewrite Hrev in Ha. apply (head_ok_app_l _ _ Ha).
    simpl. by destruct (rev b'). }
  rewrite (ltrim_id _ Hrb), rev_involutive. by rewrite (ltrim_id _ Hb).
Qed.

End Trim.

(** ** Completing the second factor *)

Section Elevation.
Context `{Sanitizer} `{Totp}.

Lemma post_login_totp_no_row d s code :
  (Server.passport_user s = None \/
   exists i, Server.passport_user s = Some i /\ users d !! i = None) ->
  Server.status (Server.post_login_totp d s code).1.1 <> 200 /\
  (Server.post_login_totp d s code).1.2 = s.
Proof.
  unfold Server.post_login_totp, Server.req_user, UserDao.getUserById.
  intros [->|(i & -> & Hi)]; simpl; [done|]. by rewrite Hi.
Qed.

(** When the route answers 200, everything it checked held, and the
    session carries the mark. *)
Lemma post_login_totp_200 d s i me code :
  Server.passport_user s = Some i -> users d !! i = Some me ->
  Server.status (Server.post_login_totp d s code).1.1 = 200 ->
  (exists a c, u_admin me = Some a /\ a <> 0 /\ u_secret me <> "" /\
     code = Js.JString c /\ Validator.isNumeric (Validator.trim c) = true /\
     totp_verify (Validator.trim c) (base32_decode (u_secret me)) 30 = true) /\
  (Server.post_login_totp d s code).1.2 =
    {| Server.passport_user := Some i; Server.method := Some "totp" |}.
Proof.
  intros Hs Hme. rewrite (post_login_totp_row _ _ _ _ _ Hs Hme). simpl.
  destruct (u_admin me) as [a|]; simpl; [|discriminate].
  destruct (a =? 0)%Z eqn:Ha; simpl; [discriminate|].
  destruct (String.eqb (u_secret me) "") eqn:Hsec; simpl; [discriminate|].
  destruct (negb (Js.truthy code)); simpl; [discriminate|].
  destruct code as [| |b|z|c]; simpl; try discriminate.
  destruct (Validator.isNumeric (Validator.trim c)) eqn:Hnum; simpl; [|discriminate].
  destruct (totp_verify _ _ _) eqn:Hverify; simpl; [|discriminate].
  intros _. rewrite Hs. split; [|done].
  exists a, c. apply String.eqb_neq in Hsec. repeat split; try done. lia.
Qed.

(** X22. The second-factor route answers 200 exactly when the session's
    user is an administrator with a secret and the submitted code is a
    string whose trimmed text is numeric and passes the TOTP check
    against the decoded secret; the session gets the [totp] mark then,
    and in every other case it stays as it was. *)
Theorem second_factor_success_iff d s code :
  (Server.status (Server.post_login_totp d s code).1.1 = 200 <->
   exists i me a c,
     Server.passport_user s = Some i /\ users d !! i = Some me /\
     u_admin me = Some a /\ a <> 0 /\ u_secret me <> "" /\
     code = Js.JString c /\ Validator.isNumeric (Validator.trim c) = true /\
     totp_verify (Validator.trim c) (base32_decode (u_secret me)) 30 = true) /\
  (Server.status (Server.post_login_totp d s code).1.1 = 200 ->
     (Server.post_login_totp d s code).1.2 =
       {| Server.passport_user := Server.passport_user s; Server.method := Some "totp" |}) /\
  (Server.status (Server.post_login_totp d s code).1.1 <> 200 ->
     (Server.post_login_totp d s code).1.2 = s).
Proof.
  destruct (Server.passport_user s) as [i|] eqn:Hs.
  2:{ destruct (post_login_totp_no_row d s code (or_introl Hs)) as [Hno Hsame].
      split; [|split; [done|done]]. split; [done|]. intros (i & ? & ? & ? & ? & _). congruence. }
  destruct (users d !! i) as [me|] eqn:Hme.
  2:{ destruct (post_login_totp_no_row d s code
                  (or_intror (ex_intro _ i (conj Hs Hme)))) as [Hno Hsame].
      split; [|split; [done|done]]. split; [done|].
      intros (j & ? & ? & ? & [= <-] & ? & _). congruence. }
  split; [|split].
  - split.
    + intros H200. destruct (post_login_totp_200 d s i me code Hs Hme H200)
        as [(a & c & ? & ? & ? & ? & ? & ?) _].
      by exists i, me, a, c.
    + intros (j & me' & a & c & [= <-] & Hme' & Ha & Hnz & Hsec & -> & Hnum & Hverify).
      rewrite Hme in Hme'. injection Hme' as <-.
      rewrite (post_login_totp_row _ _ _ _ _ Hs Hme). simpl.
      rewrite Ha, Hnum, Hverify. simpl.
      assert ((a =? 0)%Z = false) as -> by lia.
      assert (String.eqb (u_secret me) "" = false) as -> by (by apply String.eqb_neq).
      simpl. destruct c; [discriminate|done].
  - intros H200. by destruct (post_login_totp_200 d s i me code Hs Hme H200) as [_ ->].
  - rewrite (post_login_totp_row _ _ _ _ _ Hs Hme). simpl.
    repeat case_match; simpl; done.
Qed.

(** X23. Once the second factor is completed (200), the new session
    moderates: it is elevated, and with it the user deletes and edits
    every existing comment and deletes every existing post, whoever owns
    them.  The deletion of a comment answers 200 and the comment is
    gone, the others left; the edit answers 200 and the comment has the
    new text, sanitized, and its date, owner and post as before; the
    deletion of a post answers 200 and the post and its comments are
    gone. *)
Theorem elevated_session_moderates d s i me code :
  Server.passport_user s = Some i -> users d !! i = Some me ->
  Server.status (Server.post_login_totp d s code).1.1 = 200 ->
  let s' := (Server.post_login_totp d s code).1.2 in
  elevated s' me /\
  (forall raw cid c, 1 <= raw -> Server.param_id raw = Js.Num cid ->
     comments d !! cid = Some c ->
     let out := Server.delete_comment d s' raw in
     out.1 = Server.respond 200 Server.JsonSuccess /\
     comments out.2 !! cid = None /\
     (forall k, k <> cid -> comments out.2 !! k = comments d !! k)) /\
  (forall raw cid c text, 1 <= raw -> Server.param_id raw = Js.Num cid ->
     Server.valid_text text = true -> comments d !! cid = Some c ->
     let out := Server.put_comment d s' raw text in
     out.1 = Server.respond 200 Server.JsonSuccess /\
     comments out.2 !! cid =
       Some {| c_text := Sqlite.text (sanitize (Server.text_of text)); c_date := c_date c;
               c_userId := c_userId c; c_postId := c_postId c |} /\
     (forall k, k <> cid -> comments out.2 !! k = comments d !! k)) /\
  (forall raw pid p, 1 <= raw -> Server.param_id raw = Js.Num pid ->
     posts d !! pid = Some p ->
     let out := Server.delete_post d s' raw in
     out.1 = Server.respond 200 Server.JsonSuccess /\
     posts out.2 !! pid = None /\
     (forall k, k <> pid -> posts out.2 !! k = posts d !! k) /\
     (forall k c, comments out.2 !! k = Some c <-> comments d !! k = Some c /\ c_postId c <> pid)).
Proof.
  intros Hs Hme H200. simpl.
  destruct (post_login_totp_200 d s i me code Hs Hme H200)
    as [(a & c & Ha & Hnz & _) ->].
  set (s' := {| Server.passport_user := Some i; Server.method := Some "totp" |}).
  assert (Helev : elevated s' me).
  { split; [done|]. by exists a. }
  assert (Hadm : Server.isAdminWithTotp s' (UserDao.UserObject (UserDao.user_of_row i me)) = true)
    by (by apply isAdminWithTotp_elevated).
  split; [exact Helev|]. split; [|split].
  - intros raw cid c' Hid Hcid Hc.
    rewrite (delete_comment_row d s' i me raw eq_refl Hme Hid), Hcid, Hadm.
    rewrite (deleteComment_found _ _ _ _ _ Hc). simpl. split; [done|].
    split; [apply lookup_delete_eq|]. intros k Hne. by apply lookup_delete_ne.
  - intros raw cid c' text Hid Hcid Htext Hc.
    rewrite (put_comment_row d s' i me raw text eq_refl Hme Hid Htext), Hcid, Hadm.
    rewrite (updateComment_found _ _ _ _ _ _ Hc). simpl. split; [done|]. split.
    + by rewrite lookup_alter_eq, Hc.
    + intros k Hne. by apply lookup_alter_ne.
  - intros raw pid p Hid Hpid Hp.
    rewrite (delete_post_row d s' i me raw eq_refl Hme Hid), Hpid, Hadm.
    rewrite (deletePost_found _ _ _ _ _ Hp). simpl. split; [done|].
    split; [apply lookup_delete_eq|]. split; [intros k Hne; by apply lookup_delete_ne|].
    intros k c'. by rewrite map_lookup_filter_Some.
Qed.

(** X24. White space around the submitted code does not matter: the
    route answers a code and the same code trimmed alike. *)
Theorem totp_code_is_trimmed d s c :
  Server.post_login_totp d s (Js.JString c) =
  Server.post_login_totp d s (Js.JString (Validator.trim c)).
Proof.
  unfold Server.post_login_totp.
  destruct (Server.req_user d s) as [u|]; [|done].
  rewrite not_user_false. destruct u as [user|]; [|done].
  destruct (negb (Server.admin _)); [done|].
  destruct (negb (Server.has_secret _)); [done|].
  rewrite trim_idempotent. simpl.
  destruct c as [|x c]; [done|]. simpl.
  destruct (Validator.trim (x :: c)) as [|y t] eqn:Ht; simpl; done.
Qed.

End Elevation.

Lemma second_factor_success_iff_witness :
  (* the code with a no-break space before it and a line feed after *)
  Server.status (Server.post_login_totp (H:=Seed.fixed_code) Seed.forum (Seed.logged_in 1)
                   (Js.JString (Seed.nbsp :: Js.lit "000000" ++ [10])%list)).1.1 = 200 /\
  (Server.post_login_totp (H:=Seed.fixed_code) Seed.forum (Seed.logged_in 1)
     (Js.JString (Seed.nbsp :: Js.lit "000000" ++ [10])%list)).1.2 = Seed.with_totp 1.
Proof.
  destruct (second_factor_success_iff (H0:=Seed.fixed_code) Seed.forum (Seed.logged_in 1)
              (Js.JString (Seed.nbsp :: Js.lit "000000" ++ [10])%list)) as ([_ Hok] & Hmark & _).
  assert (H200 : Server.status (Server.post_login_totp (H:=Seed.fixed_code) Seed.forum
                   (Seed.logged_in 1)
                   (Js.JString (Seed.nbsp :: Js.lit "000000" ++ [10])%list)).1.1 = 200).
  { apply Hok. exists 1, Seed.alberto, 1, (Seed.nbsp :: Js.lit "000000" ++ [10])%list.
    repeat split; try reflexivity; discriminate. }
  split; [exact H200|]. exact (Hmark H200).
Defined.

Lemma elevated_session_moderates_witness :
  Server.delete_comment Seed.forum
    (Server.post_login_totp (H:=Seed.fixed_code) Seed.forum (Seed.logged_in 1)
       (Js.JString (Js.lit "000000"))).1.2 5
  = (Server.respond 200 Server.JsonSuccess,
     (Server.delete_comment Seed.forum (Seed.with_totp 1) 5).2) /\
  comments (Server.delete_comment Seed.forum (Seed.with_totp 1) 5).2 !! 5 = None.
Proof.
  destruct (elevated_session_moderates (H:=Seed.keep_all) (H0:=Seed.fixed_code) Seed.forum
              (Seed.logged_in 1) 1 Seed.alberto (Js.JString (Js.lit "000000"))
              eq_refl eq_refl eq_refl)
    as (_ & Hdel & _).
  destruct (Hdel 5 5 (Seed.row "Thought-provoking! I am definitely going to dive deeper into this."
                        "2013-10-22 05:43:06" (Some 3) 2) ltac:(lia) eq_refl eq_refl)
    as (Hres & Hgone & _).
  split; [|exact Hgone].
  rewrite (surjective_pairing (Server.delete_comment _ _ _)). by rewrite Hres.
Defined.

(** ** Logging in *)

Section Login.
Context `{Crypto}.

Lemma getUser_cases d name password :
  stored_hashes_ok d ->
  UserDao.getUser d name password = Resolved None \/
  exists i row, users d !! i = Some row /\ u_username row = Sqlite.text name /\
    hash_matches row password /\
    UserDao.getUser d name password = Resolved (Some (UserDao.user_of_row i row)).
Proof.
  intros Hlen. destruct (UserDao.row_by_username d name) as [[i row]|] eqn:Hf.
  - pose proof (row_by_username_Some _ _ _ _ Hf) as [Hrow Hname].
    rewrite (getUser_row _ _ _ _ _ Hf (Hlen i row Hrow)).
    destruct (Buffer.eqb _ _) eqn:Heq; [right|by left].
    exists i, row. apply buffer_eqb_eq in Heq. done.
  - left. unfold UserDao.getUser. by rewrite Hf.
Qed.

(** X25. The login check trims the username and the password, escapes
    the username, and needs 3 to 20 characters of username and at least
    6 of password.  Over a well-formed [users] table it hands out a user
    exactly when these lengths are right and a row has that username and
    a hash that matches that password, and the user it hands out has
    that row's id, username, admin mark and secret; every other attempt,
    too short, unknown or wrong alike, ends in one and the same refusal.
    White space around either field changes nothing. *)
Theorem login_check d username password :
  unique_usernames d -> stored_hashes_ok d ->
  let name := Validator.escape (Validator.trim username) in
  let pw := Validator.trim password in
  (forall u, Server.verify_local d username password = Resolved (Some u, None) <->
     Validator.isLength name 3 (Some 20%nat) = true /\ Validator.isLength pw 6 None = true /\
     exists i row, users d !! i = Some row /\ u_username row = Sqlite.text name /\
                   hash_matches row pw /\
                   User.id u = i /\ User.username u = u_username row /\
                   User.admin u = u_admin row /\ User.secret u = u_secret row) /\
  ((forall u, Server.verify_local d username password <> Resolved (Some u, None)) ->
     Server.verify_local d username password = Resolved login_failed) /\
  Server.verify_local d (Validator.trim username) (Validator.trim password)
    = Server.verify_local d username password.
Proof.
  intros Huniq Hlen. simpl. split; [|split].
  - intros u. unfold Server.verify_local.
    destruct (Validator.isLength (Validator.escape _) 3 _) eqn:Hn; simpl;
      [|split; [discriminate|by intros [? _]]].
    destruct (Validator.isLength (Validator.trim password) 6 None) eqn:Hp; simpl;
      [|split; [discriminate|by intros (_ & ? & _)]].
    split.
    + destruct (getUser_cases d (Validator.escape (Validator.trim username))
                  (Validator.trim password) Hlen) as [->|(i & row & ? & ? & ? & ->)];
        [discriminate|].
      intros [= <-]. split; [done|]. split; [done|]. by exists i, row.
    + intros (_ & _ & i & row & Hrow & Hname & Hhash & Hfields).
      apply user_of_row_fields in Hfields as ->.
      pose proof (row_by_username_unique _ _ _ _ Huniq Hrow Hname) as Hf.
      rewrite (getUser_row _ _ _ _ _ Hf (Hlen i row Hrow)).
      apply buffer_eqb_eq in Hhash. by rewrite Hhash.
  - intros Hno. unfold Server.verify_local in *.
    destruct (negb _ || negb _); [done|].
    destruct (getUser_cases d (Validator.escape (Validator.trim username))
                (Validator.trim password) Hlen) as [Hg|(i & row & _ & _ & _ & Hg)].
    + by rewrite Hg.
    + exfalso. apply (Hno (UserDao.user_of_row i row)). by rewrite Hg.
  - unfold Server.verify_local. by rewrite !trim_idempotent.
Qed.

(** X26. The session keeps the id of the user who logged in, and
    reading the session back gives that very user: [deserializeUser]
    undoes [serializeUser] for every user [getUser] hands out. *)
Theorem session_round_trip d name password u :
  UserDao.getUser d name password = Resolved (Some u) ->
  Server.deserializeUser d (Server.serializeUser u) = UserDao.UserObject u /\
  Server.req_user d {| Server.passport_user := Some (Server.serializeUser u);
                       Server.method := None |} = Some (UserDao.UserObject u).
Proof.
  unfold UserDao.getUser.
  destruct (UserDao.row_by_username d name) as [[i row]|] eqn:Hf; [|discriminate].
  apply row_by_username_Some in Hf as [Hrow _].
  destruct (Buffer.timingSafeEqual _ _) as [[|]|]; try discriminate.
  intros [= <-].
  unfold Server.req_user, Server.deserializeUser, Server.serializeUser, UserDao.getUserById.
  simpl. by rewrite Hrow.
Qed.

End Login.

Lemma login_check_witness :
  (* a no-break space and a tab around the name, spaces after the password *)
  Server.verify_local (H:=Seed.plain_kdf) Seed.forum_with_frank
    (Seed.nbsp :: Js.lit "frank" ++ [9])%list (Js.lit "secret1  ")
    = Resolved (Some {| User.id := 6; User.username := Js.lit "frank";
                        User.admin := Some 0; User.secret := "" |}, None) /\
  Server.verify_local (H:=Seed.plain_kdf) Seed.forum_with_frank (Js.lit "frank") (Js.lit "secret2")
    = Resolved login_failed /\
  Server.verify_local (H:=Seed.plain_kdf) Seed.forum_with_frank (Js.lit "fr") (Js.lit "secret1")
    = Resolved login_failed.
Proof.
  assert (Hu : unique_usernames Seed.forum_with_frank) by decide_by_running.
  assert (Hh : stored_hashes_ok Seed.forum_with_frank) by decide_by_running.
  split; [|split].
  - destruct (login_check (H:=Seed.plain_kdf) Seed.forum_with_frank
                (Seed.nbsp :: Js.lit "frank" ++ [9])%list (Js.lit "secret1  ") Hu Hh)
      as (Hok & _ & _).
    apply Hok. split; [reflexivity|]. split; [reflexivity|].
    exists 6, Seed.frank. repeat split; vm_compute; reflexivity.
  - destruct (login_check (H:=Seed.plain_kdf) Seed.forum_with_frank
                (Js.lit "frank") (Js.lit "secret2") Hu Hh)
      as (_ & Hfail & _).
    apply Hfail. intros u. vm_compute. discriminate.
  - destruct (login_check (H:=Seed.plain_kdf) Seed.forum_with_frank
                (Js.lit "fr") (Js.lit "secret1") Hu Hh)
      as (_ & Hfail & _).
    apply Hfail. intros u. vm_compute. discriminate.
Defined.

Lemma session_round_trip_witness :
  Server.deserializeUser Seed.forum_with_frank 6
  = UserDao.UserObject (UserDao.user_of_row 6 Seed.frank).
Proof.
  destruct (session_round_trip (H:=Seed.plain_kdf) Seed.forum_with_frank
              (Js.lit "frank") (Js.lit "secret1")
              (UserDao.user_of_row 6 Seed.frank)) as [Hback _]; [vm_compute; reflexivity|].
  exact Hback.
Defined.

(** ** The second-factor form and the server *)

Section Form.

Lemma filter_all_digits l :
  forallb Validator.is_digit l = true -> List.filter Validator.is_digit l = l.
Proof.
  induction l as [|c l IH]; simpl; [done|].
  intros [Hc Hl]%andb_true_iff. rewrite Hc. by rewrite IH.
Qed.

Lemma digits_are_numeric l :
  l <> [] -> forallb Validator.is_digit l = true -> Validator.isNumeric l = true.
Proof.
  intros Hne Hall. unfold Validator.isNumeric.
  destruct l as [|c l]; [done|]. simpl in Hall.
  apply andb_true_iff in Hall as [Hc Hl].
  assert (Validator.strip_sign (c :: l) = c :: l) as ->.
  { unfold Validator.strip_sign, Validator.is_digit in *.
    destruct (c =? 43)%Z eqn:Hplus; [lia|].
    destruct (c =? 45)%Z eqn:Hminus; [lia|]. done. }
  unfold Validator.digits1. simpl. by rewrite Hc, Hl.
Qed.

(** X27. The form and the server agree on six digits.  The form submits
    exactly when the typed text, trimmed, holds six digits, and what it
    submits is the trimmed text; when the trimmed text is digits only,
    it is submitted exactly when it is six long, and what is submitted
    then passes the server's own check of the code. *)
Theorem totp_form_agrees_with_server totpCode :
  (forall code, TotpForm.handleSubmit totpCode = Some code <->
     code = Validator.trim totpCode /\
     length (TotpForm.digits_of (Validator.trim totpCode)) = 6%nat) /\
  (forallb Validator.is_digit (Validator.trim totpCode) = true ->
     (TotpForm.handleSubmit totpCode = Some (Validator.trim totpCode) <->
      length (Validator.trim totpCode) = 6%nat) /\
     (forall code, TotpForm.handleSubmit totpCode = Some code ->
        Js.truthy (Js.JString code) = true /\
        Validator.isNumeric (Validator.trim code) = true)).
Proof.
  assert (Hsub : forall code, TotpForm.handleSubmit totpCode = Some code <->
     code = Validator.trim totpCode /\
     length (TotpForm.digits_of (Validator.trim totpCode)) = 6%nat).
  { intros code. unfold TotpForm.handleSubmit.
    destruct (TotpForm.digits_of (Validator.trim totpCode)) as [|x l] eqn:Hd; simpl.
    - split; [discriminate|]. by intros [_ ?].
    - destruct (length l =? 5)%nat eqn:Hlen; simpl.
      + apply Nat.eqb_eq in Hlen. rewrite Hlen. split; [by intros [= <-]|by intros [-> _]].
      + apply Nat.eqb_neq in Hlen. split; [discriminate|]. intros [_ [= ?]]. done. }
  split; [exact Hsub|].
  intros Hall.
  assert (Hd : TotpForm.digits_of (Validator.trim totpCode) = Validator.trim totpCode)
    by apply (filter_all_digits _ Hall).
  split.
  - rewrite Hsub, Hd. tauto.
  - intros code Hcode. apply Hsub in Hcode as [-> Hlen]. rewrite Hd in Hlen.
    rewrite trim_idempotent.
    destruct (Validator.trim totpCode) as [|x l] eqn:Ht; [discriminate|].
    split; [done|]. by apply digits_are_numeric.
Qed.

End Form.

Lemma totp_form_agrees_with_server_witness :
  (* a no-break space before the code, a space after it *)
  TotpForm.handleSubmit (Seed.nbsp :: Js.lit "080972 ") = Some (Js.lit "080972") /\
  Validator.isNumeric (Validator.trim (Js.lit "080972")) = true.
Proof.
  destruct (totp_form_agrees_with_server (Seed.nbsp :: Js.lit "080972 ")) as [_ Hdigits].
  destruct (Hdigits eq_refl) as [Hsix Hserver].
  assert (Hsub : TotpForm.handleSubmit (Seed.nbsp :: Js.lit "080972 ")
                 = Some (Validator.trim (Seed.nbsp :: Js.lit "080972 ")))
    by (by apply Hsix).
  split; [exact Hsub|]. by apply (Hserver _ Hsub).
Defined.

(** ** Reading posts after a deletion *)

Section PostReads.
Context `{Sanitizer}.

Lemma listPosts_elem d k :
  k ∈ PostSummary.id <$> Dao.listPosts d <->
  exists p, posts d !! k = Some p /\ is_Some (users d !! p_userId p).
Proof.
  split; [|apply listPosts_member].
  rewrite listPosts_ids, list_elem_of_fmap.
  intros [[k' p] [-> Hin]]. apply list_elem_of_filter in Hin as [Hauthor Hin].
  unfold Sqlite.order_posts_by_date_desc in Hin.
  rewrite merge_sort_Permutation in Hin. apply elem_of_map_to_list in Hin.
  by exists p.
Qed.

Lemma sanitized_post_ids (l : list PostSummary.t) :
  PostJson.id <$> (Server.sanitizePost <$> l) = PostSummary.id <$> l.
Proof. rewrite <- list_fmap_compose. by apply list_fmap_ext. Qed.

(** X28. A deleted post is gone from both reads.  After a post deletion
    went through (200), GET /api/posts/:id answers 404 for the post that
    was deleted, by whatever path id reads as that post's id, and the
    list of GET /api/posts has lost that post and no other. *)
Theorem deleted_post_is_not_read d s raw :
  Server.status (Server.delete_post d s raw).1 = 200 ->
  let d' := (Server.delete_post d s raw).2 in
  exists pid, Server.param_id raw = Js.Num pid /\
  (raw < 2 ^ 53 -> pid = raw) /\
  (forall raw', 1 <= raw' -> Js.toInt raw' = Js.Num pid ->
     Server.get_post d' raw' = Server.respond_post 404 (Server.PostError "Post not found.")) /\
  exists l l',
    Server.get_posts d = Server.respond_post 200 (Server.JsonPosts l) /\
    Server.get_posts d' = Server.respond_post 200 (Server.JsonPosts l') /\
    (forall k, k ∈ PostJson.id <$> l' <-> k ∈ PostJson.id <$> l /\ k <> pid).
Proof.
  intros H200. simpl.
  assert (Hraw : 1 <= raw).
  { unfold Server.delete_post in H200.
    destruct (Server.req_user d s); [|discriminate].
    unfold Server.valid_id in H200. destruct (1 <=? raw)%Z eqn:Hv; [lia|discriminate]. }
  destruct (delete_post_200 d s raw H200) as (pid & p & Hpid & Hp & Hd').
  set (d' := (Server.delete_post d s raw).2) in *.
  assert (Eposts : posts d' = delete pid (posts d)) by (by rewrite Hd').
  assert (Eusers : users d' = users d) by (by rewrite Hd').
  exists pid. split; [exact Hpid|]. split; [|split].
  - intros Hsmall. rewrite param_id_exact in Hpid by lia. by injection Hpid.
  - intros raw' Hraw' Hread. unfold Server.get_post.
    rewrite (valid_id_true _ Hraw'), Hread. unfold Dao.getPost. simpl.
    by rewrite Eposts, lookup_delete_eq.
  - eexists _, _. split; [reflexivity|]. split; [reflexivity|].
    intros k. rewrite !sanitized_post_ids, !listPosts_elem, Eposts, Eusers. split.
    + intros (q & Hq & Hauthor). apply lookup_delete_Some in Hq as [Hne Hq].
      split; [by exists q|done].
    + intros [(q & Hq & Hauthor) Hne]. exists q. split; [|done].
      by apply lookup_delete_Some.
Qed.

End PostReads.

Lemma deleted_post_is_not_read_witness :
  Server.get_post (H:=Seed.keep_all) (Server.delete_post Seed.forum (Seed.with_totp 1) 2).2 2
  = Server.respond_post 404 (Server.PostError "Post not found.").
Proof.
  destruct (deleted_post_is_not_read (H:=Seed.keep_all) Seed.forum (Seed.with_totp 1) 2 eq_refl)
    as (pid & _ & Hpid & H404 & _).
  apply H404; [lia|]. rewrite (Hpid ltac:(lia)). reflexivity.
Defined.
